(** * create-docker.py: platform inference, companion-archive discovery,
      drop-folder cleanup and result reporting

    A shallow embedding of [src/sonic/create-docker.py] and the properties
    of its behaviour.

    Modelling conventions.
    - Python [str] values are lists of characters ([str]).  File names and
      build output are ASCII text; the character classes below are Python's
      ([str.isdigit], [str.isspace], [\d], [\w], [\s], [str.lower])
      restricted to code points below 128.
    - A [dict] is an association list in insertion order, which is the
      order [dict.items()] iterates in.
    - The [re] patterns of the script are written in a small regular
      expression syntax and run by a backtracking matcher that lists the
      ways to match in the order Python's engine tries them; [re.match]
      takes the first.
    - Code that can raise returns an [outcome]; [try]/[except] and
      [finally] are combinators on it.  The operating system (file system,
      tar extraction, the child process) is an interface [OS] over an
      abstract world state.
    - Of the [logger] calls only those the properties speak about are
      recorded, as [LogRecord]s; the others do not change the state.
      Appends to the run's own log files, whose failures the script
      swallows, are left out.
    - Paths are the text the script builds; how pathlib normalises that
      text is left to the [OS] operations that receive it. *)

From Stdlib Require Import List Ascii Bool Arith ZArith Lia.
From Stdlib Require Strings.String.
Import ListNotations.
Import String.StringSyntax.
Delimit Scope string_scope with string.

Set Implicit Arguments.

(* ================================================================== *)
(** * Python strings *)
(* ================================================================== *)

Definition str := list ascii.

(** A Python string literal. *)
Notation "` s" := (String.list_ascii_of_string s%string)
  (at level 1, s at level 0, format "` s").

Definition str_eqb (a b : str) : bool :=
  if list_eq_dec ascii_dec a b then true else false.

Definition chr_between (lo hi : nat) (c : ascii) : bool :=
  (lo <=? nat_of_ascii c) && (nat_of_ascii c <=? hi).

(** [c.isdigit()] and the class [\d]. *)
Definition is_digit (c : ascii) : bool := chr_between 48 57 c.

(** [c.isspace()] and the class [\s]: tab, line feed, vertical tab, form
    feed, carriage return, the four separators 0x1c-0x1f and space. *)
Definition is_space (c : ascii) : bool :=
  chr_between 9 13 c || chr_between 28 31 c || (nat_of_ascii c =? 32).

Definition is_upper (c : ascii) : bool := chr_between 65 90 c.
Definition is_lower (c : ascii) : bool := chr_between 97 122 c.

(** The class [\w]: letters, digits and the underscore. *)
Definition is_word (c : ascii) : bool :=
  is_upper c || is_lower c || is_digit c || (nat_of_ascii c =? 95).

(** The class [.] (no DOTALL): anything but a line feed. *)
Definition is_dot (c : ascii) : bool := negb (nat_of_ascii c =? 10).

Definition lower_chr (c : ascii) : ascii :=
  if is_upper c then ascii_of_nat (nat_of_ascii c + 32) else c.

(** [s.lower()] *)
Definition lower (s : str) : str := map lower_chr s.

(** [s.isdigit()]: false on the empty string. *)
Definition isdigit (s : str) : bool :=
  match s with [] => false | _ => forallb is_digit s end.

(** [s.startswith(p)], and the rest of [s] after [p]. *)
Fixpoint strip_prefix (p s : str) : option str :=
  match p, s with
  | [], _ => Some s
  | a :: p', b :: s' => if Ascii.eqb a b then strip_prefix p' s' else None
  | _ :: _, [] => None
  end.

Definition startswith (p s : str) : bool :=
  match strip_prefix p s with Some _ => true | None => false end.

(** [s.endswith(p)] *)
Definition endswith (p s : str) : bool := startswith (rev p) (rev s).

(** [sub in s] *)
Fixpoint contains (sub s : str) : bool :=
  startswith sub s ||
  match s with [] => false | _ :: s' => contains sub s' end.

(** [s.split(sep)] for a separator of one character. *)
Fixpoint split (sep : ascii) (s : str) : list str :=
  match s with
  | [] => [[]]
  | c :: s' =>
      if Ascii.eqb c sep then [] :: split sep s'
      else match split sep s' with
           | seg :: segs => (c :: seg) :: segs
           | [] => [[c]]
           end
  end.

(** [s.split(sep, 1)] for a separator of one character. *)
Fixpoint split1 (sep : ascii) (s : str) : list str :=
  match s with
  | [] => [[]]
  | c :: s' =>
      if Ascii.eqb c sep then [[]; s']
      else match split1 sep s' with
           | seg :: segs => (c :: seg) :: segs
           | [] => [[c]]
           end
  end.

(** [sep.join(l)] for a separator of one character. *)
Fixpoint join (sep : ascii) (l : list str) : str :=
  match l with
  | [] => []
  | [s] => s
  | s :: l' => s ++ sep :: join sep l'
  end.

(** [s.lstrip()], [s.rstrip()], [s.strip()] *)
Fixpoint lstrip (s : str) : str :=
  match s with
  | c :: s' => if is_space c then lstrip s' else s
  | [] => []
  end.

Definition rstrip (s : str) : str := rev (lstrip (rev s)).
Definition strip (s : str) : str := rstrip (lstrip s).

(** [s.replace(old, new)] for a non-empty [old]: the occurrences of [old]
    are found from the left and do not overlap.  The fuel is the number of
    characters left plus one, which the scan never exhausts. *)
Fixpoint replace_from (fuel : nat) (old new s : str) : str :=
  match fuel with
  | 0 => s
  | S fuel' =>
      match s with
      | [] => []
      | c :: s' =>
          match strip_prefix old s with
          | Some rest => new ++ replace_from fuel' old new rest
          | None => c :: replace_from fuel' old new s'
          end
      end
  end.

Definition replace (old new s : str) : str :=
  replace_from (S (length s)) old new s.

(** [x in l] and [l.index(x)] on a list of strings; [index] raises
    [ValueError] when [x] is absent, here [None]. *)
Definition list_mem (x : str) (l : list str) : bool := existsb (str_eqb x) l.

Fixpoint list_index (x : str) (l : list str) : option nat :=
  match l with
  | [] => None
  | y :: l' => if str_eqb y x then Some 0 else option_map S (list_index x l')
  end.

(* ================================================================== *)
(** * Dictionaries *)
(* ================================================================== *)

Definition dict := list (str * str).

(** [d.get(k)] *)
Fixpoint dict_lookup (k : str) (d : dict) : option str :=
  match d with
  | [] => None
  | (k', v) :: d' => if str_eqb k' k then Some v else dict_lookup k d'
  end.

(** [k in d] *)
Definition dict_has (k : str) (d : dict) : bool :=
  match dict_lookup k d with Some _ => true | None => false end.

(** [d.get(k, default)] *)
Definition dict_get (k : str) (default : str) (d : dict) : str :=
  match dict_lookup k d with Some v => v | None => default end.

(* ================================================================== *)
(** * Regular expressions *)
(* ================================================================== *)

(** The part of the [re] syntax the script's patterns use. *)
Inductive regex :=
| Bol                                   (* ^ *)
| Eol                                   (* $ *)
| Lit (s : str)                         (* literal text *)
| Cls (c : ascii -> bool)               (* one character of a class *)
| Plus (c : ascii -> bool)              (* class+, greedy *)
| LazyStar (c : ascii -> bool)          (* class*?, lazy *)
| Opt (r : regex)                       (* (?:r)?, greedy *)
| Seq (r1 r2 : regex)
| Alt (r1 r2 : regex)                   (* r1|r2 *)
| Group (r : regex).                    (* (r), numbered as they close *)

(** A matcher state: the input not yet consumed and the text of the
    groups closed so far. *)
Definition mstate := (str * list str)%type.

(** The remainders after taking 1, 2, ... characters of class [c] from
    the front of [s], longest first. *)
Fixpoint munch (c : ascii -> bool) (s : str) : list str :=
  match s with
  | a :: s' => if c a then munch c s' ++ [s'] else []
  | [] => []
  end.

(** The remainders after taking 0, 1, ... characters of class [c],
    shortest first. *)
Fixpoint nibble (c : ascii -> bool) (s : str) : list str :=
  s :: match s with
       | a :: s' => if c a then nibble c s' else []
       | [] => []
       end.

(** [strip_prefix] under IGNORECASE. *)
Definition strip_prefix_flags (icase : bool) (p s : str) : option str :=
  if icase then
    match strip_prefix (lower p) (lower (firstn (length p) s)) with
    | Some _ => Some (skipn (length p) s)
    | None => None
    end
  else strip_prefix p s.

(** All the ways [r] matches at the front of the state's input, in the
    order a backtracking engine tries them.  [inp] is the whole subject
    string, which [^] needs. *)
Fixpoint exec (icase : bool) (inp : str) (r : regex) (st : mstate) : list mstate :=
  match r with
  | Bol => if length (fst st) =? length inp then [st] else []
  | Eol => match fst st with
           | [] => [st]
           | [c] => if nat_of_ascii c =? 10 then [st] else []
           | _ => []
           end
  | Lit l => match strip_prefix_flags icase l (fst st) with
             | Some s' => [(s', snd st)]
             | None => []
             end
  | Cls c => match fst st with
             | a :: s' => if c a then [(s', snd st)] else []
             | [] => []
             end
  | Plus c => map (fun s' => (s', snd st)) (munch c (fst st))
  | LazyStar c => map (fun s' => (s', snd st)) (nibble c (fst st))
  | Opt r1 => exec icase inp r1 st ++ [st]
  | Seq r1 r2 => flat_map (exec icase inp r2) (exec icase inp r1 st)
  | Alt r1 r2 => exec icase inp r1 st ++ exec icase inp r2 st
  | Group r1 =>
      map (fun st' =>
             (fst st',
              snd st' ++ [firstn (length (fst st) - length (fst st')) (fst st)]))
          (exec icase inp r1 st)
  end.

(** [re.match(r, s)]: the first way to match at the start of [s]. *)
Definition re_match_state (icase : bool) (r : regex) (inp s : str) : option mstate :=
  hd_error (exec icase inp r (s, [])).

(** The groups of [re.match(r, s)]; [m.group(i)] is the element [i - 1]. *)
Definition re_match (icase : bool) (r : regex) (s : str) : option (list str) :=
  option_map snd (re_match_state icase r s s).

(** [re.search(r, s)]: the first position where [r] matches. *)
Fixpoint re_search_from (icase : bool) (r : regex) (inp s : str) : option (list str) :=
  match re_match_state icase r inp s with
  | Some st => Some (snd st)
  | None => match s with
            | [] => None
            | _ :: s' => re_search_from icase r inp s'
            end
  end.

Definition re_search (icase : bool) (r : regex) (s : str) : option (list str) :=
  re_search_from icase r s s.

(** [re.sub(r, repl, s)] for a pattern that matches no empty string:
    every match, found from the left, is replaced by [repl].  A match
    that consumes nothing is passed over like a position without match. *)
Fixpoint re_sub_from (fuel : nat) (r : regex) (repl inp s : str) : str :=
  match fuel with
  | 0 => s
  | S fuel' =>
      match re_match_state false r inp s with
      | Some (rest, _) =>
          if length rest <? length s
          then repl ++ re_sub_from fuel' r repl inp rest
          else match s with
               | [] => []
               | c :: s' => c :: re_sub_from fuel' r repl inp s'
               end
      | None =>
          match s with
          | [] => []
          | c :: s' => c :: re_sub_from fuel' r repl inp s'
          end
      end
  end.

Definition re_sub (r : regex) (repl s : str) : str :=
  re_sub_from (S (length s)) r repl s s.

Fixpoint seqs (l : list regex) : regex :=
  match l with
  | [] => Lit []
  | [r] => r
  | r :: l' => Seq r (seqs l')
  end.

(** [p{4}] for a class. *)
Definition four (c : ascii -> bool) : regex := seqs [Cls c; Cls c; Cls c; Cls c].

(* ================================================================== *)
(** * Paths *)
(* ================================================================== *)

(** [s.rfind(c)] for one character; [None] stands for -1. *)
Fixpoint rfind (c : ascii) (s : str) : option nat :=
  match s with
  | [] => None
  | a :: s' =>
      match rfind c s' with
      | Some i => Some (S i)
      | None => if Ascii.eqb a c then Some 0 else None
      end
  end.

(** [Path(p).name]: the last component of a normalised path. *)
Definition path_name (p : str) : str := last (split "/" p) [].

(** [Path(p).suffix], as pathlib computes it from the name. *)
Definition path_suffix (p : str) : str :=
  let name := path_name p in
  match rfind "." name with
  | Some i => if (0 <? i) && (i <? length name - 1) then skipn i name else []
  | None => []
  end.

(** [parent / name] *)
Definition path_join (parent name : str) : str := parent ++ "/"%char :: name.

(* ================================================================== *)
(** * Platform tables *)
(* ================================================================== *)

Definition PLATFORM_MAPPING : dict :=
  [ (`"8000", `"8000");
    (`"8101", `"8101-32H");
    (`"8102", `"8102-64H");
    (`"8122", `"8122-64EHF-O");
    (`"8201", `"8201-32FH");
    (`"8202", `"8202");
    (`"8212", `"8212-48FH-M");
    (`"8711", `"8711-32FH-M");
    (`"8804", `"8804");
    (`"8808", `"8800-lc-36fh-m");
    (`"8101-32FH", `"8101-32FH");
    (`"8101-32H", `"8101-32H");
    (`"8102-64H", `"8102-64H");
    (`"8111-32EH", `"8111-32EH");
    (`"8122-64EHF-O", `"8122-64EHF-O");
    (`"8201-24H8FH", `"8201-24H8FH");
    (`"8201-sys", `"8201-sys");
    (`"8201-32FH", `"8201-32FH");
    (`"8202-32FH-M", `"8202-32FH-M");
    (`"8212-48FH-M", `"8212-48FH-M");
    (`"8711-32FH-M", `"8711-32FH-M");
    (`"ncs1010", `"ncs1010") ].

Definition QCOW2_TO_PLATFORM : dict :=
  [ (`"8000-x64", `"8201-sys");
    (`"8101-x64", `"8101-32H");
    (`"8101-32FH-x64", `"8101-32FH");
    (`"8102-x64", `"8102-64H");
    (`"8111-32EH-x64", `"8111-32EH");
    (`"8122-64EHF-O-x64", `"8122-64EHF-O");
    (`"8201-x64", `"8201-32FH");
    (`"8202-x64", `"8202");
    (`"8202-32FH-M-x64", `"8202-32FH-M");
    (`"8212-48FH-M-x64", `"8212-48FH-M");
    (`"8711-32FH-M-x64", `"8711-32FH-M") ].

(** The platform [_extract_platform_from_filename] falls back to. *)
Definition DEFAULT_PLATFORM : str := `"8201-32FH".

(* ================================================================== *)
(** * Stage 1: the platform from the archive's file name *)
(* ================================================================== *)

(** What a block of statements inside a function body does: return a
    value, fall through to the next statement, or raise. *)
Inductive flow (A : Type) :=
| Returned (a : A)
| Next
| Raised.
Arguments Returned {A} a.
Arguments Next {A}.
Arguments Raised {A}.

Definition and_then {A} (b1 b2 : flow A) : flow A :=
  match b1 with
  | Next => b2
  | _ => b1
  end.

(** [d[k]], which raises [KeyError] on a missing key. *)
Definition dict_subscript (k : str) (d : dict) : flow str :=
  match dict_lookup k d with
  | Some v => Returned v
  | None => Raised
  end.

(** The block [if 'd' in parts: ...]. *)
Definition distributed_block (mapping : dict) (parts : list str) : flow str :=
  if list_mem `"d" parts then
    match list_index `"d" parts with
    | None => Raised
    | Some d_index =>
        if d_index + 1 <? length parts then
          match nth_error parts (d_index + 1) with
          | None => Raised
          | Some platform_part =>
              if dict_has platform_part mapping
              then dict_subscript platform_part mapping
              else Next
          end
        else Next
    end
  else Next.

(** The block [if 'f' in parts: ...]. *)
Definition fixed_block (mapping : dict) (parts : list str) : flow str :=
  if list_mem `"f" parts then
    match list_index `"f" parts with
    | None => Raised
    | Some f_index =>
        if f_index + 1 <? length parts then
          match nth_error parts (f_index + 1) with
          | None => Raised
          | Some platform_part =>
              if dict_has platform_part mapping
              then dict_subscript platform_part mapping
              else
                match
                  (if contains `"-" platform_part
                   then nth_error (split "-" platform_part) 0
                   else Some platform_part)
                with
                | None => Raised
                | Some base_platform =>
                    if dict_has base_platform mapping
                    then dict_subscript base_platform mapping
                    else Next
                end
          end
        else Next
    end
  else Next.

(** The block [if 'ncs1010' in filename: ...]. *)
Definition ncs1010_block (filename : str) : flow str :=
  if contains `"ncs1010" filename then Returned `"ncs1010" else Next.

(** The test of the fallback loop: a segment of four digits that starts
    with 8. *)
Definition is_8xxx (part : str) : bool :=
  isdigit part && (length part =? 4) && startswith `"8" part.

(** The loop [for part in parts: ...]. *)
Definition scan_block (mapping : dict) (parts : list str) : flow str :=
  match find is_8xxx parts with
  | Some part => Returned (dict_get part part mapping)
  | None => Next
  end.

(** The body of the [try] of [_extract_platform_from_filename]; falling
    off its end is [raise ValueError]. *)
Definition extract_platform_body (mapping : dict) (filename : str) : flow str :=
  let parts := split "-" filename in
  and_then (distributed_block mapping parts)
  (and_then (fixed_block mapping parts)
  (and_then (ncs1010_block filename)
  (and_then (scan_block mapping parts) Raised))).

Definition _extract_platform_from_filename (filename : str) : str :=
  match extract_platform_body PLATFORM_MAPPING filename with
  | Returned platform => platform
  | Next | Raised => DEFAULT_PLATFORM
  end.

(* ================================================================== *)
(** * Stage 2: the platform from an extracted disk image's name *)
(* ================================================================== *)

(** [-x64-\d+\.\d+\.\d+$|-\d+\.\d+\.\d+$] *)
Definition version_pattern : regex :=
  Alt (seqs [Lit `"-x64-"; Plus is_digit; Lit `"."; Plus is_digit; Lit `".";
             Plus is_digit; Eol])
      (seqs [Lit `"-"; Plus is_digit; Lit `"."; Plus is_digit; Lit `".";
             Plus is_digit; Eol]).

(** [^(\d{4})] *)
Definition platform_number_pattern : regex :=
  seqs [Bol; Group (four is_digit)].

(** The first item of [d.items()] whose key passes [test], as the two
    [for] loops over the table return it. *)
Definition first_item (test : str -> bool) (d : dict) : option str :=
  option_map snd (find (fun kv => test (fst kv)) d).

(** The body of the [try] of [_extract_platform_from_qcow2_filename]. *)
Definition extract_qcow2_body (qcow2_to_platform platform_mapping : dict)
    (qcow2_filename : str) : flow (option str) :=
  let base_name := replace `".qcow2" [] qcow2_filename in
  let base_name := re_sub version_pattern [] base_name in
  match first_item (fun qcow2_pattern => str_eqb base_name qcow2_pattern)
          qcow2_to_platform with
  | Some platform => Returned (Some platform)
  | None =>
      match first_item
              (fun qcow2_pattern =>
                 let pattern_base := replace `"-x64" [] qcow2_pattern in
                 str_eqb base_name pattern_base)
              qcow2_to_platform with
      | Some platform => Returned (Some platform)
      | None =>
          match re_match false platform_number_pattern base_name with
          | Some groups =>
              match nth_error groups 0 with
              | Some base_platform =>
                  Returned (Some (dict_get base_platform base_platform
                                    platform_mapping))
              | None => Raised
              end
          | None => Returned None
          end
      end
  end.

Definition _extract_platform_from_qcow2_filename (qcow2_filename : str)
    : option str :=
  match extract_qcow2_body QCOW2_TO_PLATFORM PLATFORM_MAPPING qcow2_filename with
  | Returned r => r
  | Next | Raised => None
  end.

(** Python's truth value of an optional string: [None] and [''] are
    false. *)
Definition truthy (o : option str) : bool :=
  match o with
  | Some (_ :: _) => true
  | _ => false
  end.

(** The extracted files [f] with [f.suffix.lower() == '.qcow2']. *)
Definition qcow2_files (extracted_files : list str) : list str :=
  filter (fun f => str_eqb (lower (path_suffix f)) `".qcow2") extracted_files.

(** [_refine_platform_from_extracted_files], as a function from the
    current [self.platform] to the new one. *)
Definition refine_platform (extracted_files : list str) (platform : option str)
    : option str :=
  match qcow2_files extracted_files with
  | f :: _ =>
      let qcow2_filename := path_name f in
      let refined_platform := _extract_platform_from_qcow2_filename qcow2_filename in
      if truthy refined_platform then refined_platform else platform
  | [] => platform
  end.

(* ================================================================== *)
(** * The input resolver: the installer archive of an image archive *)
(* ================================================================== *)

(** [[\w-]] and [[\d\.]] *)
Definition is_word_or_dash (c : ascii) : bool := is_word c || Ascii.eqb c "-".
Definition is_digit_or_dot (c : ascii) : bool := is_digit c || Ascii.eqb c ".".
(** [[fd]] *)
Definition is_f_or_d (c : ascii) : bool := Ascii.eqb c "f" || Ascii.eqb c "d".

(** [^(8000-\d+)-f-\d+(?:-[\w-]+)?-image-(eft[\d\.]+)\.tar$] *)
Definition fixed_pattern : regex :=
  seqs [Bol; Group (seqs [Lit `"8000-"; Plus is_digit]); Lit `"-f-";
        Plus is_digit; Opt (seqs [Lit `"-"; Plus is_word_or_dash]);
        Lit `"-image-"; Group (seqs [Lit `"eft"; Plus is_digit_or_dot]);
        Lit `".tar"; Eol].

(** [^(8000-\d+)-d-\d+(?:-[\w-]+)?-images-(eft[\d\.]+)\.tar$] *)
Definition distributed_pattern : regex :=
  seqs [Bol; Group (seqs [Lit `"8000-"; Plus is_digit]); Lit `"-d-";
        Plus is_digit; Opt (seqs [Lit `"-"; Plus is_word_or_dash]);
        Lit `"-images-"; Group (seqs [Lit `"eft"; Plus is_digit_or_dot]);
        Lit `".tar"; Eol].

(** [^(8000-\d+)-[fd]-\d+(?:-[\w-]+)?-images?-(eft[\d\.]+)\.tar$] *)
Definition generic_pattern : regex :=
  seqs [Bol; Group (seqs [Lit `"8000-"; Plus is_digit]); Lit `"-";
        Cls is_f_or_d; Lit `"-";
        Plus is_digit; Opt (seqs [Lit `"-"; Plus is_word_or_dash]);
        Lit `"-image"; Opt (Lit `"s"); Lit `"-";
        Group (seqs [Lit `"eft"; Plus is_digit_or_dot]);
        Lit `".tar"; Eol].

Definition patterns : list regex :=
  [fixed_pattern; distributed_pattern; generic_pattern].

(** The loop over [patterns]: [(base_pattern, eft_version)] of the first
    pattern that matches, [(None, None)] when none does. *)
Fixpoint match_patterns (pats : list regex) (filename : str)
    : option str * option str :=
  match pats with
  | [] => (None, None)
  | pattern :: pats' =>
      match re_match false pattern filename with
      | Some groups => (nth_error groups 0, nth_error groups 1)
      | None => match_patterns pats' filename
      end
  end.

(** [base_pattern] and [eft_version] when the function goes on with
    them: [if not base_pattern or not eft_version] gives up. *)
Definition parse_image_tar_name (filename : str) : option (str * str) :=
  match match_patterns patterns filename with
  | (Some base_pattern, Some eft_version) =>
      if truthy (Some base_pattern) && truthy (Some eft_version)
      then Some (base_pattern, eft_version)
      else None
  | _ => None
  end.

(** [expected_iso_name], or [None] where the function gives up on the
    file name. *)
Definition expected_iso_name (filename : str) : option str :=
  match parse_image_tar_name filename with
  | Some (base_pattern, eft_version) =>
      Some (base_pattern ++ `"-iso-" ++ eft_version ++ `".tar")
  | None => None
  end.

(** [Path(p).parent] of a normalised path with a directory part. *)
Definition path_parent (p : str) : str :=
  match rfind "/" p with
  | Some i => firstn i p
  | None => `"."
  end.

(* ================================================================== *)
(** * Exceptions, the operating system and the run state *)
(* ================================================================== *)

Inductive exn :=
| CreateSingleDockerError (msg : str)
| Exception (msg : str).

Definition exn_message (e : exn) : str :=
  match e with
  | CreateSingleDockerError msg => msg
  | Exception msg => msg
  end.

Inductive outcome (A : Type) :=
| Ok (a : A)
| Raise (e : exn).
Arguments Ok {A} a.
Arguments Raise {A} e.

(** What the script asks of its environment.  [W] is the state of the
    world; an operation that changes it returns the new one, also when it
    raises. *)
Class OS (W : Type) := {
  (** [str(Path(p).resolve())]; an absolute path is not empty. *)
  os_resolve : W -> str -> str;
  os_resolve_nonempty : forall w p, os_resolve w p <> [];
  (** [Path(__file__).parent.resolve()] *)
  os_script_dir : W -> str;
  (** [Path(p).exists()], [Path(p).is_dir()] *)
  os_exists : W -> str -> outcome bool;
  os_is_dir : W -> str -> outcome bool;
  (** [list(Path(d).glob(pattern))] *)
  os_glob : W -> str -> str -> outcome (list str);
  (** the lines of [open(p, 'r')] *)
  os_read_lines : W -> str -> outcome (list str);
  (** [shutil.rmtree(p)] *)
  os_rmtree : W -> str -> outcome unit * W;
  (** [Path(p).mkdir(parents=True, exist_ok=True)] *)
  os_mkdir : W -> str -> outcome unit * W;
  (** [tempfile.mkdtemp(prefix=...)] *)
  os_mkdtemp : W -> str -> outcome str * W;
  (** [tarfile.open(tar, 'r')], [extractall(path=dest)] and the names of
      [getmembers()] *)
  os_extract_tar : W -> str -> str -> outcome (list str) * W;
  (** [datetime.now().strftime("%Y%m%d_%H%M%S")] *)
  os_timestamp : W -> str;
  (** [os.getcwd()], [os.chdir(p)] *)
  os_getcwd : W -> outcome str;
  os_chdir : W -> str -> outcome unit * W;
  (** creating or appending to a text file *)
  os_write_file : W -> str -> outcome unit * W;
  (** [subprocess.Popen(cmd, ...)], the lines [readline] yields until the
      child is done, and [process.wait()] *)
  os_run_child : W -> list (option str) -> outcome (list str * Z) * W
}.

(** The attributes of a [CreateSingleDocker] object. *)
Record Ctx := mkCtx {
  iso_tar_path : str;
  image_tar_path : str;
  platform : option str;
  docker_name : option str;
  target : str;
  cleanup : bool;
  temp_dir_path : option str;
  temp_dir : option str;
  iso_path : option str;
  sdk_version : option str;
  script_dir : str;
  bake_and_build_script : str;
  initial_file_conf : str;
  log_dir : option str;
  log_file : option str;
  bake_build_log_file : option str
}.

Definition set_platform (v : option str) (c : Ctx) : Ctx :=
  mkCtx c.(iso_tar_path) c.(image_tar_path) v c.(docker_name) c.(target)
        c.(cleanup) c.(temp_dir_path) c.(temp_dir) c.(iso_path)
        c.(sdk_version) c.(script_dir) c.(bake_and_build_script)
        c.(initial_file_conf) c.(log_dir) c.(log_file)
        c.(bake_build_log_file).

Definition set_temp_dir (v : option str) (c : Ctx) : Ctx :=
  mkCtx c.(iso_tar_path) c.(image_tar_path) c.(platform) c.(docker_name)
        c.(target) c.(cleanup) c.(temp_dir_path) v c.(iso_path)
        c.(sdk_version) c.(script_dir) c.(bake_and_build_script)
        c.(initial_file_conf) c.(log_dir) c.(log_file)
        c.(bake_build_log_file).

Definition set_iso_path (v : option str) (c : Ctx) : Ctx :=
  mkCtx c.(iso_tar_path) c.(image_tar_path) c.(platform) c.(docker_name)
        c.(target) c.(cleanup) c.(temp_dir_path) c.(temp_dir) v
        c.(sdk_version) c.(script_dir) c.(bake_and_build_script)
        c.(initial_file_conf) c.(log_dir) c.(log_file)
        c.(bake_build_log_file).

Definition set_sdk_version (v : option str) (c : Ctx) : Ctx :=
  mkCtx c.(iso_tar_path) c.(image_tar_path) c.(platform) c.(docker_name)
        c.(target) c.(cleanup) c.(temp_dir_path) c.(temp_dir) c.(iso_path)
        v c.(script_dir) c.(bake_and_build_script)
        c.(initial_file_conf) c.(log_dir) c.(log_file)
        c.(bake_build_log_file).

Definition set_log_paths (d f b : option str) (c : Ctx) : Ctx :=
  mkCtx c.(iso_tar_path) c.(image_tar_path) c.(platform) c.(docker_name)
        c.(target) c.(cleanup) c.(temp_dir_path) c.(temp_dir) c.(iso_path)
        c.(sdk_version) c.(script_dir) c.(bake_and_build_script)
        c.(initial_file_conf) d f b.

(** The drop-folder markers of the build script's output. *)
Inductive marker := IMG_DROP_FOLDER | YAML_DROP_FOLDER.

Definition marker_prefix (m : marker) : str :=
  match m with
  | IMG_DROP_FOLDER => `"IMG_DROP_FOLDER:"
  | YAML_DROP_FOLDER => `"YAML_DROP_FOLDER:"
  end.

Inductive level := DEBUG | INFO | WARNING | ERROR.

(** The log messages that are recorded. *)
Inductive message :=
| UsingPlatform (p : option str)
| RefinedPlatform (old : option str) (new : str)
| CleaningUpDropFolder (m : marker) (folder : str)
| RemovedDropFolder (m : marker) (folder : str)
| FailedToRemoveDropFolder (m : marker) (folder : str)
| DropFolderNotADirectory (m : marker) (folder : str)
| NoDropFolderInOutput (m : marker)
| ErrorWhileCleaningUp (m : marker)
| CleanedUp (m : marker)
| NothingToCleanUp (m : marker)
| BuildFailedWithExitCode (rc : Z)
| ErrorExecutingBuild
| NoDockerImagePathFound
| ErrorExtractingDockerImagePath
| DockerImageSavedTo (path : str)
| DockerImageFileNotFound (path : str)
| WorkflowCompletedSuccessfully (image : option str)
| WorkflowCompletedWithErrors (rc : Z)
| WorkflowFailed (e : exn).

Definition LogRecord := (level * message)%type.

(** The state a run threads through its steps. *)
Record state (W : Type) := mkState {
  st_ctx : Ctx;
  st_world : W;
  st_log : list LogRecord
}.
Arguments mkState {W}.
Arguments st_ctx {W}.
Arguments st_world {W}.
Arguments st_log {W}.

(** A step of the run: from a state to a result or an exception, and the
    state it leaves. *)
Definition M (W A : Type) := state W -> outcome A * state W.

Definition ret {W A} (a : A) : M W A := fun s => (Ok a, s).

Definition raise {W A} (e : exn) : M W A := fun s => (Raise e, s).

Definition bind {W A B} (m : M W A) (k : A -> M W B) : M W B :=
  fun s =>
    match m s with
    | (Ok a, s') => k a s'
    | (Raise e, s') => (Raise e, s')
    end.

Declare Scope run_scope.
Delimit Scope run_scope with run.
Notation "x <- m ;; k" := (bind m (fun x => k))
  (at level 61, m at next level, right associativity) : run_scope.
Notation "m ;; k" := (bind m (fun _ => k))
  (at level 61, right associativity) : run_scope.
Open Scope run_scope.

(** [try: m except Exception as e: h e] *)
Definition try_except {W A} (m : M W A) (h : exn -> M W A) : M W A :=
  fun s =>
    match m s with
    | (Ok a, s') => (Ok a, s')
    | (Raise e, s') => h e s'
    end.

(** [try: m finally: f]: [f] runs in either case, and an exception of
    [f] replaces the result of [m]. *)
Definition try_finally {W A} (m : M W A) (f : M W unit) : M W A :=
  fun s =>
    match m s with
    | (r, s') =>
        match f s' with
        | (Ok _, s'') => (r, s'')
        | (Raise e, s'') => (Raise e, s'')
        end
    end.

Definition get_ctx {W} : M W Ctx := fun s => (Ok s.(st_ctx), s).

Definition modify_ctx {W} (f : Ctx -> Ctx) : M W unit :=
  fun s => (Ok tt, mkState (f s.(st_ctx)) s.(st_world) s.(st_log)).

(** [logger.<level>(message)] *)
Definition log {W} (l : level) (m : message) : M W unit :=
  fun s => (Ok tt, mkState s.(st_ctx) s.(st_world) (s.(st_log) ++ [(l, m)])).

(** An operation that only reads the world. *)
Definition ask {W A} (f : W -> outcome A) : M W A :=
  fun s => (f s.(st_world), s).

Definition ask_pure {W A} (f : W -> A) : M W A :=
  fun s => (Ok (f s.(st_world)), s).

(** An operation that changes the world. *)
Definition act {W A} (f : W -> outcome A * W) : M W A :=
  fun s =>
    match f s.(st_world) with
    | (r, w') => (r, mkState s.(st_ctx) w' s.(st_log))
    end.

(* ================================================================== *)
(** * [find_iso_tar_from_image_tar] *)
(* ================================================================== *)

(** [a / b] of pathlib: an absolute [b] replaces [a]. *)
Definition path_div (a b : str) : str :=
  if startswith `"/" b then b else path_join a b.

Definition find_iso_tar_body {W} `{OS W} (w : W) (image_tar_path : str)
    : outcome (option str) :=
  let image_tar_path := os_resolve w image_tar_path in
  let parent_dir := path_parent image_tar_path in
  let filename := path_name image_tar_path in
  match parse_image_tar_name filename with
  | None => Ok None
  | Some (base_pattern, eft_version) =>
      let expected_iso_name :=
        base_pattern ++ `"-iso-" ++ eft_version ++ `".tar" in
      let expected_iso_path := path_div parent_dir expected_iso_name in
      match os_exists w expected_iso_path with
      | Raise e => Raise e
      | Ok true => Ok (Some expected_iso_path)
      | Ok false =>
          match os_glob w parent_dir `"*-iso-*.tar" with
          | Raise e => Raise e
          | Ok iso_files =>
              Ok (find (fun iso_file =>
                          startswith base_pattern (path_name iso_file))
                       iso_files)
          end
      end
  end.

Definition find_iso_tar_from_image_tar {W} `{OS W} (w : W) (image_tar_path : str)
    : option str :=
  match find_iso_tar_body w image_tar_path with
  | Ok r => r
  | Raise _ => None
  end.

(* ================================================================== *)
(** * The methods of [CreateSingleDocker] *)
(* ================================================================== *)

Section Methods.

Context {W : Type} `{OS W}.

Definition raise_unless (b : bool) (e : exn) : M W unit :=
  if b then ret tt else raise e.

Definition _validate_inputs : M W unit :=
  c <- get_ctx ;;
  e <- ask (fun w => os_exists w c.(iso_tar_path)) ;;
  raise_unless e (CreateSingleDockerError `"ISO tar file not found") ;;
  e <- ask (fun w => os_exists w c.(image_tar_path)) ;;
  raise_unless e (CreateSingleDockerError `"Image tar file not found") ;;
  e <- ask (fun w => os_exists w c.(bake_and_build_script)) ;;
  raise_unless e (CreateSingleDockerError `"bake-and-build.sh not found") ;;
  (if negb (truthy c.(platform))
   then modify_ctx (set_platform
          (Some (_extract_platform_from_filename (path_name c.(image_tar_path)))))
   else ret tt) ;;
  c <- get_ctx ;;
  log INFO (UsingPlatform c.(platform)).

(** [CreateSingleDocker(...)]: the attributes, then [_validate_inputs]. *)
Definition new_CreateSingleDocker (w : W) (iso_tar_path image_tar_path : str)
    (platform docker_name : option str) (target : str) (cleanup : bool)
    (temp_dir : option str) : outcome unit * state W :=
  let script_dir := os_script_dir w in
  _validate_inputs
    (mkState
       (mkCtx (os_resolve w iso_tar_path) (os_resolve w image_tar_path)
              platform docker_name target cleanup temp_dir None None None
              script_dir
              (path_div (path_div (path_parent script_dir) `"bake-and-build")
                        `"bake-and-build.sh")
              (path_div script_dir `"required_files.conf")
              None None None)
       w []).

(** The paths of [files], relative to [root], that do not exist. *)
Fixpoint missing_files (root : str) (files : list str) : M W (list str) :=
  match files with
  | [] => ret []
  | rel_path :: files' =>
      let abs_path := path_div root rel_path in
      e <- ask (fun w => os_exists w abs_path) ;;
      missing <- missing_files root files' ;;
      ret (if e then missing else abs_path :: missing)
  end.

Definition _initial_file_check (conf_path : str) : M W unit :=
  c <- get_ctx ;;
  let _root_ := path_parent (path_parent c.(script_dir)) in
  e <- ask (fun w => os_exists w conf_path) ;;
  raise_unless e (CreateSingleDockerError `"Config file not found") ;;
  lines <- ask (fun w => os_read_lines w conf_path) ;;
  let files :=
    map strip
        (filter (fun line =>
                   truthy (Some (strip line)) && negb (startswith `"#" (strip line)))
                lines) in
  missing <- missing_files _root_ files ;;
  match missing with
  | _ :: _ => raise (CreateSingleDockerError `"Missing required files")
  | [] => ret tt
  end.

Definition _create_temp_directory : M W unit :=
  c <- get_ctx ;;
  match c.(temp_dir_path) with
  | Some (a :: p) =>
      modify_ctx (set_temp_dir (Some (a :: p))) ;;
      act (fun w => os_mkdir w (a :: p))
  | _ =>
      d <- act (fun w => os_mkdtemp w `"create_single_docker_") ;;
      modify_ctx (set_temp_dir (Some d))
  end.

Definition _extract_tar_file (tar_path extract_to : str) : M W (list str) :=
  try_except
    (names <- act (fun w => os_extract_tar w tar_path extract_to) ;;
     ret (map (path_div extract_to) names))
    (fun e =>
       raise (CreateSingleDockerError (`"Failed to extract: " ++ exn_message e))).

Definition _find_iso_file (extracted_files : list str) : M W str :=
  let iso_files :=
    filter (fun f => str_eqb (lower (path_suffix f)) `".iso") extracted_files in
  match iso_files with
  | [] => raise (CreateSingleDockerError `"No ISO file found in extracted files")
  | f :: _ => ret f
  end.

Definition _extract_sdk_version_from_iso (iso_path : str) : M W (option str) :=
  let hardcoded_version := `"24.10.2230.6.dc" in
  ret (Some hardcoded_version).

Definition _refine_platform_from_extracted_files (extracted_files : list str)
    : M W unit :=
  try_except
    (match qcow2_files extracted_files with
     | f :: _ =>
         let qcow2_filename := path_name f in
         let refined_platform :=
           _extract_platform_from_qcow2_filename qcow2_filename in
         match refined_platform with
         | Some (a :: p) =>
             c <- get_ctx ;;
             log INFO (RefinedPlatform c.(platform) (a :: p)) ;;
             modify_ctx (set_platform (Some (a :: p)))
         | _ => ret tt
         end
     | [] => ret tt
     end)
    (fun _ => ret tt).

(** [str(x)] of an optional path or string. *)
Definition py_str (o : option str) : str :=
  match o with
  | Some s => s
  | None => `"None"
  end.

(** The argument list; [None] is Python's [None], which [self.platform]
    would contribute if it were unset. *)
Definition _build_bake_and_build_command (c : Ctx) : list (option str) :=
  [Some `"bash"; Some c.(bake_and_build_script);
   Some `"-i"; Some (py_str c.(iso_path));
   Some `"-p"; c.(platform);
   Some `"-t"; Some c.(target)]
  ++ (if truthy c.(docker_name) then [Some `"-d"; c.(docker_name)] else [])
  ++ (if truthy c.(sdk_version) then [Some `"--forcesdk"; c.(sdk_version)] else []).

(** The loop of [_cleanup_img_drop_folder] and [_cleanup_yaml_drop_folder]
    over the lines of the output; its [else] branch is the empty list. *)
Fixpoint cleanup_lines (m : marker) (lines : list str) : M W bool :=
  match lines with
  | [] => log INFO (NoDropFolderInOutput m) ;; ret false
  | line :: lines' =>
      let line := strip line in
      if startswith (marker_prefix m) line then
        match nth_error (split1 ":" line) 1 with
        | None => raise (Exception `"list index out of range")
        | Some rest =>
            let folder_path := strip rest in
            e <- ask (fun w => os_exists w folder_path) ;;
            d <- (if e then ask (fun w => os_is_dir w folder_path) else ret false) ;;
            if d then
              log DEBUG (CleaningUpDropFolder m folder_path) ;;
              try_except
                (act (fun w => os_rmtree w folder_path) ;;
                 log INFO (RemovedDropFolder m folder_path) ;;
                 ret true)
                (fun _ =>
                   log WARNING (FailedToRemoveDropFolder m folder_path) ;;
                   ret false)
            else
              log WARNING (DropFolderNotADirectory m folder_path) ;;
              ret false
        end
      else cleanup_lines m lines'
  end.

Definition cleanup_drop_folder (m : marker) (output : str) : M W bool :=
  try_except
    (cleanup_lines m (split "010" output))
    (fun _ => log WARNING (ErrorWhileCleaningUp m) ;; ret false).

Definition _cleanup_img_drop_folder : str -> M W bool :=
  cleanup_drop_folder IMG_DROP_FOLDER.

Definition _cleanup_yaml_drop_folder : str -> M W bool :=
  cleanup_drop_folder YAML_DROP_FOLDER.

Definition _run_bake_and_build (cmd : list (option str)) : M W (Z * str) :=
  try_except
    (r <- act (fun w => os_run_child w cmd) ;;
     let all_output :=
       map rstrip (filter (fun output => truthy (Some output)) (fst r)) in
     let return_code := snd r in
     (if (return_code =? 0)%Z then ret tt
      else log ERROR (BuildFailedWithExitCode return_code)) ;;
     let full_output := join "010" all_output in
     b <- _cleanup_img_drop_folder full_output ;;
     log INFO (if b then CleanedUp IMG_DROP_FOLDER
                else NothingToCleanUp IMG_DROP_FOLDER) ;;
     b <- _cleanup_yaml_drop_folder full_output ;;
     log INFO (if b then CleanedUp YAML_DROP_FOLDER
                else NothingToCleanUp YAML_DROP_FOLDER) ;;
     ret (return_code, full_output))
    (fun e =>
       log ERROR ErrorExecutingBuild ;;
       ret (1%Z, `"Error occurred during execution: " ++ exn_message e)).

(** [Saving docker image,.*?to\s+(.+\.tar)] *)
Definition docker_image_pattern : regex :=
  seqs [Lit `"Saving docker image,"; LazyStar is_dot; Lit `"to";
        Plus is_space; Group (seqs [Plus is_dot; Lit `".tar"])].

Fixpoint docker_image_path_lines (lines : list str) : M W (option str) :=
  match lines with
  | [] => log DEBUG NoDockerImagePathFound ;; ret None
  | line :: lines' =>
      let line := strip line in
      match re_search true docker_image_pattern line with
      | Some groups =>
          match nth_error groups 0 with
          | None => raise (Exception `"no such group")
          | Some g =>
              let docker_image_path := strip g in
              if truthy (Some docker_image_path) && endswith `".tar" docker_image_path
              then
                e <- ask (fun w => os_exists w docker_image_path) ;;
                if e then
                  p <- ask_pure (fun w => os_resolve w docker_image_path) ;;
                  ret (Some p)
                else ret (Some docker_image_path)
              else docker_image_path_lines lines'
          end
      | None => docker_image_path_lines lines'
      end
  end.

Definition _extract_docker_image_path (output : str) : M W (option str) :=
  try_except
    (docker_image_path_lines (split "010" output))
    (fun _ => log WARNING ErrorExtractingDockerImagePath ;; ret None).

Definition _setup_logging_directory : M W unit :=
  try_except
    (c <- get_ctx ;;
     timestamp <- ask_pure os_timestamp ;;
     let sdk_version :=
       if truthy c.(sdk_version) then py_str c.(sdk_version) else `"unknown" in
     let dir_name :=
       timestamp ++ `"-" ++ sdk_version ++ `"-" ++ py_str c.(platform) in
     current_dir <- ask os_getcwd ;;
     let log_dir := path_div (path_div current_dir `"ovxr-docker.out") dir_name in
     modify_ctx (set_log_paths (Some log_dir) c.(log_file) c.(bake_build_log_file)) ;;
     act (fun w => os_mkdir w log_dir) ;;
     let log_file := path_div log_dir `"create_single_docker.log" in
     modify_ctx (set_log_paths (Some log_dir) (Some log_file)
                   (Some (path_div log_dir `"bake-and-build.log"))) ;;
     act (fun w => os_write_file w log_file))
    (fun e =>
       modify_ctx (set_log_paths None None None) ;;
       raise (Exception (`"Logging setup failed: " ++ exn_message e))).

Definition _cleanup_temp_directory : M W unit :=
  c <- get_ctx ;;
  match c.(temp_dir) with
  | Some d =>
      if c.(cleanup) then
        e <- ask (fun w => os_exists w d) ;;
        if e then act (fun w => os_rmtree w d)
        else ret tt
      else ret tt
  | None => ret tt
  end.

(** The first steps of [run]: the manifest check, the scratch directory
    and the extraction of both archives. *)
Definition extract_archives : M W (list str * list str) :=
  c <- get_ctx ;;
  _initial_file_check c.(initial_file_conf) ;;
  _create_temp_directory ;;
  c <- get_ctx ;;
  let temp_dir := py_str c.(temp_dir) in
  iso_extracted_files <- _extract_tar_file c.(iso_tar_path) temp_dir ;;
  image_extracted_files <- _extract_tar_file c.(image_tar_path) temp_dir ;;
  ret (iso_extracted_files, image_extracted_files).

(** The next steps of [run], from the refinement of the platform to the
    build command. *)
Definition configure (iso_extracted_files image_extracted_files : list str)
    : M W (list (option str)) :=
  _refine_platform_from_extracted_files image_extracted_files ;;
  iso <- _find_iso_file iso_extracted_files ;;
  modify_ctx (set_iso_path (Some iso)) ;;
  sdk <- _extract_sdk_version_from_iso iso ;;
  modify_ctx (set_sdk_version sdk) ;;
  _setup_logging_directory ;;
  c <- get_ctx ;;
  ret (_build_bake_and_build_command c).

(** The steps of [run] after [_run_bake_and_build] has returned. *)
Definition report (return_code : Z) (bake_build_output : str) : M W Z :=
  docker_image_path <-
    (if (return_code =? 0)%Z then
       docker_image_path <- _extract_docker_image_path bake_build_output ;;
       match docker_image_path with
       | Some (a :: p) =>
           log INFO (DockerImageSavedTo (a :: p)) ;;
           ret docker_image_path
       | _ => ret docker_image_path
       end
     else ret None) ;;
  return_code <-
    match docker_image_path with
    | Some (a :: p) =>
        e <- ask (fun w => os_exists w (a :: p)) ;;
        if e then ret return_code
        else log ERROR (DockerImageFileNotFound (a :: p)) ;; ret 1%Z
    | _ => ret return_code
    end ;;
  (if (return_code =? 0)%Z
   then log INFO (WorkflowCompletedSuccessfully
                    (if truthy docker_image_path then docker_image_path else None))
   else log INFO (WorkflowCompletedWithErrors return_code)) ;;
  ret return_code.

Definition run : M W Z :=
  try_finally
    (try_except
       (extracted <- extract_archives ;;
        cmd <- configure (fst extracted) (snd extracted) ;;
        c <- get_ctx ;;
        original_cwd <- ask os_getcwd ;;
        act (fun w => os_chdir w (path_parent c.(bake_and_build_script))) ;;
        try_finally
          (r <- _run_bake_and_build cmd ;;
           report (fst r) (snd r))
          (act (fun w => os_chdir w original_cwd)))
       (fun e => log ERROR (WorkflowFailed e) ;; ret 1%Z))
    _cleanup_temp_directory.

(** The run up to the return of [_run_bake_and_build]: the child's exit
    code, its output and the directory to go back to. *)
Definition run_until_report : M W (Z * str * str) :=
  extracted <- extract_archives ;;
  cmd <- configure (fst extracted) (snd extracted) ;;
  c <- get_ctx ;;
  original_cwd <- ask os_getcwd ;;
  act (fun w => os_chdir w (path_parent c.(bake_and_build_script))) ;;
  r <- _run_bake_and_build cmd ;;
  ret (fst r, snd r, original_cwd).

(** What [main] makes of [creator.run(args)]: its value is the exit
    status, an exception exits with 1. *)
Definition exit_status (r : outcome Z) : Z :=
  match r with
  | Ok exit_code => exit_code
  | Raise _ => 1%Z
  end.

End Methods.

(** The arguments [argparse] hands to [main]. *)
Record Args := mkArgs {
  arg_image_tar : option str;
  arg_iso_tar : option str;
  arg_image_tar_flag : option str;
  arg_platform : option str;
  arg_docker_name : option str;
  arg_target : str;
  arg_no_cleanup : bool;
  arg_temp_dir : option str
}.

(** The two archive paths [main] settles on; [None] is [sys.exit(1)]. *)
Definition resolve_inputs {W} `{OS W} (w : W) (args : Args)
    : option (str * str) :=
  if truthy args.(arg_image_tar) then
    let image_tar_path := py_str args.(arg_image_tar) in
    match find_iso_tar_from_image_tar w image_tar_path with
    | Some iso_tar_path => Some (iso_tar_path, image_tar_path)
    | None => None
    end
  else if truthy args.(arg_iso_tar) && truthy args.(arg_image_tar_flag) then
    Some (py_str args.(arg_iso_tar), py_str args.(arg_image_tar_flag))
  else None.

(** [main]: the exit status of the process and the state the run ended
    in, when a [CreateSingleDocker] object came to exist. *)
Definition main {W} `{OS W} (w : W) (args : Args) : Z * option (state W) :=
  match resolve_inputs w args with
  | None => (1%Z, None)
  | Some (iso_tar_path, image_tar_path) =>
      match new_CreateSingleDocker w iso_tar_path image_tar_path
              args.(arg_platform) args.(arg_docker_name) args.(arg_target)
              (negb args.(arg_no_cleanup)) args.(arg_temp_dir) with
      | (Raise _, s) => (1%Z, Some s)
      | (Ok _, s) =>
          match run s with
          | (r, s') => (exit_status r, Some s')
          end
      end
  end.

(* ================================================================== *)
(** * A small world to run the script in *)
(* ================================================================== *)

(** Files and directories by their path, the members of the tar archives,
    directories [rmtree] fails on, and what the build script prints and
    exits with. *)
Record SimpleWorld := mkWorld {
  sw_files : list str;
  sw_dirs : list str;
  sw_locked : list str;
  sw_archives : list (str * list str);
  sw_child_lines : list str;
  sw_child_code : Z
}.

Definition sw_add_file (p : str) (w : SimpleWorld) : SimpleWorld :=
  mkWorld (p :: w.(sw_files)) w.(sw_dirs) w.(sw_locked) w.(sw_archives)
          w.(sw_child_lines) w.(sw_child_code).

Definition sw_add_dir (p : str) (w : SimpleWorld) : SimpleWorld :=
  mkWorld w.(sw_files) (p :: w.(sw_dirs)) w.(sw_locked) w.(sw_archives)
          w.(sw_child_lines) w.(sw_child_code).

(** Removing a directory removes every path below it. *)
Definition sw_remove (p : str) (w : SimpleWorld) : SimpleWorld :=
  let keep q := negb (str_eqb q p || startswith (p ++ `"/") q) in
  mkWorld (filter keep w.(sw_files)) (filter keep w.(sw_dirs)) w.(sw_locked)
          w.(sw_archives) w.(sw_child_lines) w.(sw_child_code).

Definition sw_resolve (p : str) : str :=
  match p with
  | [] => ["/"%char]
  | c :: r => if Ascii.eqb c "/" then c :: r else "/"%char :: c :: r
  end.

Definition sw_resolve_nonempty (w : SimpleWorld) (p : str) : sw_resolve p <> [] :=
  match p as p0 return sw_resolve p0 <> [] with
  | [] => fun E => nil_cons (eq_sym E)
  | c :: r =>
      match Ascii.eqb c "/" as b
            return (if b then c :: r else "/"%char :: c :: r) <> [] with
      | true => fun E => nil_cons (eq_sym E)
      | false => fun E => nil_cons (eq_sym E)
      end
  end.

Fixpoint sw_members (tar : str) (l : list (str * list str)) : option (list str) :=
  match l with
  | [] => None
  | (t, names) :: l' => if str_eqb t tar then Some names else sw_members tar l'
  end.

#[export] Instance SimpleOS : OS SimpleWorld := {
  os_resolve := fun _ p => sw_resolve p;
  os_resolve_nonempty := sw_resolve_nonempty;
  os_script_dir := fun _ => `"/opt/ovxr/sonic";
  os_exists := fun w p => Ok (list_mem p w.(sw_files) || list_mem p w.(sw_dirs));
  os_is_dir := fun w p => Ok (list_mem p w.(sw_dirs));
  os_glob := fun w d _ =>
    Ok (filter (fun f => str_eqb (path_parent f) d
                         && contains `"-iso-" (path_name f)
                         && endswith `".tar" f) w.(sw_files));
  os_read_lines := fun _ _ => Ok [];
  os_rmtree := fun w p =>
    if list_mem p w.(sw_locked)
    then (Raise (Exception `"Permission denied"), w)
    else (Ok tt, sw_remove p w);
  os_mkdir := fun w p => (Ok tt, sw_add_dir p w);
  os_mkdtemp := fun w prefix =>
    (Ok (`"/tmp/" ++ prefix), sw_add_dir (`"/tmp/" ++ prefix) w);
  os_extract_tar := fun w tar dest =>
    match sw_members tar w.(sw_archives) with
    | Some names =>
        (Ok names, fold_right (fun n => sw_add_file (path_div dest n)) w names)
    | None => (Raise (Exception `"not a tar archive"), w)
    end;
  os_timestamp := fun _ => `"20250101_120000";
  os_getcwd := fun _ => Ok `"/work";
  os_chdir := fun w _ => (Ok tt, w);
  os_write_file := fun w p => (Ok tt, sw_add_file p w);
  os_run_child := fun w _ => (Ok (w.(sw_child_lines), w.(sw_child_code)), w)
}.

(** A release directory with both archives, a build script that prints
    [lines] and exits with [code], and [extra] directories. *)
Definition release_world (image_members : list str) (lines : list str)
    (code : Z) (extra_dirs locked : list str) : SimpleWorld :=
  mkWorld
    [`"/rel/8000-2512-iso-eft15.1.tar";
     `"/rel/8000-2512-f-8101-image-eft15.1.tar";
     `"/opt/ovxr/bake-and-build/bake-and-build.sh";
     `"/opt/ovxr/sonic/required_files.conf"]
    (`"/rel" :: `"/work" :: extra_dirs)
    locked
    [(`"/rel/8000-2512-iso-eft15.1.tar", [`"8000-x64.iso"]);
     (`"/rel/8000-2512-f-8101-image-eft15.1.tar", image_members)]
    lines code.

Definition easy_args (platform : option str) : Args :=
  mkArgs (Some `"/rel/8000-2512-f-8101-image-eft15.1.tar") None None
         platform None `"all" false None.

(* ================================================================== *)
(** * The properties as the specification words them *)
(* ================================================================== *)

(** The segment that follows the first segment equal to [m]. *)
Fixpoint segment_after (m : str) (parts : list str) : option str :=
  match parts with
  | [] => None
  | p :: rest => if str_eqb p m then hd_error rest else segment_after m rest
  end.

(** The prefix of a candidate before its first [-]. *)
Definition prefix_before_dash (c : str) : str := hd [] (split "-" c).

(** A candidate platform code is looked up in the table, and then its
    prefix before the first [-]; the first hit wins. *)
Definition lookup_candidate (mapping : dict) (candidate : option str)
    : option str :=
  match candidate with
  | None => None
  | Some c =>
      match dict_lookup c mapping with
      | Some v => Some v
      | None => dict_lookup (prefix_before_dash c) mapping
      end
  end.

(** Stage 1 as the specification's testable property words it: the code
    after a marker [d] or [f], looked up; failing that the raw four-digit
    token that starts with 8; failing that the default. *)
Definition stage1_as_stated (filename : str) : str :=
  let parts := split "-" filename in
  match lookup_candidate PLATFORM_MAPPING (segment_after `"d" parts) with
  | Some v => v
  | None =>
      match lookup_candidate PLATFORM_MAPPING (segment_after `"f" parts) with
      | Some v => v
      | None =>
          match find is_8xxx parts with
          | Some token => token
          | None => DEFAULT_PLATFORM
          end
      end
  end.

(** Stage 1 with the [ncs1010] step in its place and the table lookup of
    the scanned token. *)
Definition stage1_policy (filename : str) : str :=
  let parts := split "-" filename in
  match lookup_candidate PLATFORM_MAPPING (segment_after `"d" parts) with
  | Some v => v
  | None =>
      match lookup_candidate PLATFORM_MAPPING (segment_after `"f" parts) with
      | Some v => v
      | None =>
          if contains `"ncs1010" filename then `"ncs1010"
          else
            match find is_8xxx parts with
            | Some token => dict_get token token PLATFORM_MAPPING
            | None => DEFAULT_PLATFORM
            end
      end
  end.

(** [Path(name).stem]: the name without its suffix. *)
Definition strip_extension (name : str) : str :=
  firstn (length name - length (path_suffix name)) name.

(** Stage 2 as the specification words it: the extension is stripped,
    then the trailing version suffix, then the stem is resolved. *)
Definition stage2_as_stated (qcow2_filename : str) : option str :=
  let stem := re_sub version_pattern [] (strip_extension qcow2_filename) in
  match first_item (fun key => str_eqb stem key) QCOW2_TO_PLATFORM with
  | Some platform => Some platform
  | None =>
      match first_item (fun key => str_eqb stem (replace `"-x64" [] key))
              QCOW2_TO_PLATFORM with
      | Some platform => Some platform
      | None =>
          match stem with
          | a :: b :: c :: d :: _ =>
              if forallb is_digit [a; b; c; d]
              then Some (dict_get [a; b; c; d] [a; b; c; d] PLATFORM_MAPPING)
              else None
          | _ => None
          end
      end
  end.

Section Statements.

Context {W : Type} `{OS W}.

(** The platform of a run state. *)
Definition platform_of (s : state W) : option str := s.(st_ctx).(platform).

(** An operation that leaves the platform as it is. *)
Definition keeps_platform {A} (m : M W A) : Prop :=
  forall s, platform_of (snd (m s)) = platform_of s.

(** The platform after an operation is the platform before it, or what
    refinement makes of it for some list of extracted files. *)
Definition changes_platform_by_refinement {A} (m : M W A) : Prop :=
  forall s, exists files,
    platform_of (snd (m s)) = refine_platform files (platform_of s).

(** Stage 2 as the first testable property words it: whenever a file
    with the disk-image extension was extracted, the platform becomes
    the one derived from the first such file name. *)
Definition refinement_always_overrides : Prop :=
  forall (files : list str) (s : state W) f rest,
    qcow2_files files = f :: rest ->
    platform_of (snd (_refine_platform_from_extracted_files files s)) =
    _extract_platform_from_qcow2_filename (path_name f).

(** The data-model invariant for a reading [more_specific new old] of
    "more specific": an operation that changes the platform changes it
    to a strictly more specific one. *)
Definition only_more_specific (more_specific : str -> str -> Prop) : Prop :=
  forall (files : list str) (s : state W) old new,
    platform_of s = Some old ->
    platform_of (snd (_refine_platform_from_extracted_files files s)) = Some new ->
    new <> old ->
    more_specific new old.

(** An operation that never raises, and one that always returns [v]. *)
Definition succeeds {A} (m : M W A) : Prop :=
  forall s, exists a s', m s = (Ok a, s').

Definition returns {A} (v : A) (m : M W A) : Prop :=
  forall s, exists s', m s = (Ok v, s').

(** The state with some more log records. *)
Definition logged (s : state W) (records : list LogRecord) : state W :=
  mkState s.(st_ctx) s.(st_world) (s.(st_log) ++ records).

End Statements.

(** The shape the fixed and the distributed pattern share. *)
Definition archive_pattern (mark image : str) : regex :=
  seqs [Bol; Group (seqs [Lit `"8000-"; Plus is_digit]); Lit mark;
        Plus is_digit; Opt (seqs [Lit `"-"; Plus is_word_or_dash]);
        Lit image; Group (seqs [Lit `"eft"; Plus is_digit_or_dot]);
        Lit `".tar"; Eol].

(** [r] starts with no character of class [c]. *)
Definition stops (c : ascii -> bool) (r : str) : Prop :=
  match r with
  | [] => True
  | y :: _ => c y = false
  end.

(** A release identifier [8000-<digits>]. *)
Definition is_release_id (rel : str) : bool :=
  match strip_prefix `"8000-" rel with
  | Some ds => isdigit ds
  | None => false
  end.

(** The digits at the front of a string, and what follows them. *)
Fixpoint span_digits (s : str) : str * str :=
  match s with
  | c :: s' =>
      if is_digit c then (c :: fst (span_digits s'), snd (span_digits s'))
      else ([], s)
  | [] => ([], [])
  end.

(** A platform segment: digits, then optionally [-] and word characters
    or dashes. *)
Definition is_platform_segment (plat : str) : bool :=
  match span_digits plat with
  | (_ :: _, []) => true
  | (_ :: _, "-"%char :: c :: w) => forallb is_word_or_dash (c :: w)
  | _ => false
  end.

(** An eft tag [eft<digits and dots>]. *)
Definition is_eft_tag (eft : str) : bool :=
  match strip_prefix `"eft" eft with
  | Some (c :: x) => forallb is_digit_or_dot (c :: x)
  | _ => false
  end.

(** A state of a run in the small world, with the given platform. *)
Definition example_state (platform : option str) (w : SimpleWorld)
    : state SimpleWorld :=
  mkState
    (mkCtx `"/rel/8000-2512-iso-eft15.1.tar"
           `"/rel/8000-2512-f-8101-image-eft15.1.tar"
           platform None `"all" true None None None None
           `"/opt/ovxr/sonic" `"/opt/ovxr/bake-and-build/bake-and-build.sh"
           `"/opt/ovxr/sonic/required_files.conf" None None None)
    w [].

(** A run with [--platform 8202-32FH-M] whose image archive holds
    [8101-32FH-x64-25.1.2.qcow2]. *)
Definition c6_world : SimpleWorld :=
  release_world [`"8101-32FH-x64-25.1.2.qcow2"] [] 0 [] [].

Definition c6_state0 : state SimpleWorld :=
  example_state (Some `"8202-32FH-M") c6_world.

(** A build that exits 0 and names an artifact that is not there. *)
Definition c7_lines : list str :=
  [`"building" ++ ["010"%char];
   `"Saving docker image, ovxr:latest to /out/img.tar" ++ ["010"%char]].

Definition c7_output : str :=
  join "010" [`"building"; `"Saving docker image, ovxr:latest to /out/img.tar"].

Definition c7_world : SimpleWorld :=
  release_world [`"8101-32FH-x64-25.1.2.qcow2"] c7_lines 0 [] [].

Definition c7_state0 : state SimpleWorld :=
  example_state (Some `"8101-32H") c7_world.

(** A build that exits 0 and names no artifact. *)
Definition c8_lines : list str :=
  [`"building" ++ ["010"%char];
   `"IMG_DROP_FOLDER: /tmp/drop1" ++ ["010"%char];
   `"done" ++ ["010"%char]].


Definition c8_world : SimpleWorld :=
  release_world [`"8101-32FH-x64-25.1.2.qcow2"] c8_lines 0 [`"/tmp/drop1"] [].

Definition c8_state0 : state SimpleWorld :=
  example_state (Some `"8101-32H") c8_world.

(** An output with two lines for one marker and one for the other. *)
Definition c9_output : str :=
  join "010" [`"building"; `"IMG_DROP_FOLDER: /tmp/drop1";
              `"YAML_DROP_FOLDER: /tmp/yaml1"; `"IMG_DROP_FOLDER: /tmp/drop2"].

Definition c9_state0 : state SimpleWorld :=
  example_state (Some `"8101-32H")
    (release_world [] [] 0 [`"/tmp/drop1"; `"/tmp/drop2"; `"/tmp/yaml1"] []).

(** An output that names a folder that is missing and one that cannot be
    removed. *)
Definition c10_lines : list str :=
  [`"IMG_DROP_FOLDER: /tmp/gone" ++ ["010"%char];
   `"YAML_DROP_FOLDER: /tmp/locked" ++ ["010"%char]].

Definition c10_output : str :=
  join "010" [`"IMG_DROP_FOLDER: /tmp/gone"; `"YAML_DROP_FOLDER: /tmp/locked"].

Definition c10_world : SimpleWorld :=
  release_world [] c10_lines 0 [`"/tmp/locked"] [`"/tmp/locked"].

Definition c10_state0 : state SimpleWorld :=
  example_state (Some `"8101-32H") c10_world.

(* ================================================================== *)
(** * Further statements and worlds *)
(* ================================================================== *)


Section MoreStatements.
Context {W : Type} `{OS W}.

(** The platform of a state is set: neither [None] nor empty. *)
Definition has_platform (s : state W) : Prop := truthy (platform_of s) = true.

End MoreStatements.

(** A version [<major>.<minor>.<patch>] of three runs of digits. *)
Definition version_text (major minor patch : str) : str :=
  major ++ `"." ++ minor ++ `"." ++ patch.

(** A world without archives: both extractions fail. *)
Definition no_archive_world : SimpleWorld :=
  mkWorld
    [`"/rel/8000-2512-iso-eft15.1.tar";
     `"/rel/8000-2512-f-8101-image-eft15.1.tar";
     `"/opt/ovxr/bake-and-build/bake-and-build.sh";
     `"/opt/ovxr/sonic/required_files.conf"]
    [`"/rel"; `"/work"] [] [] [] 0.

(** A build that exits with 3. *)
Definition failed_build_world : SimpleWorld :=
  release_world [`"8101-32FH-x64-25.1.2.qcow2"]
    [`"Saving docker image, ovxr:latest to /out/img.tar" ++ ["010"%char]] 3 [] [].

(** What one line of the build output means to
    [_extract_docker_image_path]: nothing, an artifact path, or a match
    without its group. *)
Inductive line_verdict :=
| NoArtifact
| Artifact (path : str)
| NoGroup.

(** The body of the loop of [_extract_docker_image_path] up to the test
    of the captured path. *)
Definition artifact_of_line (line : str) : line_verdict :=
  let line := strip line in
  match re_search true docker_image_pattern line with
  | Some groups =>
      match nth_error groups 0 with
      | None => NoGroup
      | Some g =>
          let docker_image_path := strip g in
          if truthy (Some docker_image_path) && endswith `".tar" docker_image_path
          then Artifact docker_image_path
          else NoArtifact
      end
  | None => NoArtifact
  end.

(** The lines of the manifest that name a file: not blank, no comment. *)
Definition manifest_entries (lines : list str) : list str :=
  map strip
      (filter (fun line =>
                 truthy (Some (strip line)) && negb (startswith `"#" (strip line)))
              lines).

(** A world with a manifest, in which creating a directory can fail. *)
Record ManifestWorld := mkManifestWorld {
  mw_base : SimpleWorld;
  mw_manifest : list str;
  mw_read_only : bool
}.

#[export] Instance ManifestOS : OS ManifestWorld := {
  os_resolve := fun _ p => sw_resolve p;
  os_resolve_nonempty := fun w p => sw_resolve_nonempty w.(mw_base) p;
  os_script_dir := fun w => os_script_dir w.(mw_base);
  os_exists := fun w p => os_exists w.(mw_base) p;
  os_is_dir := fun w p => os_is_dir w.(mw_base) p;
  os_glob := fun w d pat => os_glob w.(mw_base) d pat;
  os_read_lines := fun w _ => Ok w.(mw_manifest);
  os_rmtree := fun w p =>
    (fst (os_rmtree w.(mw_base) p),
     mkManifestWorld (snd (os_rmtree w.(mw_base) p)) w.(mw_manifest) w.(mw_read_only));
  os_mkdir := fun w p =>
    if w.(mw_read_only) then (Raise (Exception `"Read-only file system"), w)
    else (Ok tt, mkManifestWorld (sw_add_dir p w.(mw_base)) w.(mw_manifest)
                   w.(mw_read_only));
  os_mkdtemp := fun w prefix =>
    (fst (os_mkdtemp w.(mw_base) prefix),
     mkManifestWorld (snd (os_mkdtemp w.(mw_base) prefix)) w.(mw_manifest)
       w.(mw_read_only));
  os_extract_tar := fun w tar dest =>
    (fst (os_extract_tar w.(mw_base) tar dest),
     mkManifestWorld (snd (os_extract_tar w.(mw_base) tar dest)) w.(mw_manifest)
       w.(mw_read_only));
  os_timestamp := fun w => os_timestamp w.(mw_base);
  os_getcwd := fun w => os_getcwd w.(mw_base);
  os_chdir := fun w _ => (Ok tt, w);
  os_write_file := fun w p =>
    (Ok tt, mkManifestWorld (sw_add_file p w.(mw_base)) w.(mw_manifest)
              w.(mw_read_only));
  os_run_child := fun w cmd =>
    (fst (os_run_child w.(mw_base) cmd),
     mkManifestWorld (snd (os_run_child w.(mw_base) cmd)) w.(mw_manifest)
       w.(mw_read_only))
}.

(** The state of [example_state] in a world with a manifest. *)
Definition manifest_state (manifest : list str) (read_only : bool)
    (w : SimpleWorld) : state ManifestWorld :=
  mkState (st_ctx (example_state (Some `"8101-32H") w))
          (mkManifestWorld w manifest read_only) [].

(** A build whose first artifact line ends in upper case. *)
Definition two_artifact_lines : str :=
  join "010" [`"building";
              `"Saving docker image, ovxr:a to /out/A.TAR";
              `"Saving docker image, ovxr:b to /out/b.tar";
              `"Saving docker image, ovxr:c to /out/c.tar"].

(** The arguments with other values for [--iso-tar] and [--image-tar]. *)
Definition with_flags (iso_tar image_tar_flag : option str) (args : Args) : Args :=
  mkArgs args.(arg_image_tar) iso_tar image_tar_flag args.(arg_platform)
         args.(arg_docker_name) args.(arg_target) args.(arg_no_cleanup)
         args.(arg_temp_dir).

(** What a run is given: the attributes no step is meant to change. *)
Definition inputs_of (c : Ctx) :=
  (c.(iso_tar_path), c.(image_tar_path), c.(docker_name), c.(target),
   c.(cleanup), c.(temp_dir_path), c.(script_dir), c.(bake_and_build_script),
   c.(initial_file_conf)).

Section MoreStatements.

Context {W : Type} `{OS W}.

(** An operation that leaves the inputs of the run as they are. *)
Definition keeps_inputs {A} (m : M W A) : Prop :=
  forall s, inputs_of (st_ctx (snd (m s))) = inputs_of (st_ctx s).

(** The [try] block of [run] with its [except] clause, without the
    [finally] clause. *)
Definition workflow : M W Z :=
  try_except
    (extracted <- extract_archives ;;
     cmd <- configure (fst extracted) (snd extracted) ;;
     c <- get_ctx ;;
     original_cwd <- ask os_getcwd ;;
     act (fun w => os_chdir w (path_parent c.(bake_and_build_script))) ;;
     try_finally
       (r <- _run_bake_and_build cmd ;;
        report (fst r) (snd r))
       (act (fun w => os_chdir w original_cwd)))
    (fun e => log ERROR (WorkflowFailed e) ;; ret 1%Z).

End MoreStatements.

(** A run with [--no-cleanup]. *)
Definition no_cleanup_state : state SimpleWorld :=
  mkState
    (mkCtx `"/rel/8000-2512-iso-eft15.1.tar"
           `"/rel/8000-2512-f-8101-image-eft15.1.tar"
           None None `"all" false None None None None
           `"/opt/ovxr/sonic" `"/opt/ovxr/bake-and-build/bake-and-build.sh"
           `"/opt/ovxr/sonic/required_files.conf" None None None)
    c8_world [].

(** The non-empty lines of the child, right-trimmed, as
    [_run_bake_and_build] collects them. *)
Definition collected_lines (lines : list str) : list str :=
  map rstrip (filter (fun output => truthy (Some output)) lines).

(** A world in which the artifact the build names is there. *)
Definition artifact_world : SimpleWorld := sw_add_file `"/out/img.tar" c7_world.

(* ================================================================== *)
(** * Strings *)
(* ================================================================== *)

Lemma str_eqb_eq (a b : str) : str_eqb a b = true <-> a = b.
Proof.
  unfold str_eqb. destruct (list_eq_dec ascii_dec a b); split; congruence.
Qed.

Lemma str_eqb_refl (a : str) : str_eqb a a = true.
Proof. apply str_eqb_eq. reflexivity. Qed.

Lemma str_eqb_neq (a b : str) : str_eqb a b = false <-> a <> b.
Proof.
  unfold str_eqb. destruct (list_eq_dec ascii_dec a b); split; congruence.
Qed.

Lemma str_eqb_sym (a b : str) : str_eqb a b = str_eqb b a.
Proof.
  destruct (str_eqb b a) eqn:E.
  - apply str_eqb_eq in E. subst. apply str_eqb_refl.
  - apply str_eqb_neq in E. apply str_eqb_neq. congruence.
Qed.

Lemma strip_prefix_spec (p s r : str) : strip_prefix p s = Some r <-> s = p ++ r.
Proof.
  revert s. induction p as [|a p IH]; intros s; simpl.
  - split; congruence.
  - destruct s as [|b s]; [split; discriminate|].
    destruct (Ascii.eqb_spec a b) as [->|N].
    + rewrite IH. split; congruence.
    + split; [discriminate | congruence].
Qed.

Lemma strip_prefix_app (p r : str) : strip_prefix p (p ++ r) = Some r.
Proof. apply strip_prefix_spec. reflexivity. Qed.

Lemma startswith_spec (p s : str) : startswith p s = true <-> exists r, s = p ++ r.
Proof.
  unfold startswith. destruct (strip_prefix p s) as [r|] eqn:E.
  - apply strip_prefix_spec in E. split; eauto.
  - split; [discriminate|]. intros [r ->]. rewrite strip_prefix_app in E.
    discriminate.
Qed.

Lemma split_not_nil (sep : ascii) (s : str) : split sep s <> [].
Proof.
  destruct s as [|c s]; simpl; [discriminate|].
  destruct (Ascii.eqb c sep); [discriminate|].
  destruct (split sep s); discriminate.
Qed.

(** No segment of a split holds the separator. *)
Lemma split_segment_free (sep : ascii) (s x : str) :
  In x (split sep s) -> ~ In sep x.
Proof.
  revert x. induction s as [|c s IH]; intros x; simpl.
  - intros [<-|[]]. auto.
  - destruct (Ascii.eqb_spec c sep) as [->|N].
    + intros [<-|Hx]; auto.
    + destruct (split sep s) as [|seg segs] eqn:E.
      * intros [<-|[]]. simpl. intros [?|[]]. congruence.
      * intros [<-|Hx].
        -- simpl. intros [?|Hin]; [congruence|].
           revert Hin. apply IH. left. reflexivity.
        -- apply IH. right. exact Hx.
Qed.

(** A string without the separator is its own single segment. *)
Lemma split_free (sep : ascii) (s : str) : ~ In sep s -> split sep s = [s].
Proof.
  induction s as [|c s IH]; simpl; intros Hn; [reflexivity|].
  destruct (Ascii.eqb_spec c sep) as [->|N]; [tauto|].
  rewrite IH by tauto. reflexivity.
Qed.

Lemma contains_one_char (c : ascii) (s : str) :
  ~ In c s -> contains [c] s = false.
Proof.
  induction s as [|a s IH]; simpl; intros Hn; [reflexivity|].
  unfold startswith. simpl.
  destruct (Ascii.eqb_spec c a) as [->|N]; [tauto|].
  simpl. apply IH. tauto.
Qed.

(** What follows the consumed part of a string is the rest. *)
Lemma firstn_consumed (a r : str) :
  firstn (length (a ++ r) - length r) (a ++ r) = a.
Proof.
  rewrite length_app, Nat.add_sub.
  rewrite firstn_app, Nat.sub_diag, firstn_all. simpl. apply app_nil_r.
Qed.

(* ================================================================== *)
(** * Stage 1 *)
(* ================================================================== *)

Lemma list_mem_false_segment (m : str) (parts : list str) :
  list_mem m parts = false -> segment_after m parts = None.
Proof.
  unfold list_mem. induction parts as [|p rest IH]; simpl; [reflexivity|].
  rewrite str_eqb_sym. destruct (str_eqb p m); simpl; [discriminate|].
  exact IH.
Qed.

(** [parts.index(m)] and the bound test find the segment after [m]. *)
Lemma list_index_segment (m : str) (parts : list str) :
  list_mem m parts = true ->
  exists i, list_index m parts = Some i /\
            nth_error parts (i + 1) = segment_after m parts /\
            (i + 1 <? length parts) =
              match segment_after m parts with Some _ => true | None => false end.
Proof.
  unfold list_mem. induction parts as [|p rest IH]; simpl; [discriminate|].
  rewrite str_eqb_sym. destruct (str_eqb p m) eqn:E; simpl.
  - intros _. exists 0. simpl. destruct rest; auto.
  - intros Hm. destruct (IH Hm) as (i & Hi & Hn & Hb).
    exists (S i). rewrite Hi. simpl. repeat split; assumption.
Qed.

Lemma segment_after_In (m : str) (parts : list str) (c : str) :
  segment_after m parts = Some c -> In c parts.
Proof.
  induction parts as [|p rest IH]; simpl; [discriminate|].
  destruct (str_eqb p m).
  - destruct rest; simpl; [discriminate|]. intros [= ->]. auto.
  - auto.
Qed.

Lemma dict_subscript_has (k : str) (d : dict) :
  (if dict_has k d then dict_subscript k d else Next) =
  match dict_lookup k d with Some v => Returned v | None => Next end.
Proof.
  unfold dict_has, dict_subscript. destruct (dict_lookup k d); reflexivity.
Qed.

(** A segment of a split has no dash, so its prefix before the first dash
    is the segment itself. *)
Lemma lookup_candidate_segment (mapping : dict) (filename c : str) :
  In c (split "-" filename) ->
  lookup_candidate mapping (Some c) = dict_lookup c mapping.
Proof.
  intros Hc. apply split_segment_free in Hc.
  unfold lookup_candidate, prefix_before_dash.
  rewrite split_free by exact Hc. simpl. destruct (dict_lookup c mapping); reflexivity.
Qed.

Lemma distributed_block_spec (mapping : dict) (filename : str) :
  distributed_block mapping (split "-" filename) =
  match lookup_candidate mapping (segment_after `"d" (split "-" filename)) with
  | Some v => Returned v
  | None => Next
  end.
Proof.
  unfold distributed_block.
  destruct (list_mem `"d" (split "-" filename)) eqn:Hm.
  - destruct (list_index_segment _ _ Hm) as (i & -> & Hn & Hb).
    rewrite Hb, Hn.
    destruct (segment_after `"d" (split "-" filename)) as [c|] eqn:Hc;
      [|reflexivity].
    rewrite (lookup_candidate_segment mapping filename c)
      by (eapply segment_after_In; eassumption).
    apply dict_subscript_has.
  - rewrite (list_mem_false_segment _ _ Hm). reflexivity.
Qed.

Lemma fixed_block_spec (mapping : dict) (filename : str) :
  fixed_block mapping (split "-" filename) =
  match lookup_candidate mapping (segment_after `"f" (split "-" filename)) with
  | Some v => Returned v
  | None => Next
  end.
Proof.
  unfold fixed_block.
  destruct (list_mem `"f" (split "-" filename)) eqn:Hm.
  - destruct (list_index_segment _ _ Hm) as (i & -> & Hn & Hb).
    rewrite Hb, Hn.
    destruct (segment_after `"f" (split "-" filename)) as [c|] eqn:Hc;
      [|reflexivity].
    assert (Hin : In c (split "-" filename))
      by (eapply segment_after_In; eassumption).
    rewrite (lookup_candidate_segment mapping filename c Hin).
    pose proof (split_segment_free _ _ _ Hin) as Hfree.
    change (`"-") with ["-"%char].
    rewrite contains_one_char by exact Hfree.
    unfold dict_has, dict_subscript.
    destruct (dict_lookup c mapping); reflexivity.
  - rewrite (list_mem_false_segment _ _ Hm). reflexivity.
Qed.

Lemma stage1_is_policy (filename : str) :
  _extract_platform_from_filename filename = stage1_policy filename.
Proof.
  unfold _extract_platform_from_filename, extract_platform_body, stage1_policy.
  rewrite distributed_block_spec, fixed_block_spec.
  destruct (lookup_candidate PLATFORM_MAPPING
              (segment_after `"d" (split "-" filename))); [reflexivity|].
  destruct (lookup_candidate PLATFORM_MAPPING
              (segment_after `"f" (split "-" filename))); [reflexivity|].
  unfold and_then, ncs1010_block, scan_block.
  destruct (contains `"ncs1010" filename); [reflexivity|].
  destruct (find is_8xxx (split "-" filename)); reflexivity.
Qed.

(** C2, as stated, fails: with [ncs1010] in the name and an unknown code
    after the marker the code answers [ncs1010], not the scanned token
    [8999]. *)
Lemma C2_counterexample :
  ~ (forall filename,
       _extract_platform_from_filename filename = stage1_as_stated filename).
Proof.
  intros Hall.
  specialize (Hall `"ncs1010-2512-f-8999-image-eft15.1.tar").
  vm_compute in Hall. discriminate.
Qed.

(** C2, amended.  Stage 1 takes the segment after the first [d] segment,
    then the segment after the first [f] segment, and returns the table
    value of the first one that is a key (the prefix before the first
    dash of a segment is the segment).  Without a hit it returns
    [ncs1010] when the name holds that text; otherwise the table value
    of the first four-digit segment starting with 8, or that segment
    when the table lacks it; otherwise the default [8201-32FH].  The
    archive [8000-2512-f-8101-image-eft15.1.tar] gives [8101-32H]. *)
Theorem C2_stage1_inference :
  (forall filename,
     _extract_platform_from_filename filename = stage1_policy filename) /\
  _extract_platform_from_filename `"8000-2512-f-8101-image-eft15.1.tar"
    = `"8101-32H".
Proof.
  split.
  - exact stage1_is_policy.
  - vm_compute. reflexivity.
Qed.

(* ================================================================== *)
(** * Stage 2 *)
(* ================================================================== *)

Lemma re_match_platform_number (s : str) :
  re_match false platform_number_pattern s =
  match s with
  | a :: b :: c :: d :: _ =>
      if forallb is_digit [a; b; c; d] then Some [[a; b; c; d]] else None
  | _ => None
  end.
Proof.
  unfold re_match, re_match_state, platform_number_pattern, four.
  cbn [seqs exec fst snd]. rewrite Nat.eqb_refl. cbn [flat_map app map].
  destruct s as [|a [|b [|c [|d r]]]]; cbn -[Nat.sub firstn length];
    try reflexivity.
  all: repeat match goal with
              | |- context [is_digit ?x] =>
                  destruct (is_digit x); cbn -[Nat.sub firstn length];
                  try reflexivity
              end.
  change (a :: b :: c :: d :: r) with ([a; b; c; d] ++ r).
  rewrite firstn_consumed. reflexivity.
Qed.

Lemma first_item_In (test : str -> bool) (d : dict) (v : str) :
  first_item test d = Some v -> In v (map snd d).
Proof.
  unfold first_item. destruct (find _ d) as [[k v']|] eqn:E; simpl; [|discriminate].
  intros Heq; inversion Heq; subst. apply find_some in E. destruct E as [E _].
  apply (in_map snd) in E. exact E.
Qed.

Lemma table_values_nonempty :
  Forall (fun v : str => v <> []) (map snd QCOW2_TO_PLATFORM) /\
  Forall (fun v : str => v <> []) (map snd PLATFORM_MAPPING).
Proof. split; repeat constructor; discriminate. Qed.

Lemma dict_lookup_In (k : str) (d : dict) (v : str) :
  dict_lookup k d = Some v -> In v (map snd d).
Proof.
  induction d as [|[k' v'] d IH]; simpl; [discriminate|].
  destruct (str_eqb k' k); [intros [= ->]; auto | auto].
Qed.

Lemma stage2_nonempty (name q : str) :
  _extract_platform_from_qcow2_filename name = Some q -> q <> [].
Proof.
  unfold _extract_platform_from_qcow2_filename, extract_qcow2_body.
  set (base := re_sub version_pattern [] (replace `".qcow2" [] name)).
  destruct (first_item (fun k => str_eqb base k) QCOW2_TO_PLATFORM)
    as [v|] eqn:E1.
  { cbn beta iota. intros Heq; inversion Heq; subst.
    apply first_item_In in E1.
    destruct table_values_nonempty as [Hq _].
    rewrite Forall_forall in Hq. apply Hq. exact E1. }
  destruct (first_item (fun k => str_eqb base (replace `"-x64" [] k))
              QCOW2_TO_PLATFORM) as [v|] eqn:E2.
  { cbn beta iota. intros Heq; inversion Heq; subst.
    apply first_item_In in E2.
    destruct table_values_nonempty as [Hq _].
    rewrite Forall_forall in Hq. apply Hq. exact E2. }
  rewrite re_match_platform_number.
  destruct base as [|a [|b [|c [|d r]]]]; try discriminate.
  destruct (forallb is_digit [a; b; c; d]); [|discriminate].
  cbn [nth_error]. cbn beta iota. intros Heq; inversion Heq; subst. unfold dict_get.
  destruct (dict_lookup [a; b; c; d] PLATFORM_MAPPING) as [v|] eqn:E3.
  - apply dict_lookup_In in E3.
    destruct table_values_nonempty as [_ Hp].
    rewrite Forall_forall in Hp. apply Hp. exact E3.
  - discriminate.
Qed.

Lemma replace_from_nil (fuel : nat) (old new : str) :
  replace_from fuel old new [] = [].
Proof. destruct fuel; reflexivity. Qed.

(** Where [old] occurs only at the very end, [replace] cuts it off. *)
Lemma replace_only_at_end (old stem : str) (fuel : nat) :
  old <> [] -> length (stem ++ old) < fuel ->
  (forall a b, stem = a ++ b -> b <> [] -> startswith old (b ++ old) = false) ->
  replace_from fuel old [] (stem ++ old) = stem.
Proof.
  intros Hold. revert fuel. induction stem as [|c stem IH]; intros fuel Hf Hno.
  - cbn [app]. destruct fuel as [|fuel]; [inversion Hf|].
    destruct old as [|o old]; [congruence|]. cbn [replace_from].
    assert (Hp : strip_prefix (o :: old) (o :: old) = Some [])
      by (apply strip_prefix_spec; rewrite app_nil_r; reflexivity).
    rewrite Hp. cbn [app]. apply replace_from_nil.
  - destruct fuel as [|fuel]; [inversion Hf|].
    cbn [app replace_from].
    pose proof (Hno [] (c :: stem) eq_refl ltac:(discriminate)) as Hs.
    unfold startswith in Hs. cbn [app] in Hs.
    destruct (strip_prefix old (c :: stem ++ old)); [discriminate|].
    f_equal. apply IH.
    + cbn [app length] in Hf. lia.
    + intros a b -> Hb. apply (Hno (c :: a) b); [reflexivity | exact Hb].
Qed.

Lemma rfind_app_free (c : ascii) (a b : str) :
  ~ In c b -> rfind c (a ++ c :: b) = Some (length a).
Proof.
  intros Hb.
  assert (Hn : rfind c b = None).
  { induction b as [|x b IH]; [reflexivity|]. cbn [rfind].
    rewrite IH by (cbn in Hb; tauto).
    destruct (Ascii.eqb_spec x c) as [->|N]; [cbn in Hb; tauto | reflexivity]. }
  induction a as [|x a IH]; cbn [app rfind length].
  - rewrite Hn, Ascii.eqb_refl. reflexivity.
  - rewrite IH. reflexivity.
Qed.

Lemma path_name_plain (name : str) : ~ In "/"%char name -> path_name name = name.
Proof. intros Hn. unfold path_name. rewrite split_free by exact Hn. reflexivity. Qed.

Lemma strip_extension_qcow2 (stem : str) :
  stem <> [] -> ~ In "/"%char stem ->
  strip_extension (stem ++ `".qcow2") = stem.
Proof.
  intros Hne Hs. unfold strip_extension, path_suffix.
  rewrite path_name_plain.
  2:{ intros Hin. apply in_app_or in Hin as [Hin|Hin]; [tauto|].
      cbn in Hin. intuition discriminate. }
  change (`".qcow2") with ("."%char :: `"qcow2").
  rewrite rfind_app_free by (cbn; intuition discriminate).
  replace ((0 <? length stem) && (length stem <? length (stem ++ "."%char :: `"qcow2") - 1))
    with true.
  2:{ symmetry. apply andb_true_intro. split.
      - apply Nat.ltb_lt. destruct stem; [congruence | cbn; lia].
      - apply Nat.ltb_lt. rewrite length_app. cbn. lia. }
  rewrite skipn_app, skipn_all, Nat.sub_diag. cbn [skipn app].
  rewrite length_app, Nat.add_sub. rewrite firstn_app, Nat.sub_diag, firstn_all.
  cbn. apply app_nil_r.
Qed.

(** On a name [<stem>.qcow2] whose only [.qcow2] is the extension the
    code resolves what the specification's wording resolves. *)
Lemma stage2_agrees_on_lower_case_names (stem : str) :
  stem <> [] -> ~ In "/"%char stem ->
  (forall a b, stem = a ++ b -> b <> [] ->
     startswith `".qcow2" (b ++ `".qcow2") = false) ->
  _extract_platform_from_qcow2_filename (stem ++ `".qcow2") =
  stage2_as_stated (stem ++ `".qcow2").
Proof.
  intros Hne Hs Hno.
  unfold _extract_platform_from_qcow2_filename, extract_qcow2_body,
    stage2_as_stated. cbv zeta.
  assert (Hrep : replace `".qcow2" [] (stem ++ `".qcow2") = stem).
  { unfold replace. apply replace_only_at_end;
      [discriminate | lia | exact Hno]. }
  rewrite Hrep.
  rewrite strip_extension_qcow2 by assumption.
  set (base := re_sub version_pattern [] stem).
  destruct (first_item (fun k => str_eqb base k) QCOW2_TO_PLATFORM);
    [reflexivity|].
  destruct (first_item (fun k => str_eqb base (replace `"-x64" [] k))
              QCOW2_TO_PLATFORM); [reflexivity|].
  rewrite re_match_platform_number.
  destruct base as [|a [|b [|c [|d r]]]]; try reflexivity.
  destruct (forallb is_digit [a; b; c; d]); reflexivity.
Qed.

Lemma refine_platform_spec (files : list str) (p : option str) :
  refine_platform files p =
  match qcow2_files files with
  | f :: _ =>
      match _extract_platform_from_qcow2_filename (path_name f) with
      | Some q => Some q
      | None => p
      end
  | [] => p
  end.
Proof.
  unfold refine_platform. destruct (qcow2_files files) as [|f rest]; [reflexivity|].
  destruct (_extract_platform_from_qcow2_filename (path_name f)) as [q|] eqn:E;
    [|reflexivity].
  apply stage2_nonempty in E. destruct q; [congruence | reflexivity].
Qed.

(** Refining twice is refining once, with one of the two file lists. *)
Lemma refine_platform_twice (files1 files2 : list str) (p : option str) :
  exists files,
    refine_platform files2 (refine_platform files1 p) = refine_platform files p.
Proof.
  rewrite (refine_platform_spec files2).
  destruct (qcow2_files files2) as [|f rest] eqn:E2.
  - exists files1. reflexivity.
  - destruct (_extract_platform_from_qcow2_filename (path_name f)) as [q|] eqn:Eq.
    + exists files2. rewrite refine_platform_spec, E2, Eq. reflexivity.
    + exists files1. reflexivity.
Qed.

(* ================================================================== *)
(** * The platform along a run *)
(* ================================================================== *)

Section PlatformAlongRun.

Context {W : Type} `{OS W}.

Lemma bind_ok {A B} (m : M W A) (k : A -> M W B) (s s' : state W) (b : B) :
  bind m k s = (Ok b, s') ->
  exists a s1, m s = (Ok a, s1) /\ k a s1 = (Ok b, s').
Proof.
  unfold bind. destruct (m s) as [[a|e] s1]; [|discriminate].
  intros Hk. exists a, s1. auto.
Qed.

Lemma keeps_ret {A} (a : A) : keeps_platform (ret (W:=W) a).
Proof. intros s. reflexivity. Qed.

Lemma keeps_raise {A} (e : exn) : keeps_platform (raise (W:=W) (A:=A) e).
Proof. intros s. reflexivity. Qed.

Lemma keeps_log (l : level) (m : message) : keeps_platform (log (W:=W) l m).
Proof. intros s. reflexivity. Qed.

Lemma keeps_get_ctx : keeps_platform (get_ctx (W:=W)).
Proof. intros s. reflexivity. Qed.

Lemma keeps_ask {A} (f : W -> outcome A) : keeps_platform (ask f).
Proof. intros s. reflexivity. Qed.

Lemma keeps_ask_pure {A} (f : W -> A) : keeps_platform (ask_pure f).
Proof. intros s. reflexivity. Qed.

Lemma keeps_act {A} (f : W -> outcome A * W) : keeps_platform (act f).
Proof.
  intros s. unfold act, platform_of. destruct (f (st_world s)). reflexivity.
Qed.

Lemma keeps_modify_ctx (f : Ctx -> Ctx) :
  (forall c, platform (f c) = platform c) -> keeps_platform (modify_ctx (W:=W) f).
Proof. intros Hf s. unfold modify_ctx, platform_of. simpl. apply Hf. Qed.

Lemma keeps_bind {A B} (m : M W A) (k : A -> M W B) :
  keeps_platform m -> (forall a, keeps_platform (k a)) -> keeps_platform (bind m k).
Proof.
  intros Hm Hk s. unfold bind. specialize (Hm s).
  destruct (m s) as [[a|e] s']; simpl in *.
  - rewrite (Hk a s'). exact Hm.
  - exact Hm.
Qed.

Lemma keeps_try_except {A} (m : M W A) (h : exn -> M W A) :
  keeps_platform m -> (forall e, keeps_platform (h e)) ->
  keeps_platform (try_except m h).
Proof.
  intros Hm Hh s. unfold try_except. specialize (Hm s).
  destruct (m s) as [[a|e] s']; simpl in *.
  - exact Hm.
  - rewrite (Hh e s'). exact Hm.
Qed.

Lemma keeps_try_finally {A} (m : M W A) (f : M W unit) :
  keeps_platform m -> keeps_platform f -> keeps_platform (try_finally m f).
Proof.
  intros Hm Hf s. unfold try_finally. specialize (Hm s).
  destruct (m s) as [r s']. specialize (Hf s').
  destruct (f s') as [[u|e] s'']; simpl in *; congruence.
Qed.

Lemma keeps_if {A} (b : bool) (m1 m2 : M W A) :
  keeps_platform m1 -> keeps_platform m2 -> keeps_platform (if b then m1 else m2).
Proof. destruct b; auto. Qed.

Ltac keeps_with tac :=
  repeat first
    [ tac
    | match goal with |- forall _, _ => intro end
    | apply keeps_ret | apply keeps_raise | apply keeps_log | apply keeps_get_ctx
    | apply keeps_ask | apply keeps_ask_pure | apply keeps_act
    | apply keeps_modify_ctx; reflexivity
    | match goal with
      | |- keeps_platform (bind _ _) => apply keeps_bind
      | |- keeps_platform (try_except _ _) => apply keeps_try_except
      | |- keeps_platform (try_finally _ _) => apply keeps_try_finally
      | |- keeps_platform (if ?b then _ else _) => destruct b
      | |- keeps_platform (match ?x with _ => _ end) => destruct x
      | |- keeps_platform (raise_unless ?b _) => unfold raise_unless
      end ].

Ltac keeps := keeps_with fail.

Lemma keeps_missing_files (root : str) (files : list str) :
  keeps_platform (missing_files root files).
Proof. induction files as [|f files IH]; simpl; keeps_with ltac:(exact IH). Qed.

Lemma keeps_initial_file_check (conf : str) : keeps_platform (_initial_file_check conf).
Proof.
  unfold _initial_file_check. keeps_with ltac:(apply keeps_missing_files).
Qed.

Lemma keeps_create_temp_directory : keeps_platform _create_temp_directory.
Proof. unfold _create_temp_directory. keeps. Qed.

Lemma keeps_extract_tar_file (t d : str) : keeps_platform (_extract_tar_file t d).
Proof. unfold _extract_tar_file. keeps. Qed.

Lemma keeps_find_iso_file (files : list str) : keeps_platform (W:=W) (_find_iso_file files).
Proof. unfold _find_iso_file. keeps. Qed.

Lemma keeps_setup_logging_directory : keeps_platform _setup_logging_directory.
Proof. unfold _setup_logging_directory. keeps. Qed.

Lemma keeps_cleanup_lines (m : marker) (lines : list str) :
  keeps_platform (cleanup_lines m lines).
Proof. induction lines as [|l lines IH]; simpl; keeps_with ltac:(exact IH). Qed.

Lemma keeps_cleanup_drop_folder (m : marker) (output : str) :
  keeps_platform (cleanup_drop_folder m output).
Proof.
  unfold cleanup_drop_folder. keeps_with ltac:(apply keeps_cleanup_lines).
Qed.

Lemma keeps_run_bake_and_build (cmd : list (option str)) :
  keeps_platform (_run_bake_and_build cmd).
Proof.
  unfold _run_bake_and_build, _cleanup_img_drop_folder, _cleanup_yaml_drop_folder.
  keeps_with ltac:(apply keeps_cleanup_drop_folder).
Qed.

Lemma keeps_docker_image_path_lines (lines : list str) :
  keeps_platform (docker_image_path_lines lines).
Proof. induction lines as [|l lines IH]; simpl; keeps_with ltac:(exact IH). Qed.

Lemma keeps_extract_docker_image_path (output : str) :
  keeps_platform (_extract_docker_image_path output).
Proof.
  unfold _extract_docker_image_path.
  keeps_with ltac:(apply keeps_docker_image_path_lines).
Qed.

Lemma keeps_report (rc : Z) (output : str) : keeps_platform (report rc output).
Proof.
  unfold report. keeps_with ltac:(apply keeps_extract_docker_image_path).
Qed.

Lemma keeps_cleanup_temp_directory : keeps_platform _cleanup_temp_directory.
Proof. unfold _cleanup_temp_directory. keeps. Qed.

Lemma keeps_extract_archives : keeps_platform extract_archives.
Proof.
  unfold extract_archives.
  keeps_with ltac:(first [apply keeps_initial_file_check
                         | apply keeps_create_temp_directory
                         | apply keeps_extract_tar_file]).
Qed.

(** What [_refine_platform_from_extracted_files] does to the platform. *)
Lemma refine_step (files : list str) (s : state W) :
  platform_of (snd (_refine_platform_from_extracted_files files s)) =
  refine_platform files (platform_of s).
Proof.
  unfold _refine_platform_from_extracted_files, refine_platform.
  destruct (qcow2_files files) as [|f rest]; [reflexivity|].
  destruct (_extract_platform_from_qcow2_filename (path_name f)) as [[|a q]|];
    reflexivity.
Qed.

Lemma refine_never_raises (files : list str) (s : state W) :
  fst (_refine_platform_from_extracted_files files s) = Ok tt.
Proof.
  unfold _refine_platform_from_extracted_files.
  destruct (qcow2_files files) as [|f rest]; [reflexivity|].
  destruct (_extract_platform_from_qcow2_filename (path_name f)) as [[|a q]|];
    reflexivity.
Qed.

Lemma refines_keeps {A} (m : M W A) :
  keeps_platform m -> changes_platform_by_refinement m.
Proof. intros Hm s. exists []. rewrite (Hm s). reflexivity. Qed.

Lemma refines_bind {A B} (m : M W A) (k : A -> M W B) :
  changes_platform_by_refinement m ->
  (forall a, changes_platform_by_refinement (k a)) ->
  changes_platform_by_refinement (bind m k).
Proof.
  intros Hm Hk s. unfold bind. destruct (Hm s) as [f1 H1].
  destruct (m s) as [[a|e] s']; simpl in *.
  - destruct (Hk a s') as [f2 H2]. rewrite H2, H1. apply refine_platform_twice.
  - exists f1. exact H1.
Qed.

Lemma refines_try_except {A} (m : M W A) (h : exn -> M W A) :
  changes_platform_by_refinement m ->
  (forall e, changes_platform_by_refinement (h e)) ->
  changes_platform_by_refinement (try_except m h).
Proof.
  intros Hm Hh s. unfold try_except. destruct (Hm s) as [f1 H1].
  destruct (m s) as [[a|e] s']; simpl in *.
  - exists f1. exact H1.
  - destruct (Hh e s') as [f2 H2]. rewrite H2, H1. apply refine_platform_twice.
Qed.

Lemma refines_try_finally {A} (m : M W A) (f : M W unit) :
  changes_platform_by_refinement m -> keeps_platform f ->
  changes_platform_by_refinement (try_finally m f).
Proof.
  intros Hm Hf s. unfold try_finally. destruct (Hm s) as [f1 H1].
  destruct (m s) as [r s']. specialize (Hf s').
  destruct (f s') as [[u|e] s'']; simpl in *; exists f1; congruence.
Qed.

Lemma refines_configure (iso_files image_files : list str) :
  changes_platform_by_refinement (configure iso_files image_files).
Proof.
  unfold configure. apply refines_bind.
  - intros s. exists image_files. apply refine_step.
  - intros _. apply refines_keeps.
    keeps_with ltac:(first [apply keeps_find_iso_file
                           | apply keeps_setup_logging_directory]).
Qed.

Lemma refines_run : changes_platform_by_refinement run.
Proof.
  unfold run. apply refines_try_finally; [|apply keeps_cleanup_temp_directory].
  apply refines_try_except.
  - apply refines_bind; [apply refines_keeps, keeps_extract_archives|].
    intros x. apply refines_bind; [apply refines_configure|].
    intros cmd. apply refines_keeps.
    keeps_with ltac:(first [apply keeps_run_bake_and_build | apply keeps_report]).
  - intros e. apply refines_keeps. keeps.
Qed.

(** C1, amended.  When an extracted file has the disk-image extension,
    refinement consults the name of the first such file: if that name
    resolves to a platform, the platform becomes exactly that one,
    whatever it was before (replacement, no merge, also when the new
    value is less specific); if the name does not resolve, the stage-1
    result stands. *)
Theorem C1_refinement_replaces (files : list str) (s : state W) (f : str)
    (rest : list str) :
  qcow2_files files = f :: rest ->
  platform_of (snd (_refine_platform_from_extracted_files files s)) =
  match _extract_platform_from_qcow2_filename (path_name f) with
  | Some q => Some q
  | None => platform_of s
  end.
Proof.
  intros Hq. rewrite refine_step, refine_platform_spec, Hq. reflexivity.
Qed.

(** C3, amended.  Once the platform is set, stage-2 refinement is the
    only operation of the run that changes it: the manifest check, the
    scratch directory, the extraction, the search for the ISO file, the
    logging set-up, the build, the result report and the final cleanup
    leave it as it is.  Refinement replaces it by the platform the first
    disk-image name resolves to, whatever its relation to the value
    before, and leaves it alone when there is no such file or the name
    does not resolve. *)
Theorem C3_platform_changes_only_by_refinement :
  (forall conf, keeps_platform (_initial_file_check conf)) /\
  keeps_platform _create_temp_directory /\
  (forall tar dest, keeps_platform (_extract_tar_file tar dest)) /\
  (forall files, keeps_platform (W:=W) (_find_iso_file files)) /\
  keeps_platform _setup_logging_directory /\
  (forall cmd, keeps_platform (_run_bake_and_build cmd)) /\
  (forall rc output, keeps_platform (report rc output)) /\
  keeps_platform _cleanup_temp_directory /\
  (forall files (s : state W),
     platform_of (snd (_refine_platform_from_extracted_files files s)) =
     refine_platform files (platform_of s)) /\
  (forall files p,
     refine_platform files p =
     match qcow2_files files with
     | f :: _ =>
         match _extract_platform_from_qcow2_filename (path_name f) with
         | Some q => Some q
         | None => p
         end
     | [] => p
     end) /\
  changes_platform_by_refinement run.
Proof.
  repeat split.
  - exact keeps_initial_file_check.
  - exact keeps_create_temp_directory.
  - exact keeps_extract_tar_file.
  - exact keeps_find_iso_file.
  - exact keeps_setup_logging_directory.
  - exact keeps_run_bake_and_build.
  - exact keeps_report.
  - exact keeps_cleanup_temp_directory.
  - exact refine_step.
  - exact refine_platform_spec.
  - exact refines_run.
Qed.


Lemma configure_command (iso_files image_files : list str) (s s' : state W)
    (cmd : list (option str)) :
  configure iso_files image_files s = (Ok cmd, s') ->
  cmd = _build_bake_and_build_command s'.(st_ctx).
Proof.
  unfold configure, bind.
  destruct (_refine_platform_from_extracted_files image_files s) as [[[]|e] s1];
    [|discriminate].
  destruct (_find_iso_file iso_files s1) as [[iso|e] s2]; [|discriminate].
  cbn [modify_ctx _extract_sdk_version_from_iso ret].
  destruct (_setup_logging_directory _) as [[[]|e] s3]; [|discriminate].
  unfold get_ctx, ret. intros Heq. inversion Heq. reflexivity.
Qed.


End PlatformAlongRun.

(** C1, as stated, fails: the archive holds [disk.qcow2], whose name does
    not resolve, and the stage-1 platform [8101-32H] stays. *)
Lemma C1_counterexample : ~ refinement_always_overrides (W:=SimpleWorld).
Proof.
  intros Hall.
  specialize (Hall [`"/tmp/x/disk.qcow2"]
                (example_state (Some `"8101-32H") (release_world [] [] 0 [] []))
                `"/tmp/x/disk.qcow2" []).
  vm_compute in Hall. specialize (Hall eq_refl). discriminate.
Qed.

Lemma C1_witness :
  let files := [`"/tmp/x/readme.txt"; `"/tmp/x/8202-x64-25.1.2.qcow2";
                `"/tmp/x/8101-x64-25.1.2.qcow2"] in
  let s := example_state (Some `"8202-32FH-M") (release_world [] [] 0 [] []) in
  qcow2_files files =
    [`"/tmp/x/8202-x64-25.1.2.qcow2"; `"/tmp/x/8101-x64-25.1.2.qcow2"] /\
  platform_of (snd (_refine_platform_from_extracted_files files s)) = Some `"8202".
Proof.
  intros files s.
  assert (Hq : qcow2_files files =
               [`"/tmp/x/8202-x64-25.1.2.qcow2"; `"/tmp/x/8101-x64-25.1.2.qcow2"])
    by (vm_compute; reflexivity).
  split; [exact Hq|].
  pose proof (C1_refinement_replaces files s Hq) as Hr.
  vm_compute in Hr |- *. exact Hr.
Defined.

(** C3, as stated, fails for every reading of "strictly more specific"
    that is asymmetric: refinement takes the stage-1 result [8101-32H] of
    an [f-8101] archive to [8202], and the stage-1 result [8202] of an
    [f-8202] archive to [8101-32H]. *)
Lemma C3_counterexample :
  ~ exists more_specific : str -> str -> Prop,
      (forall a b, more_specific a b -> ~ more_specific b a) /\
      only_more_specific (W:=SimpleWorld) more_specific.
Proof.
  intros (R & Hasym & Hinv).
  assert (H1 : R `"8202" `"8101-32H").
  { apply (Hinv [`"/tmp/x/8202-x64-25.1.2.qcow2"]
             (example_state (Some `"8101-32H") (release_world [] [] 0 [] []))).
    - reflexivity.
    - vm_compute. reflexivity.
    - discriminate. }
  assert (H2 : R `"8101-32H" `"8202").
  { apply (Hinv [`"/tmp/x/8101-x64-25.1.2.qcow2"]
             (example_state (Some `"8202") (release_world [] [] 0 [] []))).
    - reflexivity.
    - vm_compute. reflexivity.
    - discriminate. }
  exact (Hasym _ _ H1 H2).
Qed.


(* ================================================================== *)
(** * Drop-folder cleanup *)
(* ================================================================== *)

Section Cleanup.

Context {W : Type} `{OS W}.

(** The lines before the first marker line do nothing, and the lines
    after it are not looked at. *)
Lemma cleanup_lines_first (m : marker) (pre post : list str) (l : str) :
  (forall x, In x pre -> startswith (marker_prefix m) (strip x) = false) ->
  startswith (marker_prefix m) (strip l) = true ->
  forall s : state W,
    cleanup_lines m (pre ++ l :: post) s = cleanup_lines m [l] s.
Proof.
  intros Hpre Hl s. induction pre as [|x pre IH].
  - cbn [app cleanup_lines]. rewrite Hl. reflexivity.
  - cbn [app cleanup_lines]. rewrite (Hpre x) by (left; reflexivity).
    apply IH. intros y Hy. apply Hpre. right. exact Hy.
Qed.

Lemma split_line_alone (output l : str) :
  In l (split "010" output) -> split "010" l = [l].
Proof. intros Hin. apply split_free. eapply split_segment_free. exact Hin. Qed.

Lemma cleanup_first_marker (m : marker) (output : str) (pre post : list str)
    (l : str) (s : state W) :
  split "010" output = pre ++ l :: post ->
  (forall x, In x pre -> startswith (marker_prefix m) (strip x) = false) ->
  startswith (marker_prefix m) (strip l) = true ->
  cleanup_drop_folder m output s = cleanup_drop_folder m l s.
Proof.
  intros Hs Hpre Hl. unfold cleanup_drop_folder, try_except.
  rewrite (split_line_alone output l)
    by (rewrite Hs; apply in_or_app; right; left; reflexivity).
  rewrite Hs, (@cleanup_lines_first m pre post l Hpre Hl s). reflexivity.
Qed.

(** The folder a marker line names is the text after the marker's colon. *)
Lemma marker_line_folder (m : marker) (tail : str) :
  startswith (marker_prefix m) (marker_prefix m ++ tail) = true /\
  nth_error (split1 ":" (marker_prefix m ++ tail)) 1 = Some tail.
Proof.
  split.
  - apply startswith_spec. exists tail. reflexivity.
  - destruct m; reflexivity.
Qed.

Lemma cleanup_line_not_a_directory (m : marker) (l tail : str) (s : state W) :
  strip l = marker_prefix m ++ tail ->
  os_exists s.(st_world) (strip tail) = Ok false \/
  (os_exists s.(st_world) (strip tail) = Ok true /\
   os_is_dir s.(st_world) (strip tail) = Ok false) ->
  cleanup_lines m [l] s =
  (Ok false,
   mkState s.(st_ctx) s.(st_world)
           (s.(st_log) ++ [(WARNING, DropFolderNotADirectory m (strip tail))])).
Proof.
  intros Hl Hfs. cbn [cleanup_lines]. rewrite Hl.
  destruct (marker_line_folder m tail) as [-> ->].
  unfold bind, ask, ret, log. cbn [st_world st_ctx st_log].
  destruct Hfs as [-> | [-> ->]]; reflexivity.
Qed.

Lemma cleanup_line_rmtree_fails (m : marker) (l tail : str) (s : state W)
    (e : exn) (w' : W) :
  strip l = marker_prefix m ++ tail ->
  os_exists s.(st_world) (strip tail) = Ok true ->
  os_is_dir s.(st_world) (strip tail) = Ok true ->
  os_rmtree s.(st_world) (strip tail) = (Raise e, w') ->
  cleanup_lines m [l] s =
  (Ok false,
   mkState s.(st_ctx) w'
           (s.(st_log) ++ [(DEBUG, CleaningUpDropFolder m (strip tail))]
                       ++ [(WARNING, FailedToRemoveDropFolder m (strip tail))])).
Proof.
  intros Hl He Hd Hr. cbn [cleanup_lines]. rewrite Hl.
  destruct (marker_line_folder m tail) as [-> ->].
  unfold bind, ask, ret, log, try_except, act. cbn [st_world st_ctx st_log].
  rewrite He, Hd. cbn [st_world st_ctx st_log]. rewrite Hr.
  cbn [st_world st_ctx st_log]. rewrite <- app_assoc. reflexivity.
Qed.

Lemma cleanup_never_raises (m : marker) (output : str) (s : state W) :
  exists b, fst (cleanup_drop_folder m output s) = Ok b.
Proof.
  unfold cleanup_drop_folder, try_except.
  destruct (cleanup_lines m (split "010" output) s) as [[b|e] s'].
  - exists b. reflexivity.
  - exists false. reflexivity.
Qed.

Lemma build_never_raises (cmd : list (option str)) (s : state W) :
  exists r, fst (_run_bake_and_build cmd s) = Ok r.
Proof.
  unfold _run_bake_and_build, try_except.
  match goal with
  | |- context [match ?b s with _ => _ end] => destruct (b s) as [[r|e] s']
  end.
  - exists r. reflexivity.
  - eexists. reflexivity.
Qed.

Lemma returns_bind {A B} (v : B) (m : M W A) (k : A -> M W B) :
  succeeds m -> (forall a, returns v (k a)) -> returns v (bind m k).
Proof.
  intros Hm Hk s. unfold bind. destruct (Hm s) as (a & s' & ->). apply Hk.
Qed.

Lemma returns_ret {A} (v : A) : returns (W:=W) v (ret v).
Proof. intros s. exists s. reflexivity. Qed.

Lemma succeeds_log (l : level) (m : message) : succeeds (W:=W) (log l m).
Proof. intros s. eexists _, _. reflexivity. Qed.

Lemma succeeds_ret {A} (a : A) : succeeds (W:=W) (ret a).
Proof. intros s. eexists _, _. reflexivity. Qed.

Lemma succeeds_cleanup (m : marker) (output : str) :
  succeeds (cleanup_drop_folder m output).
Proof.
  intros s. unfold cleanup_drop_folder, try_except.
  destruct (cleanup_lines m (split "010" output) s) as [[b|e] s'].
  - eexists _, _. reflexivity.
  - eexists _, _. reflexivity.
Qed.

(** Whatever the two cleanups do, the build returns the child's exit
    code. *)
Lemma build_returns_child_code (cmd : list (option str)) (s : state W)
    (lines : list str) (code : Z) (w' : W) :
  os_run_child s.(st_world) cmd = (Ok (lines, code), w') ->
  exists output s', _run_bake_and_build cmd s = (Ok (code, output), s').
Proof.
  intros Hc. unfold _run_bake_and_build, try_except, bind at 1, act.
  rewrite Hc. cbn [fst snd].
  set (full_output := join "010" _). exists full_output.
  match goal with
  | |- exists s', match ?m ?s0 with _ => _ end = _ =>
      assert (Hr : returns (code, full_output) m)
  end.
  { apply returns_bind.
    - destruct (code =? 0)%Z; [apply succeeds_ret | apply succeeds_log].
    - intros _. apply returns_bind; [apply succeeds_cleanup|].
      intros b1. apply returns_bind; [apply succeeds_log|].
      intros _. apply returns_bind; [apply succeeds_cleanup|].
      intros b2. apply returns_bind; [apply succeeds_log|].
      intros _. apply returns_ret. }
  match goal with
  | |- exists s', match ?m ?s0 with _ => _ end = _ =>
      destruct (Hr s0) as (s' & ->)
  end.
  exists s'. reflexivity.
Qed.

(** C9.  Cleanup for a marker acts on the first line that, trimmed,
    starts with the marker's prefix (compared case-sensitively), and on
    no other: the outcome on the whole output is the outcome on that line
    alone, in every state, so whatever the first occurrence deleted or
    failed to delete.  [_cleanup_img_drop_folder] and
    [_cleanup_yaml_drop_folder] are the two instances, each blind to the
    other's marker. *)
Theorem C9_only_first_marker_line (m : marker) (output : str)
    (pre post : list str) (l : str) (s : state W) :
  split "010" output = pre ++ l :: post ->
  (forall x, In x pre -> startswith (marker_prefix m) (strip x) = false) ->
  startswith (marker_prefix m) (strip l) = true ->
  cleanup_drop_folder m output s = cleanup_drop_folder m l s /\
  (m = IMG_DROP_FOLDER ->
   _cleanup_img_drop_folder output s = _cleanup_img_drop_folder l s) /\
  (m = YAML_DROP_FOLDER ->
   _cleanup_yaml_drop_folder output s = _cleanup_yaml_drop_folder l s).
Proof.
  intros Hs Hpre Hl.
  pose proof (@cleanup_first_marker m output pre post l s Hs Hpre Hl) as Hc.
  split; [exact Hc|]. split; intros ->; exact Hc.
Qed.

(** C10.  When the folder the first marker line names does not exist or
    is not a directory, cleanup logs that as a warning, deletes nothing
    and returns [False]; when [rmtree] raises, the failure is logged as a
    warning and cleanup returns [False]; cleanup never raises, and the
    build step returns the child's exit code and output whatever the
    cleanups did. *)
Theorem C10_cleanup_never_fatal :
  (forall (m : marker) (output : str) (pre post : list str) (l tail : str)
          (s : state W),
     split "010" output = pre ++ l :: post ->
     (forall x, In x pre -> startswith (marker_prefix m) (strip x) = false) ->
     strip l = marker_prefix m ++ tail ->
     os_exists s.(st_world) (strip tail) = Ok false \/
     (os_exists s.(st_world) (strip tail) = Ok true /\
      os_is_dir s.(st_world) (strip tail) = Ok false) ->
     cleanup_drop_folder m output s =
     (Ok false, logged s [(WARNING, DropFolderNotADirectory m (strip tail))])) /\
  (forall (m : marker) (output : str) (pre post : list str) (l tail : str)
          (s : state W) (e : exn) (w' : W),
     split "010" output = pre ++ l :: post ->
     (forall x, In x pre -> startswith (marker_prefix m) (strip x) = false) ->
     strip l = marker_prefix m ++ tail ->
     os_exists s.(st_world) (strip tail) = Ok true ->
     os_is_dir s.(st_world) (strip tail) = Ok true ->
     os_rmtree s.(st_world) (strip tail) = (Raise e, w') ->
     cleanup_drop_folder m output s =
     (Ok false,
      mkState s.(st_ctx) w'
        (s.(st_log) ++ [(DEBUG, CleaningUpDropFolder m (strip tail));
                        (WARNING, FailedToRemoveDropFolder m (strip tail))]))) /\
  (forall m output, succeeds (cleanup_drop_folder m output)) /\
  (forall cmd, succeeds (_run_bake_and_build cmd)) /\
  (forall cmd (s : state W) lines code w',
     os_run_child s.(st_world) cmd = (Ok (lines, code), w') ->
     exists output s', _run_bake_and_build cmd s = (Ok (code, output), s')).
Proof.
  split; [|split; [|split; [|split]]].
  - intros m output pre post l tail s Hs Hpre Hl Hfs.
    assert (Hm : startswith (marker_prefix m) (strip l) = true)
      by (rewrite Hl; apply marker_line_folder).
    rewrite (@cleanup_first_marker m output pre post l s Hs Hpre Hm).
    unfold cleanup_drop_folder, try_except.
    rewrite (split_line_alone output l)
      by (rewrite Hs; apply in_or_app; right; left; reflexivity).
    rewrite (@cleanup_line_not_a_directory m l tail s Hl Hfs). reflexivity.
  - intros m output pre post l tail s e w' Hs Hpre Hl He Hd Hr.
    assert (Hm : startswith (marker_prefix m) (strip l) = true)
      by (rewrite Hl; apply marker_line_folder).
    rewrite (@cleanup_first_marker m output pre post l s Hs Hpre Hm).
    unfold cleanup_drop_folder, try_except.
    rewrite (split_line_alone output l)
      by (rewrite Hs; apply in_or_app; right; left; reflexivity).
    rewrite (@cleanup_line_rmtree_fails m l tail s e w' Hl He Hd Hr). reflexivity.
  - exact succeeds_cleanup.
  - intros cmd s. destruct (build_never_raises cmd s) as [r Hr].
    destruct (_run_bake_and_build cmd s) as [r' s']. cbn [fst] in Hr. subst r'.
    exists r, s'. reflexivity.
  - exact build_returns_child_code.
Qed.

End Cleanup.

(* ================================================================== *)
(** * The result report *)
(* ================================================================== *)

Section Report.

Context {W : Type} `{OS W}.


(** Looking for the artifact path changes nothing but the log. *)
Lemma docker_lines_only_logs (lines : list str) (s : state W) :
  let r := docker_image_path_lines lines s in
  st_world (snd r) = st_world s /\ st_ctx (snd r) = st_ctx s /\
  (forall p, fst r = Ok (Some p) -> p <> []).
Proof.
  induction lines as [|l lines IH]; cbn [docker_image_path_lines].
  - cbn. repeat split. discriminate.
  - destruct (re_search true docker_image_pattern (strip l)) as [groups|];
      [|exact IH].
    destruct (nth_error groups 0) as [g|].
    2:{ cbn. repeat split. discriminate. }
    destruct (truthy (Some (strip g)) && endswith `".tar" (strip g)) eqn:Et;
      [|exact IH].
    unfold bind, ask, ask_pure, ret.
    destruct (os_exists (st_world s) (strip g)) as [[|]|e]; cbn.
    + repeat split. intros p [= <-]. apply os_resolve_nonempty.
    + repeat split. intros p [= <-]. apply andb_prop in Et.
      destruct Et as [Et _]. destruct (strip g); [discriminate Et|discriminate].
    + repeat split. discriminate.
Qed.

Lemma extract_docker_only_logs (output : str) (s : state W) :
  let r := _extract_docker_image_path output s in
  st_world (snd r) = st_world s /\ st_ctx (snd r) = st_ctx s /\
  (forall p, fst r = Ok (Some p) -> p <> []).
Proof.
  unfold _extract_docker_image_path, try_except.
  pose proof (docker_lines_only_logs (split "010" output) s) as Hl.
  destruct (docker_image_path_lines (split "010" output) s) as [[r|e] s'];
    cbn in *.
  - exact Hl.
  - destruct Hl as (Hw & Hc & _). repeat split; auto. discriminate.
Qed.


Lemma report_missing_artifact (output p : str) (s : state W) :
  fst (_extract_docker_image_path output s) = Ok (Some p) ->
  os_exists s.(st_world) p = Ok false ->
  fst (report 0 output s) = Ok 1%Z.
Proof.
  intros He Hx.
  destruct (extract_docker_only_logs output s) as (Hw & Hc & Hne).
  specialize (Hne p He).
  unfold report. cbn [Z.eqb]. unfold bind at 1. unfold bind at 1.
  destruct (_extract_docker_image_path output s) as [r s'].
  cbn [fst snd] in *. subst r.
  destruct p as [|a p]; [congruence|].
  unfold bind, ret, log, ask. cbn [st_world st_ctx st_log fst snd].
  rewrite Hw, Hx. reflexivity.
Qed.

Lemma bind_eq {A B} (m : M W A) (k : A -> M W B) (s s' : state W) (a : A) :
  m s = (Ok a, s') -> bind m k s = k a s'.
Proof. intros Hm. unfold bind. rewrite Hm. reflexivity. Qed.

Lemma try_finally_eq {A} (m m' : M W A) (f : M W unit) (s s' : state W) :
  m s = m' s' -> try_finally m f s = try_finally m' f s'.
Proof. intros Hm. unfold try_finally. rewrite Hm. reflexivity. Qed.

Lemma try_except_eq {A} (m m' : M W A) (h : exn -> M W A) (s s' : state W) :
  m s = m' s' -> try_except m h s = try_except m' h s'.
Proof. intros Hm. unfold try_except. rewrite Hm. reflexivity. Qed.

(** A run that reaches the result report goes on from there. *)
Lemma run_from_report (s0 s1 : state W) (rc : Z) (output cwd : str) :
  run_until_report s0 = (Ok (rc, output, cwd), s1) ->
  run s0 =
  try_finally
    (try_except
       (try_finally (report rc output) (act (fun w => os_chdir w cwd)))
       (fun e => log ERROR (WorkflowFailed e) ;; ret 1%Z))
    _cleanup_temp_directory s1.
Proof.
  unfold run, run_until_report. intros Hr.
  apply bind_ok in Hr as (x & sa & Ha & Hr).
  apply bind_ok in Hr as (cmd & sb & Hb & Hr).
  apply bind_ok in Hr as (c & sc & Hc & Hr).
  apply bind_ok in Hr as (d & sd & Hd & Hr).
  apply bind_ok in Hr as (u & se & He & Hr).
  apply bind_ok in Hr as (r & sf & Hf & Hr).
  unfold ret in Hr. inversion Hr; subst.
  apply try_finally_eq, try_except_eq.
  rewrite (@bind_eq _ _ _ _ _ _ _ Ha). rewrite (@bind_eq _ _ _ _ _ _ _ Hb).
  rewrite (@bind_eq _ _ _ _ _ _ _ Hc). rewrite (@bind_eq _ _ _ _ _ _ _ Hd).
  rewrite (@bind_eq _ _ _ _ _ _ _ He).
  apply try_finally_eq. rewrite (@bind_eq _ _ _ _ _ _ _ Hf). reflexivity.
Qed.

Lemma finally_keeps_failure (m : M W Z) (f : M W unit) (s : state W) :
  fst (m s) = Ok 1%Z -> exit_status (fst (try_finally m f s)) = 1%Z.
Proof.
  unfold try_finally. destruct (m s) as [r s']. cbn [fst]. intros ->.
  destruct (f s') as [[u|e] s'']; reflexivity.
Qed.

(** The exit status of a run whose report returns [rc] in state [s2]:
    [rc] when the two guaranteed steps go through, and 1 in any case
    when [rc] is 1. *)
Lemma run_after_report (s0 s1 s2 : state W) (rc0 rc : Z) (output cwd : str) :
  run_until_report s0 = (Ok (rc0, output, cwd), s1) ->
  report rc0 output s1 = (Ok rc, s2) ->
  (rc = 1%Z -> exit_status (fst (run s0)) = 1%Z) /\
  (forall s3 s4,
     act (fun w => os_chdir w cwd) s2 = (Ok tt, s3) ->
     _cleanup_temp_directory s3 = (Ok tt, s4) ->
     run s0 = (Ok rc, s4)).
Proof.
  intros Hr Hp. rewrite (@run_from_report s0 s1 rc0 output cwd Hr). split.
  - intros ->. apply finally_keeps_failure.
    unfold try_except, try_finally. rewrite Hp.
    destruct (act (fun w => os_chdir w cwd) s2) as [[[]|e] s3]; reflexivity.
  - intros s3 s4 Hb Hc.
    unfold try_finally at 1. unfold try_except. unfold try_finally at 1.
    rewrite Hp, Hb, Hc. reflexivity.
Qed.

(** C7.  When the run reaches the report with a child that exited 0,
    the reporter finds an artifact path in the output and that path does
    not exist, the report returns 1 and the exit status of the run is
    1. *)
Theorem C7_missing_artifact_fails (s0 s1 : state W) (output cwd p : str) :
  run_until_report s0 = (Ok (0%Z, output, cwd), s1) ->
  fst (_extract_docker_image_path output s1) = Ok (Some p) ->
  os_exists s1.(st_world) p = Ok false ->
  fst (report 0 output s1) = Ok 1%Z /\
  exit_status (fst (run s0)) = 1%Z.
Proof.
  intros Hr He Hx.
  pose proof (@report_missing_artifact output p s1 He Hx) as Hp.
  split; [exact Hp|].
  destruct (report 0 output s1) as [r s2] eqn:E. cbn [fst] in Hp. subst r.
  destruct (@run_after_report s0 s1 s2 0%Z 1%Z output cwd Hr E) as [H1 _].
  apply H1. reflexivity.
Qed.


End Report.

(* ================================================================== *)
(** * The matcher and the input resolver *)
(* ================================================================== *)

Lemma munch_In (c : ascii -> bool) (s r : str) :
  In r (munch c s) <->
  exists a, a <> [] /\ forallb c a = true /\ s = a ++ r.
Proof.
  revert r. induction s as [|x s IH]; intros r; cbn [munch].
  - split; [intros []|]. intros (a & Ha & _ & Hs).
    destruct a; [congruence | discriminate].
  - destruct (c x) eqn:Ex.
    + rewrite in_app_iff, IH. cbn [In]. split.
      * intros [(a & Ha & Hc & ->) | [<- | []]].
        -- exists (x :: a). cbn. rewrite Ex, Hc. repeat split. discriminate.
        -- exists [x]. cbn. rewrite Ex. repeat split. discriminate.
      * intros (a & Ha & Hc & Hs). destruct a as [|y a]; [congruence|].
        cbn in Hs. injection Hs as <- ->. cbn in Hc.
        apply andb_prop in Hc as [_ Hc].
        destruct a as [|z a]; [right; left; reflexivity|].
        left. exists (z :: a). repeat split; [discriminate | exact Hc].
    + split; [intros []|]. intros (a & Ha & Hc & Hs).
      destruct a as [|y a]; [congruence|]. cbn in Hs. injection Hs as <- ->.
      cbn in Hc. rewrite Ex in Hc. discriminate.
Qed.

Section Exec.

Variable inp : str.

Lemma in_exec_seq (r1 r2 : regex) (st st' : mstate) :
  In st' (exec false inp (Seq r1 r2) st) <->
  exists mid, In mid (exec false inp r1 st) /\ In st' (exec false inp r2 mid).
Proof. cbn [exec]. apply in_flat_map. Qed.

Lemma in_exec_lit (l r r' : str) (c c' : list str) :
  In (r', c') (exec false inp (Lit l) (r, c)) <-> r = l ++ r' /\ c' = c.
Proof.
  cbn [exec fst snd]. unfold strip_prefix_flags.
  destruct (strip_prefix l r) as [x|] eqn:E.
  - apply strip_prefix_spec in E. cbn [In]. split.
    + intros [[= <- <-]|[]]. auto.
    + intros [Hr ->]. rewrite Hr in E. apply app_inv_head in E. subst x.
      left. reflexivity.
  - split; [intros []|]. intros [-> _]. rewrite strip_prefix_app in E.
    discriminate.
Qed.

Lemma in_exec_plus (k : ascii -> bool) (r r' : str) (c c' : list str) :
  In (r', c') (exec false inp (Plus k) (r, c)) <->
  (exists a, a <> [] /\ forallb k a = true /\ r = a ++ r') /\ c' = c.
Proof.
  cbn [exec fst snd]. rewrite in_map_iff. split.
  - intros (x & [= <- <-] & Hx). apply munch_In in Hx. auto.
  - intros [Ha ->]. exists r'. split; [reflexivity|]. apply munch_In. exact Ha.
Qed.

Lemma in_exec_opt (g : regex) (st st' : mstate) :
  In st' (exec false inp (Opt g) st) <->
  In st' (exec false inp g st) \/ st' = st.
Proof.
  cbn [exec]. rewrite in_app_iff. cbn [In]. intuition congruence.
Qed.

Lemma in_exec_group (g : regex) (r r' : str) (c c' : list str) :
  In (r', c') (exec false inp (Group g) (r, c)) <->
  exists c1, In (r', c1) (exec false inp g (r, c)) /\
             c' = c1 ++ [firstn (length r - length r') r].
Proof.
  cbn [exec fst snd]. rewrite in_map_iff. split.
  - intros ([r1 c1] & [= <- <-] & Hx). exists c1. auto.
  - intros (c1 & Hx & ->). exists (r', c1). auto.
Qed.

Lemma in_exec_eol (r r' : str) (c c' : list str) :
  In (r', c') (exec false inp Eol (r, c)) <->
  r' = r /\ c' = c /\ (r = [] \/ r = ["010"%char]).
Proof.
  cbn [exec fst snd]. destruct r as [|x [|y r]].
  - cbn [In]. split.
    + intros [[= <- <-]|[]]. auto.
    + intros (-> & -> & _). auto.
  - destruct (Nat.eqb_spec (nat_of_ascii x) 10) as [E|N].
    + cbn [In]. split.
      * intros [[= <- <-]|[]]. repeat split. right.
        rewrite <- (ascii_nat_embedding x), E. reflexivity.
      * intros (-> & -> & _). auto.
    + split; [intros []|]. intros (_ & _ & [Hr|Hr]); [discriminate|].
      injection Hr as ->. apply N. reflexivity.
  - split; [intros []|]. intros (_ & _ & [Hr|Hr]); discriminate.
Qed.

Lemma in_exec_bol (r r' : str) (c c' : list str) :
  In (r', c') (exec false inp Bol (r, c)) <->
  r' = r /\ c' = c /\ length r = length inp.
Proof.
  cbn [exec fst snd]. destruct (Nat.eqb_spec (length r) (length inp)) as [E|N].
  - cbn [In]. split.
    + intros [[= <- <-]|[]]. auto.
    + intros (-> & -> & _). auto.
  - split; [intros []|]. intros (_ & _ & E). contradiction.
Qed.

End Exec.

(** A run of a class is fixed by where it stops. *)
Lemma class_run_unique (c : ascii -> bool) (a a' r r' : str) :
  forallb c a = true -> forallb c a' = true ->
  stops c r -> stops c r' ->
  a ++ r = a' ++ r' -> a = a' /\ r = r'.
Proof.
  revert a'. induction a as [|x a IH]; intros a' Ha Ha' Hr Hr' E.
  - destruct a' as [|y a']; [auto|]. cbn in E. subst r. cbn in Hr, Ha'.
    apply andb_prop in Ha' as [Hy _]. congruence.
  - destruct a' as [|y a'].
    + cbn in E. subst r'. cbn in Hr', Ha.
      apply andb_prop in Ha as [Hx _]. congruence.
    + cbn in E. injection E as <- E. cbn in Ha, Ha'.
      apply andb_prop in Ha as [_ Ha]. apply andb_prop in Ha' as [_ Ha'].
      destruct (IH a' Ha Ha' Hr Hr' E) as [-> ->]. auto.
Qed.

Lemma forallb_rev (c : ascii -> bool) (a : str) :
  forallb c (rev a) = forallb c a.
Proof.
  induction a as [|x a IH]; [reflexivity|]. cbn.
  rewrite forallb_app, IH. cbn. rewrite andb_true_r. apply andb_comm.
Qed.

(** A run of a class is fixed by where it starts, read from the end. *)
Lemma class_run_unique_end (c : ascii -> bool) (a a' b b' : str) (y : ascii) :
  forallb c a = true -> forallb c a' = true -> c y = false ->
  b ++ y :: a = b' ++ y :: a' -> a = a' /\ b = b'.
Proof.
  intros Ha Ha' Hy E. apply (f_equal (@rev ascii)) in E.
  rewrite !rev_app_distr in E. cbn [rev] in E. rewrite <- !app_assoc in E.
  cbn [app] in E.
  destruct (@class_run_unique c (rev a) (rev a') (y :: rev b) (y :: rev b'))
    as [E1 E2]; try (rewrite forallb_rev); auto.
  apply (f_equal (@rev ascii)) in E1. rewrite !rev_involutive in E1.
  injection E2 as E2. apply (f_equal (@rev ascii)) in E2.
  rewrite !rev_involutive in E2. auto.
Qed.

Lemma firstn_consumed2 (a b r : str) :
  firstn (length (a ++ b ++ r) - length r) (a ++ b ++ r) = a ++ b.
Proof. rewrite app_assoc. apply firstn_consumed. Qed.

(** Every way the archive pattern matches splits the name into its
    parts. *)
Lemma archive_sound (mark image inp rest : str) (caps : list str) :
  In (rest, caps) (exec false inp (archive_pattern mark image) (inp, [])) ->
  exists ds mid x,
    ds <> [] /\ forallb is_digit ds = true /\
    x <> [] /\ forallb is_digit_or_dot x = true /\
    inp = `"8000-" ++ ds ++ mark ++ mid ++ image ++ `"eft" ++ x ++ `".tar" ++ rest /\
    (rest = [] \/ rest = ["010"%char]) /\
    caps = [`"8000-" ++ ds; `"eft" ++ x].
Proof.
  unfold archive_pattern. cbn [seqs]. intros H.
  apply in_exec_seq in H as ([r0 c0] & H0 & H).
  apply in_exec_bol in H0 as (-> & -> & _).
  apply in_exec_seq in H as ([r1 c1] & H1 & H).
  apply in_exec_group in H1 as (c1' & H1 & ->).
  apply in_exec_seq in H1 as ([ra ca] & Ha & H1).
  apply in_exec_lit in Ha as (Hinp & ->).
  apply in_exec_plus in H1 as ((ds & Hds & Hdd & Hra) & ->).
  apply in_exec_seq in H as ([r2 c2] & H2 & H).
  apply in_exec_lit in H2 as (Hr1 & ->).
  apply in_exec_seq in H as ([r3 c3] & H3 & H).
  apply in_exec_plus in H3 as ((pd & Hpd & Hpdd & Hr2) & ->).
  apply in_exec_seq in H as ([r4 c4] & H4 & H).
  assert (Hopt : exists popt,
             r3 = popt ++ r4 /\
             c4 = [] ++ [firstn (length inp - length r1) inp]).
  { apply in_exec_opt in H4 as [H4 | H4].
    - apply in_exec_seq in H4 as ([rb cb] & Hb & H4).
      apply in_exec_lit in Hb as (Hr3 & ->).
      apply in_exec_plus in H4 as ((w & _ & _ & Hrb) & ->).
      exists (`"-" ++ w). rewrite Hr3, Hrb, <- app_assoc. auto.
    - injection H4 as -> ->. exists []. auto. }
  destruct Hopt as (popt & Hr3 & ->). clear H4.
  apply in_exec_seq in H as ([r5 c5] & H5 & H).
  apply in_exec_lit in H5 as (Hr4 & ->).
  apply in_exec_seq in H as ([r6 c6] & H6 & H).
  apply in_exec_group in H6 as (c6' & H6 & ->).
  apply in_exec_seq in H6 as ([rc cc] & Hc & H6).
  apply in_exec_lit in Hc as (Hr5 & ->).
  apply in_exec_plus in H6 as ((x & Hx & Hxd & Hrc) & ->).
  apply in_exec_seq in H as ([r7 c7] & H7 & H).
  apply in_exec_lit in H7 as (Hr6 & ->).
  apply in_exec_eol in H as (-> & -> & Hrest).
  exists ds, (pd ++ popt), x.
  repeat split; try assumption.
  - rewrite Hinp, Hra, Hr1, Hr2, Hr3, Hr4, Hr5, Hrc, Hr6.
    rewrite <- !app_assoc. reflexivity.
  - rewrite Hinp, Hra, Hr5, Hrc. rewrite !firstn_consumed2. reflexivity.
Qed.

(** The parts of a well-formed name are one way to match. *)
Lemma archive_complete (mark image ds pd popt x : str) :
  ds <> [] -> forallb is_digit ds = true ->
  pd <> [] -> forallb is_digit pd = true ->
  popt = [] \/
    (exists w, w <> [] /\ forallb is_word_or_dash w = true /\ popt = `"-" ++ w) ->
  x <> [] -> forallb is_digit_or_dot x = true ->
  let inp := `"8000-" ++ ds ++ mark ++ pd ++ popt ++ image ++ `"eft" ++ x ++ `".tar" in
  In ([], [`"8000-" ++ ds; `"eft" ++ x])
     (exec false inp (archive_pattern mark image) (inp, [])).
Proof.
  intros Hds Hdd Hpd Hpdd Hpopt Hx Hxd inp.
  unfold archive_pattern. cbn [seqs].
  set (r1 := mark ++ pd ++ popt ++ image ++ `"eft" ++ x ++ `".tar").
  set (r2 := pd ++ popt ++ image ++ `"eft" ++ x ++ `".tar").
  set (r3 := popt ++ image ++ `"eft" ++ x ++ `".tar").
  set (r4 := image ++ `"eft" ++ x ++ `".tar").
  set (r5 := `"eft" ++ x ++ `".tar").
  set (c1 := [`"8000-" ++ ds]).
  apply in_exec_seq. exists (inp, []). split.
  { apply in_exec_bol. auto. }
  apply in_exec_seq. exists (r1, c1). split.
  { apply in_exec_group. exists []. split.
    - apply in_exec_seq. exists (ds ++ r1, []). split.
      + apply in_exec_lit. auto.
      + apply in_exec_plus. split; [|reflexivity]. exists ds. auto.
    - unfold c1, inp. fold r1. rewrite firstn_consumed2. reflexivity. }
  apply in_exec_seq. exists (r2, c1). split.
  { apply in_exec_lit. auto. }
  apply in_exec_seq. exists (r3, c1). split.
  { apply in_exec_plus. split; [|reflexivity]. exists pd. auto. }
  apply in_exec_seq. exists (r4, c1). split.
  { apply in_exec_opt. destruct Hpopt as [-> | (w & Hw & Hwd & ->)].
    - right. reflexivity.
    - left. apply in_exec_seq. exists (w ++ r4, c1). split.
      + apply in_exec_lit. unfold r3. rewrite <- app_assoc. auto.
      + apply in_exec_plus. split; [|reflexivity]. exists w. auto. }
  apply in_exec_seq. exists (r5, c1). split.
  { apply in_exec_lit. auto. }
  apply in_exec_seq. exists (`".tar", c1 ++ [`"eft" ++ x]). split.
  { apply in_exec_group. exists c1. split.
    - apply in_exec_seq. exists (x ++ `".tar", c1). split.
      + apply in_exec_lit. auto.
      + apply in_exec_plus. split; [|reflexivity]. exists x. auto.
    - unfold r5. rewrite firstn_consumed2. reflexivity. }
  apply in_exec_seq. exists ([], c1 ++ [`"eft" ++ x]). split.
  { apply in_exec_lit. split; [|reflexivity]. rewrite app_nil_r. reflexivity. }
  apply in_exec_eol. auto.
Qed.

(** The first element of a list whose elements all have the same image. *)
Lemma hd_error_same {A B} (f : A -> B) (l : list A) (x : A) :
  In x l -> (forall y, In y l -> f y = f x) ->
  option_map f (hd_error l) = Some (f x).
Proof.
  destruct l as [|y l]; [intros []|]. intros _ Hall. cbn.
  rewrite (Hall y) by (left; reflexivity). reflexivity.
Qed.

Lemma no_match_if_no_way {A} (l : list A) : (forall y, ~ In y l) -> hd_error l = None.
Proof.
  destruct l as [|y l]; [reflexivity|]. intros Hno. exfalso.
  apply (Hno y). left. reflexivity.
Qed.

Lemma archive_match (m' image ds pd popt x : str) :
  ds <> [] -> forallb is_digit ds = true ->
  pd <> [] -> forallb is_digit pd = true ->
  popt = [] \/
    (exists w, w <> [] /\ forallb is_word_or_dash w = true /\ popt = `"-" ++ w) ->
  x <> [] -> forallb is_digit_or_dot x = true ->
  let mark := "-"%char :: m' in
  re_match false (archive_pattern mark image)
    (`"8000-" ++ ds ++ mark ++ pd ++ popt ++ image ++ `"eft" ++ x ++ `".tar")
  = Some [`"8000-" ++ ds; `"eft" ++ x].
Proof.
  intros Hds Hdd Hpd Hpdd Hpopt Hx Hxd mark.
  pose proof (archive_complete mark image Hds Hdd Hpd Hpdd Hpopt Hx Hxd) as Hin.
  cbv zeta in Hin.
  unfold re_match, re_match_state.
  apply (hd_error_same snd _ _ Hin).
  intros [rest' caps'] H0. cbn [snd].
  apply archive_sound in H0
    as (ds' & mid' & x' & Hds' & Hdd' & Hx' & Hxd' & Hinp & Hrest & ->).
  assert (Eds : ds = ds').
  { apply app_inv_head in Hinp.
    apply (class_run_unique is_digit) in Hinp; try assumption;
      [tauto | reflexivity | reflexivity]. }
  subst ds'.
  assert (Ex : x = x').
  { replace (`"8000-" ++ ds ++ mark ++ pd ++ popt ++ image ++ `"eft" ++ x ++ `".tar")
      with ((`"8000-" ++ ds ++ mark ++ pd ++ popt ++ image ++ `"ef")
              ++ "t"%char :: x ++ `".tar") in Hinp
      by (rewrite <- !app_assoc; reflexivity).
    replace (`"8000-" ++ ds ++ mark ++ mid' ++ image ++ `"eft" ++ x' ++ `".tar" ++ rest')
      with ((`"8000-" ++ ds ++ mark ++ mid' ++ image ++ `"ef")
              ++ "t"%char :: x' ++ `".tar" ++ rest') in Hinp
      by (rewrite <- !app_assoc; reflexivity).
    destruct Hrest as [-> | ->].
    - rewrite app_nil_r in Hinp.
      rewrite !app_comm_cons, !app_assoc in Hinp.
      apply app_inv_tail in Hinp.
      apply (class_run_unique_end is_digit_or_dot) in Hinp;
        [tauto | assumption | assumption | reflexivity].
    - exfalso.
      change (`".tar") with (`".ta" ++ ["r"%char]) in Hinp at 1.
      rewrite !app_comm_cons, !app_assoc in Hinp.
      apply app_inj_tail in Hinp as [_ Hc]. discriminate Hc. }
  subst x'. reflexivity.
Qed.

(** A name with another marker is not matched. *)
Lemma archive_no_match (m1 image1 ds tail : str) (a b : ascii) :
  forallb is_digit ds = true -> a <> b ->
  re_match false (archive_pattern ("-"%char :: a :: m1) image1)
    (`"8000-" ++ ds ++ "-"%char :: b :: tail) = None.
Proof.
  intros Hdd Hab. unfold re_match, re_match_state.
  rewrite no_match_if_no_way; [reflexivity|].
  intros [rest' caps'] H0.
  apply archive_sound in H0
    as (ds' & mid' & x' & Hds' & Hdd' & Hx' & Hxd' & Hinp & Hrest & _).
  apply app_inv_head in Hinp.
  apply (class_run_unique is_digit) in Hinp; try assumption;
    [|reflexivity|reflexivity].
  destruct Hinp as [_ Hinp]. cbn in Hinp. injection Hinp as Hinp _.
  congruence.
Qed.

Lemma isdigit_spec (s : str) :
  isdigit s = true <-> s <> [] /\ forallb is_digit s = true.
Proof.
  unfold isdigit. destruct s; split.
  - discriminate.
  - intros [Hn _]. congruence.
  - intros Hs. split; [discriminate | exact Hs].
  - intros [_ Hs]. exact Hs.
Qed.

Lemma is_release_id_spec (rel : str) :
  is_release_id rel = true ->
  exists ds, rel = `"8000-" ++ ds /\ ds <> [] /\ forallb is_digit ds = true.
Proof.
  unfold is_release_id. destruct (strip_prefix `"8000-" rel) as [ds|] eqn:E;
    [|discriminate].
  intros Hd. apply strip_prefix_spec in E. apply isdigit_spec in Hd.
  exists ds. tauto.
Qed.

Lemma span_digits_spec (s : str) :
  s = fst (span_digits s) ++ snd (span_digits s) /\
  forallb is_digit (fst (span_digits s)) = true.
Proof.
  induction s as [|c s [IH1 IH2]]; cbn [span_digits]; [auto|].
  destruct (is_digit c) eqn:Ec; cbn [fst snd app forallb].
  - rewrite Ec, IH2, <- IH1. auto.
  - auto.
Qed.

Lemma is_platform_segment_spec (plat : str) :
  is_platform_segment plat = true ->
  exists pd popt,
    plat = pd ++ popt /\ pd <> [] /\ forallb is_digit pd = true /\
    (popt = [] \/
     exists w, w <> [] /\ forallb is_word_or_dash w = true /\ popt = `"-" ++ w).
Proof.
  unfold is_platform_segment.
  destruct (span_digits_spec plat) as [Hs Hd].
  destruct (span_digits plat) as [pd popt]. cbn [fst snd] in *.
  destruct pd as [|d pd]; [discriminate|].
  intros Hp. exists (d :: pd), popt.
  repeat split; [exact Hs | discriminate | exact Hd |].
  destruct popt as [|c popt]; [left; reflexivity|]. right.
  destruct (Ascii.eqb_spec c "-") as [->|N].
  - destruct popt as [|c' w]; [discriminate|].
    exists (c' :: w). repeat split; [discriminate | exact Hp].
  - exfalso. destruct c as [[] [] [] [] [] [] [] []]; try discriminate Hp.
    apply N. reflexivity.
Qed.

Lemma is_eft_tag_spec (eft : str) :
  is_eft_tag eft = true ->
  exists x, eft = `"eft" ++ x /\ x <> [] /\ forallb is_digit_or_dot x = true.
Proof.
  unfold is_eft_tag. destruct (strip_prefix `"eft" eft) as [[|c x]|] eqn:E;
    try discriminate.
  intros Hx. apply strip_prefix_spec in E. exists (c :: x).
  repeat split; [exact E | discriminate | exact Hx].
Qed.

Lemma parse_fixed_name (rel plat eft : str) :
  is_release_id rel = true -> is_platform_segment plat = true ->
  is_eft_tag eft = true ->
  parse_image_tar_name (rel ++ `"-f-" ++ plat ++ `"-image-" ++ eft ++ `".tar")
  = Some (rel, eft).
Proof.
  intros Hr Hp He.
  apply is_release_id_spec in Hr as (ds & -> & Hds & Hdd).
  apply is_platform_segment_spec in Hp as (pd & popt & -> & Hpd & Hpdd & Hpopt).
  apply is_eft_tag_spec in He as (x & -> & Hx & Hxd).
  pose proof (archive_match `"f-" `"-image-" Hds Hdd Hpd Hpdd Hpopt Hx Hxd) as Hm.
  cbv zeta in Hm.
  replace ((`"8000-" ++ ds) ++ `"-f-" ++ (pd ++ popt) ++ `"-image-" ++
           (`"eft" ++ x) ++ `".tar")
    with (`"8000-" ++ ds ++ ("-"%char :: `"f-") ++ pd ++ popt ++ `"-image-" ++
          `"eft" ++ x ++ `".tar")
    by (rewrite <- !app_assoc; reflexivity).
  set (filename := `"8000-" ++ ds ++ _) in *.
  unfold parse_image_tar_name. cbn [match_patterns patterns].
  change (re_match false fixed_pattern filename)
    with (re_match false (archive_pattern ("-"%char :: `"f-") `"-image-") filename).
  rewrite Hm. reflexivity.
Qed.

Lemma parse_distributed_name (rel plat eft : str) :
  is_release_id rel = true -> is_platform_segment plat = true ->
  is_eft_tag eft = true ->
  parse_image_tar_name (rel ++ `"-d-" ++ plat ++ `"-images-" ++ eft ++ `".tar")
  = Some (rel, eft).
Proof.
  intros Hr Hp He.
  apply is_release_id_spec in Hr as (ds & -> & Hds & Hdd).
  apply is_platform_segment_spec in Hp as (pd & popt & -> & Hpd & Hpdd & Hpopt).
  apply is_eft_tag_spec in He as (x & -> & Hx & Hxd).
  pose proof (archive_match `"d-" `"-images-" Hds Hdd Hpd Hpdd Hpopt Hx Hxd) as Hm.
  cbv zeta in Hm.
  pose proof (@archive_no_match `"-" `"-image-" ds
                (`"-" ++ pd ++ popt ++ `"-images-" ++ `"eft" ++ x ++ `".tar")
                "f"%char "d"%char Hdd ltac:(discriminate)) as Hn.
  replace ((`"8000-" ++ ds) ++ `"-d-" ++ (pd ++ popt) ++ `"-images-" ++
           (`"eft" ++ x) ++ `".tar")
    with (`"8000-" ++ ds ++ ("-"%char :: `"d-") ++ pd ++ popt ++ `"-images-" ++
          `"eft" ++ x ++ `".tar")
    by (rewrite <- !app_assoc; reflexivity).
  set (filename := `"8000-" ++ ds ++ _) in *.
  unfold parse_image_tar_name. cbn [match_patterns patterns].
  change (re_match false fixed_pattern filename)
    with (re_match false (archive_pattern ("-"%char :: "f"%char :: `"-") `"-image-")
            filename).
  rewrite Hn.
  change (re_match false distributed_pattern filename)
    with (re_match false (archive_pattern ("-"%char :: `"d-") `"-images-") filename).
  rewrite Hm. reflexivity.
Qed.

Lemma expected_iso_name_parse (filename base eft : str) :
  parse_image_tar_name filename = Some (base, eft) ->
  expected_iso_name filename = Some (base ++ `"-iso-" ++ eft ++ `".tar").
Proof.
  unfold expected_iso_name. intros ->. reflexivity.
Qed.

Lemma find_iso_tar_expected {W} `{OS W} (w : W) (path base eft : str) :
  parse_image_tar_name (path_name (os_resolve w path)) = Some (base, eft) ->
  let expected :=
    path_div (path_parent (os_resolve w path))
             (base ++ `"-iso-" ++ eft ++ `".tar") in
  os_exists w expected = Ok true ->
  find_iso_tar_from_image_tar w path = Some expected.
Proof.
  intros Hp expected Hx. unfold find_iso_tar_from_image_tar, find_iso_tar_body.
  rewrite Hp. fold expected. rewrite Hx. reflexivity.
Qed.

(** C4.  For a release identifier [8000-<digits>], a platform segment
    (digits, optionally followed by [-] and word characters or dashes)
    and an eft tag [eft<digits and dots>], the installer archive name
    reconstructed from [<rel>-f-<platform>-image-<eft>.tar] and from
    [<rel>-d-<platform>-images-<eft>.tar] is [<rel>-iso-<eft>.tar], and
    the resolver returns the file of that name beside the image archive
    when it exists. *)
Theorem C4_companion_archive_name (rel plat eft : str) :
  is_release_id rel = true -> is_platform_segment plat = true ->
  is_eft_tag eft = true ->
  let fixed_name := rel ++ `"-f-" ++ plat ++ `"-image-" ++ eft ++ `".tar" in
  let distributed_name := rel ++ `"-d-" ++ plat ++ `"-images-" ++ eft ++ `".tar" in
  let iso_name := rel ++ `"-iso-" ++ eft ++ `".tar" in
  expected_iso_name fixed_name = Some iso_name /\
  expected_iso_name distributed_name = Some iso_name /\
  forall (W : Type) (os : OS W) (w : W) (path : str),
    path_name (os_resolve w path) = fixed_name \/
    path_name (os_resolve w path) = distributed_name ->
    os_exists w (path_div (path_parent (os_resolve w path)) iso_name) = Ok true ->
    find_iso_tar_from_image_tar w path =
    Some (path_div (path_parent (os_resolve w path)) iso_name).
Proof.
  intros Hr Hp He fixed_name distributed_name iso_name.
  pose proof (parse_fixed_name rel plat eft Hr Hp He) as Hf.
  pose proof (parse_distributed_name rel plat eft Hr Hp He) as Hd.
  split; [apply expected_iso_name_parse; exact Hf|].
  split; [apply expected_iso_name_parse; exact Hd|].
  intros W os w path Hn Hx. apply find_iso_tar_expected; [|exact Hx].
  destruct Hn as [-> | ->]; assumption.
Qed.

Lemma C4_witness :
  is_release_id `"8000-2512" = true /\
  is_platform_segment `"8101-32FH" = true /\
  is_eft_tag `"eft15.1" = true /\
  expected_iso_name `"8000-2512-f-8101-32FH-image-eft15.1.tar"
    = Some `"8000-2512-iso-eft15.1.tar" /\
  expected_iso_name `"8000-2512-d-8101-32FH-images-eft15.1.tar"
    = Some `"8000-2512-iso-eft15.1.tar".
Proof.
  assert (Hr : is_release_id `"8000-2512" = true) by reflexivity.
  assert (Hp : is_platform_segment `"8101-32FH" = true) by reflexivity.
  assert (He : is_eft_tag `"eft15.1" = true) by reflexivity.
  split; [exact Hr|]. split; [exact Hp|]. split; [exact He|].
  destruct (C4_companion_archive_name `"8000-2512" `"8101-32FH" `"eft15.1"
              Hr Hp He) as (Hf & Hd & _).
  split; [exact Hf | exact Hd].
Defined.

(* ================================================================== *)
(** * Runs in the small world *)
(* ================================================================== *)

(** C5.  The disk image [8101-32FH-x64-25.1.2.QCOW2] passes the
    case-blind extension test of refinement, but [replace('.qcow2', '')]
    leaves its upper-case extension in place: the version suffix is then
    not at the end, neither table matches, and the four-digit fallback
    answers [8101-32H], where stripping the extension first gives
    [8101-32FH].  With the extension in lower case the code gives
    [8101-32FH]. *)
Theorem C5_upper_case_extension_is_kept :
  qcow2_files [`"/tmp/x/8101-32FH-x64-25.1.2.QCOW2"] =
    [`"/tmp/x/8101-32FH-x64-25.1.2.QCOW2"] /\
  _extract_platform_from_qcow2_filename `"8101-32FH-x64-25.1.2.QCOW2" =
    Some `"8101-32H" /\
  stage2_as_stated `"8101-32FH-x64-25.1.2.QCOW2" = Some `"8101-32FH" /\
  _extract_platform_from_qcow2_filename `"8101-32FH-x64-25.1.2.qcow2" =
    Some `"8101-32FH" /\
  stage2_as_stated `"8101-32FH-x64-25.1.2.qcow2" = Some `"8101-32FH".
Proof. repeat split; vm_compute; reflexivity. Qed.

Lemma C7_witness :
  run_until_report c7_state0 =
    (Ok (0%Z, c7_output, `"/work"), snd (run_until_report c7_state0)) /\
  fst (_extract_docker_image_path c7_output (snd (run_until_report c7_state0)))
    = Ok (Some `"/out/img.tar") /\
  os_exists (snd (run_until_report c7_state0)).(st_world) `"/out/img.tar"
    = Ok false /\
  fst (report 0 c7_output (snd (run_until_report c7_state0))) = Ok 1%Z /\
  exit_status (fst (run c7_state0)) = 1%Z.
Proof.
  assert (Hr : run_until_report c7_state0 =
               (Ok (0%Z, c7_output, `"/work"), snd (run_until_report c7_state0)))
    by (vm_compute; reflexivity).
  assert (He : fst (_extract_docker_image_path c7_output
                      (snd (run_until_report c7_state0)))
               = Ok (Some `"/out/img.tar")) by (vm_compute; reflexivity).
  assert (Hx : os_exists (snd (run_until_report c7_state0)).(st_world)
                 `"/out/img.tar" = Ok false)
    by (vm_compute; reflexivity).
  split; [exact Hr|]. split; [exact He|]. split; [exact Hx|].
  exact (@C7_missing_artifact_fails SimpleWorld SimpleOS c7_state0
           (snd (run_until_report c7_state0))
           c7_output `"/work" `"/out/img.tar" Hr He Hx).
Defined.


Lemma C9_witness :
  split "010" c9_output =
    [`"building"] ++ `"IMG_DROP_FOLDER: /tmp/drop1" ::
    [`"YAML_DROP_FOLDER: /tmp/yaml1"; `"IMG_DROP_FOLDER: /tmp/drop2"] /\
  _cleanup_img_drop_folder c9_output c9_state0 =
    _cleanup_img_drop_folder `"IMG_DROP_FOLDER: /tmp/drop1" c9_state0.
Proof.
  assert (Hs : split "010" c9_output =
               [`"building"] ++ `"IMG_DROP_FOLDER: /tmp/drop1" ::
               [`"YAML_DROP_FOLDER: /tmp/yaml1"; `"IMG_DROP_FOLDER: /tmp/drop2"])
    by (vm_compute; reflexivity).
  assert (Hpre : forall x, In x [`"building"] ->
                   startswith (marker_prefix IMG_DROP_FOLDER) (strip x) = false).
  { intros x [<-|[]]. vm_compute. reflexivity. }
  assert (Hl : startswith (marker_prefix IMG_DROP_FOLDER)
                 (strip `"IMG_DROP_FOLDER: /tmp/drop1") = true)
    by (vm_compute; reflexivity).
  split; [exact Hs|].
  exact (proj1 (proj2 (@C9_only_first_marker_line SimpleWorld SimpleOS
                         IMG_DROP_FOLDER c9_output [`"building"]
                         [`"YAML_DROP_FOLDER: /tmp/yaml1";
                          `"IMG_DROP_FOLDER: /tmp/drop2"]
                         `"IMG_DROP_FOLDER: /tmp/drop1" c9_state0 Hs Hpre Hl))
           eq_refl).
Defined.

(** After the cleanup for [IMG_DROP_FOLDER] the folder of its second
    line is still there. *)
Example later_marker_line_is_ignored :
  sw_dirs (st_world (snd (_cleanup_img_drop_folder c9_output c9_state0))) =
    [`"/rel"; `"/work"; `"/tmp/drop2"; `"/tmp/yaml1"].
Proof. vm_compute. reflexivity. Qed.

(** Scenario C: the folder of the first marker line exists and is
    removed; a later line with the same marker is left alone. *)
Example scenario_C :
  fst (_cleanup_img_drop_folder c9_output c9_state0) = Ok true /\
  fst (_cleanup_yaml_drop_folder c9_output c9_state0) = Ok true.
Proof. split; vm_compute; reflexivity. Qed.

(** A marker in another letter case is no marker. *)
Example marker_is_case_sensitive :
  fst (_cleanup_img_drop_folder `"img_drop_folder: /tmp/drop1" c9_state0)
  = Ok false /\
  sw_dirs (st_world
             (snd (_cleanup_img_drop_folder `"img_drop_folder: /tmp/drop1"
                     c9_state0))) = sw_dirs (st_world c9_state0).
Proof. split; vm_compute; reflexivity. Qed.

(** A folder that is missing, and one [rmtree] fails on: both cleanups
    return [False] and the run goes on to exit with the child's 0. *)
Example cleanup_failures_do_not_stop_the_run :
  fst (_cleanup_img_drop_folder c10_output c10_state0) = Ok false /\
  fst (_cleanup_yaml_drop_folder c10_output c10_state0) = Ok false /\
  fst (main c10_world (easy_args None)) = 0%Z.
Proof. repeat split; vm_compute; reflexivity. Qed.

(** The two platforms refinement swaps in the counterexample to the
    invariant are stage-1 results. *)
Example stage1_results_of_fixed_archives :
  _extract_platform_from_filename `"8000-2512-f-8101-image-eft15.1.tar"
    = `"8101-32H" /\
  _extract_platform_from_filename `"8000-2512-f-8202-image-eft15.1.tar"
    = `"8202".
Proof. split; vm_compute; reflexivity. Qed.

(** A user's [8202-32FH-M] gives way to the less specific [8202] of the
    first disk image. *)
Example user_platform_replaced_by_shorter_one :
  refine_platform [`"/tmp/x/8202-x64-25.1.2.qcow2"] (Some `"8202-32FH-M")
    = Some `"8202".
Proof. vm_compute. reflexivity. Qed.

(** Scenarios A, B, D and E, end to end through [main]. *)
Example scenario_A :
  option_map platform_of (snd (main (release_world [] [] 0 [] []) (easy_args None)))
  = Some (Some `"8101-32H").
Proof. vm_compute. reflexivity. Qed.

Example scenario_B :
  option_map platform_of (snd (main c8_world (easy_args None)))
  = Some (Some `"8101-32FH").
Proof. vm_compute. reflexivity. Qed.

Example scenario_D : fst (main c8_world (easy_args None)) = 0%Z.
Proof. vm_compute. reflexivity. Qed.

Example scenario_E : fst (main c7_world (easy_args None)) = 1%Z.
Proof. vm_compute. reflexivity. Qed.

(* ================================================================== *)
(** * What the two stages can answer *)
(* ================================================================== *)

Lemma lookup_candidate_In (mapping : dict) (c : option str) (v : str) :
  lookup_candidate mapping c = Some v -> In v (map snd mapping).
Proof.
  unfold lookup_candidate. destruct c as [c|]; [|discriminate].
  destruct (dict_lookup c mapping) as [v'|] eqn:E.
  - intros [= <-]. eapply dict_lookup_In. exact E.
  - apply dict_lookup_In.
Qed.

Lemma stage1_range (filename : str) :
  let p := _extract_platform_from_filename filename in
  In p (map snd PLATFORM_MAPPING) \/
  (In p (split "-" filename) /\ is_8xxx p = true /\
   dict_lookup p PLATFORM_MAPPING = None).
Proof.
  cbv zeta. rewrite stage1_is_policy. unfold stage1_policy.
  destruct (lookup_candidate PLATFORM_MAPPING
              (segment_after `"d" (split "-" filename))) as [v|] eqn:Ed.
  { apply lookup_candidate_In in Ed. auto. }
  destruct (lookup_candidate PLATFORM_MAPPING
              (segment_after `"f" (split "-" filename))) as [v|] eqn:Ef.
  { apply lookup_candidate_In in Ef. auto. }
  destruct (contains `"ncs1010" filename).
  { left. vm_compute. tauto. }
  destruct (find is_8xxx (split "-" filename)) as [t|] eqn:Et.
  - apply find_some in Et as [Hin H8]. unfold dict_get.
    destruct (dict_lookup t PLATFORM_MAPPING) as [v|] eqn:El.
    + apply dict_lookup_In in El. auto.
    + right. auto.
  - left. vm_compute. tauto.
Qed.

Lemma stage1_nonempty (filename : str) :
  _extract_platform_from_filename filename <> [].
Proof.
  destruct (stage1_range filename) as [Hin | (_ & H8 & _)]; cbv zeta in *.
  - destruct table_values_nonempty as [_ Hp]. rewrite Forall_forall in Hp.
    apply Hp. exact Hin.
  - destruct (_extract_platform_from_filename filename);
      [discriminate H8 | discriminate].
Qed.

(** X1.  Stage 1 always answers with a value of the platform table or
    with a segment of the file name that has four digits, starts with 8
    and is no key of the table; in particular its answer is never
    empty. *)
Theorem stage1_answer_range (filename : str) :
  let p := _extract_platform_from_filename filename in
  (In p (map snd PLATFORM_MAPPING) \/
   (In p (split "-" filename) /\ is_8xxx p = true /\
    dict_lookup p PLATFORM_MAPPING = None)) /\
  p <> [].
Proof.
  cbv zeta. split; [apply stage1_range | apply stage1_nonempty].
Qed.



Section PlatformIsSet.

Context {W : Type} `{OS W}.

Lemma stage1_truthy (filename : str) :
  truthy (Some (_extract_platform_from_filename filename)) = true.
Proof.
  pose proof (stage1_nonempty filename) as Hne.
  destruct (_extract_platform_from_filename filename); [congruence|reflexivity].
Qed.

Lemma validate_sets_platform (s s' : state W) :
  _validate_inputs s = (Ok tt, s') -> has_platform s'.
Proof.
  unfold _validate_inputs, has_platform, platform_of.
  unfold bind, get_ctx, ask, raise_unless, ret, raise, log, modify_ctx.
  cbn [st_ctx st_world st_log fst snd].
  repeat match goal with
         | |- context [os_exists ?w ?x] =>
             destruct (os_exists w x) as [[|]|]; try discriminate
         end.
  destruct (truthy (platform (st_ctx s))) eqn:Et; cbn [negb];
    cbn [st_ctx st_world st_log fst snd];
    intros Heq; inversion Heq; subst; cbn.
  - exact Et.
  - apply stage1_truthy.
Qed.

Lemma refine_keeps_truthy (files : list str) (p : option str) :
  truthy p = true -> truthy (refine_platform files p) = true.
Proof.
  intros Hp. rewrite refine_platform_spec.
  destruct (qcow2_files files) as [|f rest]; [exact Hp|].
  destruct (_extract_platform_from_qcow2_filename (path_name f)) as [q|] eqn:E;
    [|exact Hp].
  apply stage2_nonempty in E. destruct q; [congruence | reflexivity].
Qed.

(** X3.  A platform that is set stays set through the whole run, and the
    platform argument of every build command of an object that passed
    [_validate_inputs] is a non-empty string: the build script is never
    called with a missing platform. *)
Theorem platform_is_always_set (s0 s1 s2 s3 : state W)
    (iso_files image_files : list str) (cmd : list (option str)) :
  _validate_inputs s0 = (Ok tt, s1) ->
  extract_archives s1 = (Ok (iso_files, image_files), s2) ->
  configure iso_files image_files s2 = (Ok cmd, s3) ->
  has_platform s1 /\ has_platform (snd (run s1)) /\
  exists p, p <> [] /\ nth_error cmd 5 = Some (Some p).
Proof.
  intros Hv Hx Hc.
  pose proof (validate_sets_platform s0 Hv) as H1.
  split; [exact H1|]. split.
  - destruct (refines_run s1) as [files Hr]. unfold has_platform.
    rewrite Hr. apply refine_keeps_truthy. exact H1.
  - assert (H2 : has_platform s2).
    { unfold has_platform. pose proof (keeps_extract_archives s1) as Hk.
      rewrite Hx in Hk. cbn [snd] in Hk. rewrite Hk. exact H1. }
    assert (H3 : has_platform s3).
    { destruct (refines_configure iso_files image_files s2) as [files Hr].
      rewrite Hc in Hr. cbn [snd] in Hr. unfold has_platform. rewrite Hr.
      apply refine_keeps_truthy. exact H2. }
    rewrite (configure_command _ _ _ Hc).
    unfold has_platform, platform_of in H3.
    unfold _build_bake_and_build_command.
    destruct (platform (st_ctx s3)) as [[|a p]|]; try discriminate.
    exists (a :: p). split; [discriminate | reflexivity].
Qed.

End PlatformIsSet.

Lemma X3_witness :
  let s1 := snd (_validate_inputs (example_state None c6_world)) in
  let extracted := extract_archives s1 in
  let files := match fst extracted with Ok x => x | Raise _ => ([], []) end in
  let configured := configure (fst files) (snd files) (snd extracted) in
  let cmd := match fst configured with Ok c => c | Raise _ => [] end in
  has_platform s1 /\ has_platform (snd (run s1)) /\
  exists p, p <> [] /\ nth_error cmd 5 = Some (Some p).
Proof.
  intros s1 extracted files configured cmd.
  apply (@platform_is_always_set SimpleWorld SimpleOS
           (example_state None c6_world) s1 (snd extracted) (snd configured)
           (fst files) (snd files) cmd).
  - vm_compute. reflexivity.
  - vm_compute. reflexivity.
  - vm_compute. reflexivity.
Defined.

(* ================================================================== *)
(** * The version suffix of a disk image name *)
(* ================================================================== *)

Section ExecMore.
Variable inp : str.

Lemma in_exec_alt (r1 r2 : regex) (st st' : mstate) :
  In st' (exec false inp (Alt r1 r2) st) <->
  In st' (exec false inp r1 st) \/ In st' (exec false inp r2 st).
Proof. cbn [exec]. apply in_app_iff. Qed.

(** One branch of the version pattern: a literal, then digits, a dot,
    digits, a dot, digits and the end. *)
Lemma version_branch_sound (l R rest : str) (caps : list str) :
  In (rest, caps)
     (exec false inp
        (seqs [Lit l; Plus is_digit; Lit `"."; Plus is_digit; Lit `".";
               Plus is_digit; Eol]) (R, [])) ->
  exists u, forallb is_digit_or_dot u = true /\ R = l ++ u ++ rest /\
            (rest = [] \/ rest = ["010"%char]).
Proof.
  cbn [seqs]. intros H.
  apply in_exec_seq in H as ([r1 c1] & H1 & H).
  apply in_exec_lit in H1 as (E1 & ->).
  apply in_exec_seq in H as ([r2 c2] & H2 & H).
  apply in_exec_plus in H2 as ((d1 & _ & D1 & E2) & ->).
  apply in_exec_seq in H as ([r3 c3] & H3 & H).
  apply in_exec_lit in H3 as (E3 & ->).
  apply in_exec_seq in H as ([r4 c4] & H4 & H).
  apply in_exec_plus in H4 as ((d2 & _ & D2 & E4) & ->).
  apply in_exec_seq in H as ([r5 c5] & H5 & H).
  apply in_exec_lit in H5 as (E5 & ->).
  apply in_exec_seq in H as ([r6 c6] & H6 & H).
  apply in_exec_plus in H6 as ((d3 & _ & D3 & E6) & ->).
  apply in_exec_eol in H as (-> & -> & Hrest).
  exists (d1 ++ `"." ++ d2 ++ `"." ++ d3). repeat split.
  - rewrite !forallb_app. unfold is_digit_or_dot.
    assert (Hd : forall d, forallb is_digit d = true ->
                   forallb (fun c => is_digit c || Ascii.eqb c ".") d = true).
    { intros d Hd. rewrite forallb_forall in *. intros x Hx.
      rewrite (Hd x Hx). reflexivity. }
    rewrite (Hd d1 D1), (Hd d2 D2), (Hd d3 D3). reflexivity.
  - rewrite E1, E2, E3, E4, E5, E6. rewrite <- !app_assoc. reflexivity.
  - exact Hrest.
Qed.

Lemma version_branch_complete (l major minor patch : str) :
  major <> [] -> forallb is_digit major = true ->
  minor <> [] -> forallb is_digit minor = true ->
  patch <> [] -> forallb is_digit patch = true ->
  In ([], [])
     (exec false inp
        (seqs [Lit l; Plus is_digit; Lit `"."; Plus is_digit; Lit `".";
               Plus is_digit; Eol])
        (l ++ version_text major minor patch, [])).
Proof.
  intros H1 D1 H2 D2 H3 D3. unfold version_text. cbn [seqs].
  apply in_exec_seq. eexists (_, []). split.
  { apply in_exec_lit. split; reflexivity. }
  apply in_exec_seq. eexists (_, []). split.
  { apply in_exec_plus. split; [|reflexivity]. exists major. auto. }
  apply in_exec_seq. eexists (_, []). split.
  { apply in_exec_lit. split; reflexivity. }
  apply in_exec_seq. eexists (_, []). split.
  { apply in_exec_plus. split; [|reflexivity]. exists minor. auto. }
  apply in_exec_seq. eexists (_, []). split.
  { apply in_exec_lit. split; reflexivity. }
  apply in_exec_seq. exists ([], []). split.
  { apply in_exec_plus. split; [|reflexivity]. exists patch.
    rewrite app_nil_r. auto. }
  apply in_exec_eol. auto.
Qed.

End ExecMore.

Lemma version_text_class (major minor patch : str) :
  forallb is_digit major = true -> forallb is_digit minor = true ->
  forallb is_digit patch = true ->
  forallb is_digit_or_dot (version_text major minor patch) = true.
Proof.
  intros D1 D2 D3. unfold version_text. rewrite !forallb_app.
  assert (Hd : forall d, forallb is_digit d = true ->
                 forallb is_digit_or_dot d = true).
  { intros d Hd. rewrite forallb_forall in *. intros x Hx.
    unfold is_digit_or_dot. rewrite (Hd x Hx). reflexivity. }
  rewrite (Hd _ D1), (Hd _ D2), (Hd _ D3). reflexivity.
Qed.

(** A string that ends with a digit does not end with a line feed. *)
Lemma ends_with_digit_no_newline (x y patch : str) :
  patch <> [] -> forallb is_digit patch = true ->
  x ++ patch <> y ++ ["010"%char].
Proof.
  intros Hne Hd E. destruct (exists_last Hne) as (p' & z & ->).
  rewrite forallb_app in Hd. apply andb_prop in Hd as [_ Hz].
  rewrite app_assoc in E. apply app_inj_tail in E as [_ ->].
  discriminate Hz.
Qed.

Lemma class_has_no (c : ascii -> bool) (u : str) (x : ascii) :
  forallb c u = true -> c x = false -> ~ In x u.
Proof.
  intros Hu Hx Hin. rewrite forallb_forall in Hu. rewrite (Hu x Hin) in Hx.
  discriminate.
Qed.

Lemma hd_error_first {A B} (l : list (A * B)) (x0 : A * B) :
  In x0 l -> (forall y, In y l -> fst y = fst x0) ->
  exists b, hd_error l = Some (fst x0, b).
Proof.
  destruct l as [|[a b] l]; [intros []|]. intros _ Hall. exists b. cbn.
  rewrite <- (Hall (a, b)) by (left; reflexivity). reflexivity.
Qed.

(** The way the version pattern matches at a version suffix. *)
Lemma version_match_here (inp l major minor patch : str) :
  l = `"-x64-" \/ l = `"-" ->
  major <> [] -> forallb is_digit major = true ->
  minor <> [] -> forallb is_digit minor = true ->
  patch <> [] -> forallb is_digit patch = true ->
  exists caps,
    re_match_state false version_pattern inp (l ++ version_text major minor patch)
    = Some ([], caps).
Proof.
  intros Hl H1 D1 H2 D2 H3 D3. unfold re_match_state.
  apply (@hd_error_first str (list str) _ ([], [])).
  - unfold version_pattern. apply in_exec_alt.
    destruct Hl as [-> | ->]; [left | right];
      apply version_branch_complete; assumption.
  - intros [rest caps] H0. cbn [fst].
    unfold version_pattern in H0. apply in_exec_alt in H0.
    assert (Hs : exists l' u, l ++ version_text major minor patch = l' ++ u ++ rest /\
                              (rest = [] \/ rest = ["010"%char])).
    { destruct H0 as [H0 | H0]; apply version_branch_sound in H0
        as (u & _ & Hu & Hr); eauto. }
    destruct Hs as (l' & u & HR & [-> | ->]); [reflexivity|]. exfalso.
    unfold version_text in HR.
    rewrite !app_assoc in HR.
    eapply ends_with_digit_no_newline; [exact H3 | exact D3 | exact HR].
Qed.

(** No way to match the version pattern before the version suffix. *)
Lemma version_no_match_before (inp t l major minor patch : str) :
  t <> [] ->
  (l = `"-x64-" \/ (l = `"-" /\ ~ In "x"%char t)) ->
  forallb is_digit major = true -> forallb is_digit minor = true ->
  patch <> [] -> forallb is_digit patch = true ->
  re_match_state false version_pattern inp
    (t ++ l ++ version_text major minor patch) = None.
Proof.
  intros Ht Hl D1 D2 H3 D3. unfold re_match_state.
  apply no_match_if_no_way. intros [rest caps] H0.
  pose proof (@version_text_class major minor patch D1 D2 D3) as Hv.
  assert (Hdash : is_digit_or_dot "-" = false) by reflexivity.
  assert (Hx : is_digit_or_dot "x" = false) by reflexivity.
  assert (Hs : exists l' u, (l' = `"-x64-" \/ l' = `"-") /\
             forallb is_digit_or_dot u = true /\
             t ++ l ++ version_text major minor patch = l' ++ u ++ rest /\
             (rest = [] \/ rest = ["010"%char])).
  { unfold version_pattern in H0. apply in_exec_alt in H0.
    destruct H0 as [H0 | H0]; apply version_branch_sound in H0
      as (u & Hu & HR & Hr); eauto 10. }
  destruct Hs as (l' & u & Hl' & Hu & HR & Hrest).
  assert (rest = []) as ->.
  { destruct Hrest as [-> | ->]; [reflexivity|]. exfalso.
    unfold version_text in HR. rewrite !app_assoc in HR.
    eapply ends_with_digit_no_newline; [exact H3 | exact D3 | exact HR]. }
  rewrite app_nil_r in HR. clear Hrest.
  set (w := version_text major minor patch) in *.
  destruct Hl' as [-> | ->]; destruct Hl as [-> | [-> Hnx]].
  - change (`"-x64-" ++ w) with (`"-x64" ++ "-"%char :: w) in HR.
    change (`"-x64-" ++ u) with (`"-x64" ++ "-"%char :: u) in HR.
    rewrite app_assoc in HR.
    apply (@class_run_unique_end is_digit_or_dot) in HR;
      [|assumption|assumption|assumption].
    destruct HR as [_ HR]. apply (f_equal (@length ascii)) in HR.
    rewrite length_app in HR. destruct t; [congruence | cbn in HR; lia].
  - change (`"-" ++ w) with ("-"%char :: w) in HR.
    change (`"-x64-" ++ u) with (`"-x64" ++ "-"%char :: u) in HR.
    apply (@class_run_unique_end is_digit_or_dot) in HR;
      [|assumption|assumption|assumption].
    destruct HR as [_ ->]. apply Hnx. cbn. tauto.
  - assert (Hin : In "x"%char (`"-" ++ u)).
    { rewrite <- HR. apply in_or_app. right. cbn. tauto. }
    cbn in Hin. destruct Hin as [Hin | Hin]; [discriminate|].
    exact (@class_has_no _ _ _ Hu Hx Hin).
  - change (`"-" ++ w) with ("-"%char :: w) in HR.
    change (`"-" ++ u) with ([] ++ "-"%char :: u) in HR.
    apply (@class_run_unique_end is_digit_or_dot) in HR;
      [|assumption|assumption|assumption].
    destruct HR as [_ ->]. congruence.
Qed.

Lemma re_sub_from_version (inp l major minor patch stem : str) (fuel : nat) :
  (l = `"-x64-" \/ (l = `"-" /\ ~ In "x"%char stem)) ->
  major <> [] -> forallb is_digit major = true ->
  minor <> [] -> forallb is_digit minor = true ->
  patch <> [] -> forallb is_digit patch = true ->
  length (stem ++ l ++ version_text major minor patch) < fuel ->
  re_sub_from fuel version_pattern [] inp
    (stem ++ l ++ version_text major minor patch) = stem.
Proof.
  intros Hl H1 D1 H2 D2 H3 D3. revert fuel.
  induction stem as [|c stem IH]; intros fuel Hf.
  - destruct fuel as [|fuel]; [inversion Hf|]. cbn [app re_sub_from].
    destruct (@version_match_here inp l major minor patch) as [caps ->];
      try assumption.
    { destruct Hl as [-> | [-> _]]; auto. }
    assert (Hlen : (length (@nil ascii) <? length (l ++ version_text major minor patch)) = true).
    { apply Nat.ltb_lt. rewrite length_app.
      destruct Hl as [-> | [-> _]]; cbn; lia. }
    rewrite Hlen. cbn [app]. destruct fuel; reflexivity.
  - destruct fuel as [|fuel]; [inversion Hf|].
    change ((c :: stem) ++ l ++ version_text major minor patch)
      with (c :: stem ++ l ++ version_text major minor patch).
    cbn [re_sub_from].
    assert (Hno : re_match_state false version_pattern inp
              (c :: stem ++ l ++ version_text major minor patch) = None).
    { apply (@version_no_match_before inp (c :: stem) l major minor patch);
        try assumption. discriminate. }
    rewrite Hno. f_equal. apply IH.
    + destruct Hl as [-> | [-> Hx]]; [left; reflexivity | right].
      split; [reflexivity|]. cbn in Hx. tauto.
    + cbn [app length] in Hf. lia.
Qed.

Lemma replace_qcow2_suffix (base : str) :
  ~ In "q"%char base -> replace `".qcow2" [] (base ++ `".qcow2") = base.
Proof.
  intros Hq. unfold replace. apply replace_only_at_end; [discriminate | lia |].
  intros a b -> Hb. destruct (startswith `".qcow2" (b ++ `".qcow2")) eqn:E;
    [|reflexivity]. exfalso.
  apply startswith_spec in E as [r E].
  destruct b as [|b0 [|b1 b]]; [congruence | discriminate E |].
  cbn in E. inversion E; subst. apply Hq. apply in_or_app. right. cbn. tauto.
Qed.

Lemma digits_have_no (x : ascii) (d : str) :
  forallb is_digit d = true -> is_digit x = false -> ~ In x d.
Proof. apply class_has_no. Qed.

Lemma version_text_has_no (x : ascii) (major minor patch : str) :
  forallb is_digit major = true -> forallb is_digit minor = true ->
  forallb is_digit patch = true -> is_digit_or_dot x = false ->
  ~ In x (version_text major minor patch).
Proof.
  intros D1 D2 D3. apply class_has_no. apply version_text_class; assumption.
Qed.

(** The base name of a versioned disk image name, as the first two
    statements of the [try] compute it. *)
Lemma stage2_base_name (l major minor patch stem : str) :
  (l = `"-x64-" \/ (l = `"-" /\ ~ In "x"%char stem)) ->
  ~ In "q"%char stem ->
  major <> [] -> forallb is_digit major = true ->
  minor <> [] -> forallb is_digit minor = true ->
  patch <> [] -> forallb is_digit patch = true ->
  re_sub version_pattern []
    (replace `".qcow2" []
       (stem ++ l ++ version_text major minor patch ++ `".qcow2")) = stem.
Proof.
  intros Hl Hq H1 D1 H2 D2 H3 D3.
  pose proof (@version_text_has_no "q" major minor patch D1 D2 D3 eq_refl) as Hvq.
  assert (Hrep : replace `".qcow2" []
                   (stem ++ l ++ version_text major minor patch ++ `".qcow2")
                 = stem ++ l ++ version_text major minor patch).
  { rewrite !app_assoc. rewrite <- (app_assoc stem).
    apply replace_qcow2_suffix. intros Hi.
    apply in_app_or in Hi as [Hi | Hi]; [tauto|].
    apply in_app_or in Hi as [Hi | Hi]; [|tauto].
    destruct Hl as [-> | [-> _]]; cbn in Hi; intuition discriminate. }
  rewrite Hrep. unfold re_sub. apply re_sub_from_version; try assumption. lia.
Qed.

(** X4.  The version of a disk image name never matters: two names
    [<stem>-x64-<version>.qcow2] or [<stem>-<version>.qcow2] with the same
    stem resolve alike, whatever the two versions. *)
Theorem stage2_version_agnostic (stem l l' a b c a' b' c' : str) :
  ~ In "q"%char stem -> ~ In "x"%char stem ->
  (l = `"-x64-" \/ l = `"-") -> (l' = `"-x64-" \/ l' = `"-") ->
  a <> [] -> forallb is_digit a = true ->
  b <> [] -> forallb is_digit b = true ->
  c <> [] -> forallb is_digit c = true ->
  a' <> [] -> forallb is_digit a' = true ->
  b' <> [] -> forallb is_digit b' = true ->
  c' <> [] -> forallb is_digit c' = true ->
  _extract_platform_from_qcow2_filename
    (stem ++ l ++ version_text a b c ++ `".qcow2") =
  _extract_platform_from_qcow2_filename
    (stem ++ l' ++ version_text a' b' c' ++ `".qcow2").
Proof.
  intros Hq Hx Hl Hl' A1 A2 B1 B2 C1 C2 A1' A2' B1' B2' C1' C2'.
  unfold _extract_platform_from_qcow2_filename, extract_qcow2_body. cbv zeta.
  assert (E : re_sub version_pattern []
                (replace `".qcow2" [] (stem ++ l ++ version_text a b c ++ `".qcow2"))
              = stem).
  { apply stage2_base_name; try assumption. tauto. }
  assert (E' : re_sub version_pattern []
                (replace `".qcow2" [] (stem ++ l' ++ version_text a' b' c' ++ `".qcow2"))
              = stem).
  { apply stage2_base_name; try assumption. tauto. }
  rewrite E, E'. reflexivity.
Qed.

Lemma X4_witness :
  _extract_platform_from_qcow2_filename
    (`"8101-32FH" ++ `"-x64-" ++ version_text `"25" `"1" `"2" ++ `".qcow2") =
  _extract_platform_from_qcow2_filename
    (`"8101-32FH" ++ `"-" ++ version_text `"7" `"10" `"1" ++ `".qcow2").
Proof.
  apply (@stage2_version_agnostic `"8101-32FH" `"-x64-" `"-"
           `"25" `"1" `"2" `"7" `"10" `"1");
    first [ discriminate | reflexivity | (left; reflexivity) | (right; reflexivity)
          | (cbn; intuition discriminate) ].
Defined.

(** X5.  A disk image named after a key of the disk-image table, with any
    version [<major>.<minor>.<patch>] behind it, resolves to the key's
    platform, and so does the same name without [-x64]. *)
Theorem stage2_table_names (k v major minor patch : str) :
  In (k, v) QCOW2_TO_PLATFORM ->
  major <> [] -> forallb is_digit major = true ->
  minor <> [] -> forallb is_digit minor = true ->
  patch <> [] -> forallb is_digit patch = true ->
  _extract_platform_from_qcow2_filename
    (k ++ `"-" ++ version_text major minor patch ++ `".qcow2") = Some v /\
  _extract_platform_from_qcow2_filename
    (replace `"-x64" [] k ++ `"-" ++ version_text major minor patch ++ `".qcow2")
  = Some v.
Proof.
  intros Hin H1 D1 H2 D2 H3 D3.
  assert (Hstem : forall stem l,
            (l = `"-x64-" \/ (l = `"-" /\ ~ In "x"%char stem)) ->
            ~ In "q"%char stem ->
            _extract_platform_from_qcow2_filename
              (stem ++ l ++ version_text major minor patch ++ `".qcow2") =
            match extract_qcow2_body QCOW2_TO_PLATFORM PLATFORM_MAPPING
                    (stem ++ l ++ version_text major minor patch ++ `".qcow2") with
            | Returned r => r | _ => None end) by reflexivity.
  assert (Hbase : forall stem l,
            (l = `"-x64-" \/ (l = `"-" /\ ~ In "x"%char stem)) ->
            ~ In "q"%char stem ->
            re_sub version_pattern []
              (replace `".qcow2" []
                 (stem ++ l ++ version_text major minor patch ++ `".qcow2")) = stem).
  { intros stem l Hl Hq. apply stage2_base_name; assumption. }
  clear Hstem.
  unfold _extract_platform_from_qcow2_filename, extract_qcow2_body. cbv zeta.
  cbn in Hin.
  repeat (destruct Hin as [Hin | Hin];
    [ inversion Hin; subst k v; clear Hin;
      match goal with
      | |- context [replace `"-x64" [] ?key ++ _] =>
          let st := eval vm_compute in (replace `"-x64" [] key) in
          change (replace `"-x64" [] key ++ `"-" ++ version_text major minor patch ++ `".qcow2")
            with (st ++ `"-" ++ version_text major minor patch ++ `".qcow2");
          change (key ++ `"-" ++ version_text major minor patch ++ `".qcow2")
            with (st ++ `"-x64-" ++ version_text major minor patch ++ `".qcow2");
          rewrite (Hbase st `"-x64-")
            by first [ (left; reflexivity) | (cbn; intuition discriminate) ];
          rewrite (Hbase st `"-")
            by first [ (right; split; [reflexivity | cbn; intuition discriminate])
                     | (cbn; intuition discriminate) ]
      end;
      split; vm_compute; reflexivity
    | ]).
  destruct Hin.
Qed.

Lemma X5_witness :
  _extract_platform_from_qcow2_filename
    (`"8000-x64" ++ `"-" ++ version_text `"25" `"1" `"2" ++ `".qcow2")
    = Some `"8201-sys" /\
  _extract_platform_from_qcow2_filename
    (replace `"-x64" [] `"8000-x64" ++ `"-" ++ version_text `"25" `"1" `"2" ++ `".qcow2")
  = Some `"8201-sys".
Proof.
  apply (@stage2_table_names `"8000-x64" `"8201-sys" `"25" `"1" `"2");
    first [ discriminate | reflexivity | (left; reflexivity) ].
Defined.

(* ================================================================== *)
(** * The exit status of a run *)
(* ================================================================== *)

Section ExitStatus.

Context {W : Type} `{OS W}.

Lemma bind_raise {A B} (m : M W A) (k : A -> M W B) (s s' : state W) (e : exn) :
  bind m k s = (Raise e, s') ->
  m s = (Raise e, s') \/ exists a s1, m s = (Ok a, s1) /\ k a s1 = (Raise e, s').
Proof.
  unfold bind. destruct (m s) as [[a|e0] s1]; intros Hk.
  - right. exists a, s1. auto.
  - left. inversion Hk; subst. reflexivity.
Qed.

Lemma bind_raise_eq {A B} (m : M W A) (k : A -> M W B) (s s' : state W) (e : exn) :
  m s = (Raise e, s') -> bind m k s = (Raise e, s').
Proof. intros Hm. unfold bind. rewrite Hm. reflexivity. Qed.

(** A run that fails before the build step goes to the handler. *)
Lemma run_from_failure (s s' : state W) (e : exn) :
  run_until_report s = (Raise e, s') ->
  run s = try_finally (log ERROR (WorkflowFailed e) ;; ret 1%Z)
            _cleanup_temp_directory s'.
Proof.
  unfold run, run_until_report. intros Hr.
  unfold try_finally at 1. unfold try_except.
  unfold try_finally at 2.
  apply bind_raise in Hr as [Hr | (x & sa & Ha & Hr)].
  { rewrite (@bind_raise_eq _ _ _ _ _ _ _ Hr). reflexivity. }
  rewrite (@bind_eq _ _ _ _ _ _ _ _ Ha).
  apply bind_raise in Hr as [Hr | (cmd & sb & Hb & Hr)].
  { rewrite (@bind_raise_eq _ _ _ _ _ _ _ Hr). reflexivity. }
  rewrite (@bind_eq _ _ _ _ _ _ _ _ Hb).
  apply bind_raise in Hr as [Hr | (c & sc & Hc & Hr)].
  { rewrite (@bind_raise_eq _ _ _ _ _ _ _ Hr). reflexivity. }
  rewrite (@bind_eq _ _ _ _ _ _ _ _ Hc).
  apply bind_raise in Hr as [Hr | (d & sd & Hd & Hr)].
  { rewrite (@bind_raise_eq _ _ _ _ _ _ _ Hr). reflexivity. }
  rewrite (@bind_eq _ _ _ _ _ _ _ _ Hd).
  apply bind_raise in Hr as [Hr | (u & se & He & Hr)].
  { rewrite (@bind_raise_eq _ _ _ _ _ _ _ Hr). reflexivity. }
  rewrite (@bind_eq _ _ _ _ _ _ _ _ He).
  exfalso.
  apply bind_raise in Hr as [Hr | (r & sf & Hf & Hr)].
  - destruct (build_never_raises cmd se) as [r Hb']. rewrite Hr in Hb'.
    discriminate Hb'.
  - discriminate Hr.
Qed.

Lemma cleanup_temp_keeps_log (s : state W) :
  st_log (snd (_cleanup_temp_directory s)) = st_log s /\
  st_ctx (snd (_cleanup_temp_directory s)) = st_ctx s.
Proof.
  unfold _cleanup_temp_directory, bind, get_ctx, ask, act, ret.
  destruct (temp_dir (st_ctx s)) as [d|]; [|auto].
  destruct (cleanup (st_ctx s)); [|auto].
  destruct (os_exists (st_world s) d) as [[|]|e]; auto.
  cbn. destruct (os_rmtree (st_world s) d) as [r w']. auto.
Qed.

Lemma finally_log (m : M W Z) (f : M W unit) (s : state W) :
  (forall s1, st_log (snd (f s1)) = st_log s1) ->
  st_log (snd (try_finally m f s)) = st_log (snd (m s)).
Proof.
  intros Hf. unfold try_finally. destruct (m s) as [r s1]. specialize (Hf s1).
  destruct (f s1) as [[u|e] s2]; exact Hf.
Qed.

(** X6.  A failure before the build step (the manifest check, the
    scratch directory, an extraction, the search for the installer
    image, the log directory, the change of directory) ends the run: the
    failure is logged as an error, only the removal of the scratch
    directory follows, and the exit status is 1. *)
Theorem failure_before_build_exits_1 (s s' : state W) (e : exn) :
  run_until_report s = (Raise e, s') ->
  run s = try_finally (log ERROR (WorkflowFailed e) ;; ret 1%Z)
            _cleanup_temp_directory s' /\
  exit_status (fst (run s)) = 1%Z /\
  st_log (snd (run s)) = st_log s' ++ [(ERROR, WorkflowFailed e)].
Proof.
  intros Hr. pose proof (@run_from_failure s s' e Hr) as E. split; [exact E|].
  rewrite E. split.
  - apply finally_keeps_failure. reflexivity.
  - rewrite finally_log by (intros s1; apply cleanup_temp_keeps_log).
    reflexivity.
Qed.

Lemma report_nonzero (rc : Z) (output : str) (s : state W) :
  rc <> 0%Z ->
  report rc output s = (Ok rc, logged s [(INFO, WorkflowCompletedWithErrors rc)]).
Proof.
  intros Hrc. unfold report.
  apply Z.eqb_neq in Hrc. rewrite Hrc.
  unfold bind, ret, log, logged. cbn. rewrite Hrc. reflexivity.
Qed.

Lemma report_zero_needs_zero (rc : Z) (output : str) (s : state W) :
  fst (report rc output s) = Ok 0%Z -> rc = 0%Z.
Proof.
  intros Hr. destruct (Z.eq_dec rc 0) as [E|N]; [exact E|].
  rewrite (@report_nonzero rc output s N) in Hr. cbn in Hr. congruence.
Qed.

Lemma exit_zero_finally (m : M W Z) (f : M W unit) (s : state W) :
  exit_status (fst (try_finally m f s)) = 0%Z -> fst (m s) = Ok 0%Z.
Proof.
  unfold try_finally. destruct (m s) as [r s1].
  destruct (f s1) as [[u|e] s2]; cbn; [|discriminate].
  destruct r as [z|e]; cbn; [congruence | discriminate].
Qed.

Lemma exit_zero_handled (m : M W Z) (s : state W) :
  fst (try_except m (fun e => log ERROR (WorkflowFailed e) ;; ret 1%Z) s) = Ok 0%Z ->
  fst (m s) = Ok 0%Z.
Proof.
  unfold try_except. destruct (m s) as [[z|e] s1]; cbn; [auto | discriminate].
Qed.

Lemma ok_zero_finally (m : M W Z) (f : M W unit) (s : state W) :
  fst (try_finally m f s) = Ok 0%Z -> fst (m s) = Ok 0%Z.
Proof.
  intros Hm. apply (@exit_zero_finally m f s). rewrite Hm. reflexivity.
Qed.

(** The exit status of a run is 0 only if its report returned 0. *)
Lemma exit_zero_report (s0 s1 : state W) (rc : Z) (output cwd : str) :
  run_until_report s0 = (Ok (rc, output, cwd), s1) ->
  exit_status (fst (run s0)) = 0%Z ->
  fst (report rc output s1) = Ok 0%Z.
Proof.
  intros Hr Hx. rewrite (@run_from_report _ _ s0 s1 rc output cwd Hr) in Hx.
  pose proof (@exit_zero_finally _ _ _ Hx) as H1.
  pose proof (@exit_zero_handled _ _ H1) as H2.
  exact (@ok_zero_finally _ _ _ H2).
Qed.

(** X7.  When the build script exits with a code other than 0, the
    report looks for no artifact and returns that code; the run returns
    it once its two guaranteed steps go through, and its exit status is
    not 0 whatever they do. *)
Theorem failed_build_exit_status (s0 s1 : state W) (rc : Z) (output cwd : str) :
  run_until_report s0 = (Ok (rc, output, cwd), s1) ->
  rc <> 0%Z ->
  report rc output s1 =
    (Ok rc, logged s1 [(INFO, WorkflowCompletedWithErrors rc)]) /\
  (forall s3 s4,
     act (fun w => os_chdir w cwd)
       (logged s1 [(INFO, WorkflowCompletedWithErrors rc)]) = (Ok tt, s3) ->
     _cleanup_temp_directory s3 = (Ok tt, s4) ->
     run s0 = (Ok rc, s4)) /\
  exit_status (fst (run s0)) <> 0%Z.
Proof.
  intros Hr Hrc. pose proof (@report_nonzero rc output s1 Hrc) as Hp.
  split; [exact Hp|]. split.
  - intros s3 s4 Hb Hc.
    destruct (@run_after_report _ _ s0 s1 _ rc rc output cwd Hr Hp) as [_ H2].
    exact (H2 s3 s4 Hb Hc).
  - intros Hx. apply (@exit_zero_report s0 s1 rc output cwd Hr) in Hx.
    apply report_zero_needs_zero in Hx. contradiction.
Qed.

(** X8.  A run exits with 0 only if the build script was run and exited
    with 0, and the report on its output returned 0. *)
Theorem exit_zero_needs_successful_build (s : state W) :
  exit_status (fst (run s)) = 0%Z ->
  exists output cwd s1,
    run_until_report s = (Ok (0%Z, output, cwd), s1) /\
    fst (report 0 output s1) = Ok 0%Z.
Proof.
  intros Hx. destruct (run_until_report s) as [[[[rc output] cwd]|e] s1] eqn:Hr.
  - pose proof (@exit_zero_report s s1 rc output cwd Hr Hx) as Hp.
    pose proof (@report_zero_needs_zero rc output s1 Hp) as ->.
    exists output, cwd, s1. auto.
  - rewrite (@run_from_failure s s1 e Hr) in Hx.
    rewrite finally_keeps_failure in Hx by reflexivity. discriminate Hx.
Qed.

End ExitStatus.

Lemma X6_witness :
  run_until_report (example_state (Some `"8101-32H") no_archive_world) =
    (Raise (CreateSingleDockerError
              (`"Failed to extract: " ++ `"not a tar archive")),
     snd (run_until_report (example_state (Some `"8101-32H") no_archive_world))) /\
  exit_status (fst (run (example_state (Some `"8101-32H") no_archive_world))) = 1%Z.
Proof.
  assert (Hr : run_until_report (example_state (Some `"8101-32H") no_archive_world) =
    (Raise (CreateSingleDockerError
              (`"Failed to extract: " ++ `"not a tar archive")),
     snd (run_until_report (example_state (Some `"8101-32H") no_archive_world))))
    by (vm_compute; reflexivity).
  split; [exact Hr|].
  exact (proj1 (proj2 (@failure_before_build_exits_1 SimpleWorld SimpleOS
                         _ _ _ Hr))).
Defined.

Lemma X7_witness :
  run_until_report (example_state (Some `"8101-32H") failed_build_world) =
    (Ok (3%Z, `"Saving docker image, ovxr:latest to /out/img.tar", `"/work"),
     snd (run_until_report (example_state (Some `"8101-32H") failed_build_world))) /\
  exit_status (fst (run (example_state (Some `"8101-32H") failed_build_world)))
    <> 0%Z.
Proof.
  assert (Hr : run_until_report (example_state (Some `"8101-32H") failed_build_world) =
    (Ok (3%Z, `"Saving docker image, ovxr:latest to /out/img.tar", `"/work"),
     snd (run_until_report (example_state (Some `"8101-32H") failed_build_world))))
    by (vm_compute; reflexivity).
  assert (Hrc : 3%Z <> 0%Z) by discriminate.
  split; [exact Hr|].
  exact (proj2 (proj2 (@failed_build_exit_status SimpleWorld SimpleOS
                         _ _ _ _ _ Hr Hrc))).
Defined.

Lemma X8_witness :
  exit_status (fst (run c8_state0)) = 0%Z /\
  exists output cwd s1,
    run_until_report c8_state0 = (Ok (0%Z, output, cwd), s1) /\
    fst (report 0 output s1) = Ok 0%Z.
Proof.
  assert (Hx : exit_status (fst (run c8_state0)) = 0%Z)
    by (vm_compute; reflexivity).
  split; [exact Hx|].
  exact (@exit_zero_needs_successful_build SimpleWorld SimpleOS c8_state0 Hx).
Defined.

Example failed_build_returns_its_code :
  fst (run (example_state (Some `"8101-32H") failed_build_world)) = Ok 3%Z.
Proof. vm_compute. reflexivity. Qed.

(* ================================================================== *)
(** * The artifact search, the manifest and the log directory *)
(* ================================================================== *)

Section ArtifactSearch.

Context {W : Type} `{OS W}.

(** X9.  The search for the artifact path never raises and changes
    nothing but the log, and a path it returns is not empty. *)
Theorem artifact_search_is_harmless (output : str) (s : state W) :
  exists r,
    fst (_extract_docker_image_path output s) = Ok r /\
    st_world (snd (_extract_docker_image_path output s)) = st_world s /\
    st_ctx (snd (_extract_docker_image_path output s)) = st_ctx s /\
    (forall p, r = Some p -> p <> []).
Proof.
  destruct (extract_docker_only_logs output s) as (Hw & Hc & Hne).
  cbv zeta in *.
  assert (Hok : exists r, fst (_extract_docker_image_path output s) = Ok r).
  { unfold _extract_docker_image_path, try_except.
    destruct (docker_image_path_lines (split "010" output) s) as [[r|e] s'];
      eexists; reflexivity. }
  destruct Hok as [r Hr]. exists r. repeat split; try assumption.
  intros p ->. exact (Hne p Hr).
Qed.

Lemma docker_lines_skip (pre rest : list str) (s : state W) :
  (forall x, In x pre -> artifact_of_line x = NoArtifact) ->
  docker_image_path_lines (pre ++ rest) s = docker_image_path_lines rest s.
Proof.
  intros Hpre. induction pre as [|l pre IH]; [reflexivity|].
  cbn [app docker_image_path_lines].
  pose proof (Hpre l (or_introl eq_refl)) as Hl.
  unfold artifact_of_line in Hl. cbv zeta in Hl.
  assert (IH' : docker_image_path_lines (pre ++ rest) s =
                docker_image_path_lines rest s).
  { apply IH. intros x Hx. apply Hpre. right. exact Hx. }
  destruct (re_search true docker_image_pattern (strip l)) as [groups|];
    [|exact IH'].
  destruct (nth_error groups 0) as [g|]; [|discriminate Hl].
  destruct (truthy (Some (strip g)) && endswith `".tar" (strip g));
    [discriminate Hl | exact IH'].
Qed.

Lemma docker_lines_hit (l p : str) (post : list str) (s : state W) (e : bool) :
  artifact_of_line l = Artifact p ->
  os_exists s.(st_world) p = Ok e ->
  docker_image_path_lines (l :: post) s =
  (Ok (Some (if e then os_resolve s.(st_world) p else p)), s).
Proof.
  intros Hl He. cbn [docker_image_path_lines].
  unfold artifact_of_line in Hl. cbv zeta in Hl.
  destruct (re_search true docker_image_pattern (strip l)) as [groups|];
    [|discriminate Hl].
  destruct (nth_error groups 0) as [g|]; [|discriminate Hl].
  destruct (truthy (Some (strip g)) && endswith `".tar" (strip g));
    [|discriminate Hl].
  inversion Hl; subst p.
  unfold bind, ask, ask_pure, ret. rewrite He. destruct e; reflexivity.
Qed.

(** X10.  The artifact is decided by the first line of the output whose
    captured path, trimmed, is not empty and ends in [.tar] in lower
    case: lines before it that do not match, or whose path ends
    otherwise, are passed over, and lines after it are not looked at.
    The path is returned resolved when the file exists and as it was
    printed when it does not; it ends in [.tar] as printed. *)
Theorem artifact_is_first_accepted_line (output : str) (pre post : list str)
    (l p : str) (s : state W) (e : bool) :
  split "010" output = pre ++ l :: post ->
  (forall x, In x pre -> artifact_of_line x = NoArtifact) ->
  artifact_of_line l = Artifact p ->
  os_exists s.(st_world) p = Ok e ->
  _extract_docker_image_path output s =
    (Ok (Some (if e then os_resolve s.(st_world) p else p)), s) /\
  endswith `".tar" p = true /\ p <> [].
Proof.
  intros Hs Hpre Hl He. split.
  - unfold _extract_docker_image_path, try_except. rewrite Hs.
    rewrite (@docker_lines_skip pre (l :: post) s Hpre).
    rewrite (@docker_lines_hit l p post s e Hl He). reflexivity.
  - unfold artifact_of_line in Hl. cbv zeta in Hl.
    destruct (re_search true docker_image_pattern (strip l)) as [groups|];
      [|discriminate Hl].
    destruct (nth_error groups 0) as [g|]; [|discriminate Hl].
    destruct (truthy (Some (strip g)) && endswith `".tar" (strip g)) eqn:Et;
      [|discriminate Hl].
    inversion Hl; subst p. apply andb_prop in Et as [Et1 Et2].
    split; [exact Et2|]. destruct (strip g); [discriminate Et1 | discriminate].
Qed.

End ArtifactSearch.

Lemma X10_witness :
  split "010" two_artifact_lines =
    [`"building"; `"Saving docker image, ovxr:a to /out/A.TAR"] ++
    `"Saving docker image, ovxr:b to /out/b.tar" ::
    [`"Saving docker image, ovxr:c to /out/c.tar"] /\
  artifact_of_line `"Saving docker image, ovxr:a to /out/A.TAR" = NoArtifact /\
  re_search true docker_image_pattern `"Saving docker image, ovxr:a to /out/A.TAR"
    = Some [`"/out/A.TAR"] /\
  _extract_docker_image_path two_artifact_lines c8_state0 =
    (Ok (Some `"/out/b.tar"), c8_state0).
Proof.
  assert (Hs : split "010" two_artifact_lines =
    [`"building"; `"Saving docker image, ovxr:a to /out/A.TAR"] ++
    `"Saving docker image, ovxr:b to /out/b.tar" ::
    [`"Saving docker image, ovxr:c to /out/c.tar"]) by (vm_compute; reflexivity).
  assert (Hpre : forall x,
            In x [`"building"; `"Saving docker image, ovxr:a to /out/A.TAR"] ->
            artifact_of_line x = NoArtifact).
  { intros x [<-|[<-|[]]]; vm_compute; reflexivity. }
  assert (Hl : artifact_of_line `"Saving docker image, ovxr:b to /out/b.tar"
               = Artifact `"/out/b.tar") by (vm_compute; reflexivity).
  assert (He : os_exists c8_state0.(st_world) `"/out/b.tar" = Ok false)
    by (vm_compute; reflexivity).
  split; [exact Hs|]. split; [vm_compute; reflexivity|].
  split; [vm_compute; reflexivity|].
  exact (proj1 (@artifact_is_first_accepted_line SimpleWorld SimpleOS
                  two_artifact_lines _ _ _ _ c8_state0 false Hs Hpre Hl He)).
Defined.

Section Manifest.

Context {W : Type} `{OS W}.

(** With an [exists] that answers, the missing files are those it says
    no to. *)
Lemma missing_files_spec (root : str) (files : list str) (s : state W) :
  (forall p, exists b, os_exists s.(st_world) p = Ok b) ->
  exists missing,
    missing_files root files s = (Ok missing, s) /\
    (missing = [] <->
     forall f, In f files -> os_exists s.(st_world) (path_div root f) = Ok true).
Proof.
  intros Hex. induction files as [|f files IH].
  - exists []. split; [reflexivity|]. split; [intros _ f []|reflexivity].
  - destruct IH as (missing & Hm & Hiff).
    destruct (Hex (path_div root f)) as [b Hb].
    exists (if b then missing else path_div root f :: missing). split.
    + cbn [missing_files]. unfold bind, ask, ret. rewrite Hb, Hm. reflexivity.
    + destruct b; split.
      * intros E g [<-|Hg]; [exact Hb | apply Hiff; assumption].
      * intros Hall. apply Hiff. intros g Hg. apply Hall. right. exact Hg.
      * discriminate.
      * intros Hall. specialize (Hall f (or_introl eq_refl)). congruence.
Qed.

Lemma manifest_entries_In (lines : list str) (f : str) :
  In f (manifest_entries lines) <->
  exists line, In line lines /\ f = strip line /\ strip line <> [] /\
               startswith `"#" (strip line) = false.
Proof.
  unfold manifest_entries. rewrite in_map_iff. split.
  - intros (line & <- & Hin). apply filter_In in Hin as [Hin Ht].
    apply andb_prop in Ht as [Ht Hc]. exists line. repeat split; auto.
    + destruct (strip line); [discriminate Ht | discriminate].
    + apply negb_true_iff. exact Hc.
  - intros (line & Hin & -> & Hne & Hc). exists line. split; [reflexivity|].
    apply filter_In. split; [exact Hin|]. rewrite Hc.
    destruct (strip line); [congruence | reflexivity].
Qed.

(** X11.  The manifest check passes exactly when the manifest exists and
    every line of it that, trimmed, is neither empty nor starts with [#]
    names a file that exists below the directory two levels above the
    script's; otherwise it raises a [CreateSingleDockerError].  Either
    way it changes nothing. *)
Theorem initial_file_check_spec (conf : str) (lines : list str) (s : state W) :
  (forall p, exists b, os_exists s.(st_world) p = Ok b) ->
  os_read_lines s.(st_world) conf = Ok lines ->
  let root := path_parent (path_parent s.(st_ctx).(script_dir)) in
  let present :=
    os_exists s.(st_world) conf = Ok true /\
    forall line, In line lines ->
      strip line <> [] -> startswith `"#" (strip line) = false ->
      os_exists s.(st_world) (path_div root (strip line)) = Ok true in
  (present -> _initial_file_check conf s = (Ok tt, s)) /\
  (~ present ->
   exists msg, _initial_file_check conf s = (Raise (CreateSingleDockerError msg), s)).
Proof.
  intros Hex Hlines root present.
  destruct (@missing_files_spec root (manifest_entries lines) s Hex)
    as (missing & Hm & Hiff).
  destruct (Hex conf) as [b Hb].
  assert (Hrun : _initial_file_check conf s =
            if b then
              match missing with
              | _ :: _ => (Raise (CreateSingleDockerError `"Missing required files"), s)
              | [] => (Ok tt, s)
              end
            else (Raise (CreateSingleDockerError `"Config file not found"), s)).
  { unfold _initial_file_check, bind, get_ctx, ask, raise_unless.
    cbn [st_ctx st_world]. rewrite Hb. destruct b; [|reflexivity].
    unfold ret at 1. rewrite Hlines.
    change (map strip (filter _ lines)) with (manifest_entries lines).
    fold root. rewrite Hm. destruct missing; reflexivity. }
  rewrite Hrun. split.
  - intros [Hc Hall]. assert (b = true) as -> by congruence.
    assert (missing = []) as ->; [|reflexivity].
    apply Hiff. intros f Hf. apply manifest_entries_In in Hf
      as (line & Hin & -> & Hne & Hcm). apply Hall; assumption.
  - intros Hnot. destruct b.
    + destruct missing as [|m missing].
      * exfalso. apply Hnot. split; [exact Hb|].
        intros line Hin Hne Hcm. apply (proj1 Hiff eq_refl).
        apply manifest_entries_In. exists line. auto.
      * eexists. reflexivity.
    + eexists. reflexivity.
Qed.

End Manifest.

Lemma X11_witness :
  let s := manifest_state
             [`"# files the build needs" ++ ["010"%char]; ["010"%char];
              `"  ovxr/bake-and-build/bake-and-build.sh" ++ ["010"%char]]
             false (release_world [] [] 0 [] []) in
  _initial_file_check `"/opt/ovxr/sonic/required_files.conf" s = (Ok tt, s).
Proof.
  intros s.
  refine (proj1 (@initial_file_check_spec ManifestWorld ManifestOS
                   `"/opt/ovxr/sonic/required_files.conf"
                   [`"# files the build needs" ++ ["010"%char]; ["010"%char];
                    `"  ovxr/bake-and-build/bake-and-build.sh" ++ ["010"%char]]
                   s _ _) _).
  - intros p. eexists. reflexivity.
  - reflexivity.
  - split; [vm_compute; reflexivity|].
    intros line [<-|[<-|[<-|[]]]] Hne Hc.
    + vm_compute in Hc. discriminate Hc.
    + exfalso. apply Hne. vm_compute. reflexivity.
    + vm_compute. reflexivity.
Defined.

Example manifest_with_a_missing_file :
  fst (_initial_file_check `"/opt/ovxr/sonic/required_files.conf"
         (manifest_state [`"ovxr/docs/README.md" ++ ["010"%char]] false
            (release_world [] [] 0 [] [])))
  = Raise (CreateSingleDockerError `"Missing required files").
Proof. vm_compute. reflexivity. Qed.

Section Logging.

Context {W : Type} `{OS W}.


End Logging.

Example logging_setup_on_a_read_only_directory :
  let s := manifest_state [] true (release_world [] [] 0 [] []) in
  fst (_setup_logging_directory s) =
    Raise (Exception (`"Logging setup failed: " ++ `"Read-only file system")) /\
  log_dir (st_ctx (snd (_setup_logging_directory s))) = None /\
  exit_status (fst (run s)) = 1%Z.
Proof. vm_compute. repeat split. Qed.

(* ================================================================== *)
(** * What the input resolver accepts *)
(* ================================================================== *)

Lemma in_exec_cls (inp : str) (k : ascii -> bool) (r r' : str) (c c' : list str) :
  In (r', c') (exec false inp (Cls k) (r, c)) <->
  (exists a, k a = true /\ r = a :: r') /\ c' = c.
Proof.
  cbn [exec fst snd]. destruct r as [|a r].
  - split; [intros []|]. intros [(a & _ & E) _]. discriminate E.
  - destruct (k a) eqn:Ea.
    + cbn [In]. split.
      * intros [[= <- <-]|[]]. split; [|reflexivity]. exists a. auto.
      * intros [(b & _ & E) ->]. injection E as <- <-. left. reflexivity.
    + split; [intros []|]. intros [(b & Hb & E) _]. injection E as <- _.
      congruence.
Qed.

(** What a match of the generic pattern says about the subject. *)
Lemma generic_sound (inp rest : str) (caps : list str) :
  In (rest, caps) (exec false inp generic_pattern (inp, [])) ->
  exists ds t mid sfx x,
    ds <> [] /\ forallb is_digit ds = true /\
    is_f_or_d t = true /\ (sfx = [] \/ sfx = `"s") /\
    x <> [] /\ forallb is_digit_or_dot x = true /\
    inp = `"8000-" ++ ds ++ `"-" ++ [t] ++ `"-" ++ mid ++ `"-image" ++ sfx ++
          `"-" ++ `"eft" ++ x ++ `".tar" ++ rest /\
    (rest = [] \/ rest = ["010"%char]) /\
    caps = [`"8000-" ++ ds; `"eft" ++ x].
Proof.
  unfold generic_pattern. cbn [seqs]. intros H.
  apply in_exec_seq in H as ([r0 c0] & H0 & H).
  apply in_exec_bol in H0 as (-> & -> & _).
  apply in_exec_seq in H as ([r1 c1] & H1 & H).
  apply in_exec_group in H1 as (c1' & H1 & ->).
  apply in_exec_seq in H1 as ([ra ca] & Ha & H1).
  apply in_exec_lit in Ha as (Hinp & ->).
  apply in_exec_plus in H1 as ((ds & Hds & Hdd & Hra) & ->).
  apply in_exec_seq in H as ([r2 c2] & H2 & H).
  apply in_exec_lit in H2 as (Hr1 & ->).
  apply in_exec_seq in H as ([r2' c2'] & H2' & H).
  apply in_exec_cls in H2' as ((t & Ht & Hr2) & ->).
  apply in_exec_seq in H as ([r2'' c2''] & H2'' & H).
  apply in_exec_lit in H2'' as (Hr2' & ->).
  apply in_exec_seq in H as ([r3 c3] & H3 & H).
  apply in_exec_plus in H3 as ((pd & Hpd & Hpdd & Hr2'') & ->).
  apply in_exec_seq in H as ([r4 c4] & H4 & H).
  assert (Hopt : exists popt,
             r3 = popt ++ r4 /\
             c4 = [] ++ [firstn (length inp - length r1) inp]).
  { apply in_exec_opt in H4 as [H4 | H4].
    - apply in_exec_seq in H4 as ([rb cb] & Hb & H4).
      apply in_exec_lit in Hb as (Hr3 & ->).
      apply in_exec_plus in H4 as ((w & _ & _ & Hrb) & ->).
      exists (`"-" ++ w). rewrite Hr3, Hrb, <- app_assoc. auto.
    - injection H4 as -> ->. exists []. auto. }
  destruct Hopt as (popt & Hr3 & ->). clear H4.
  apply in_exec_seq in H as ([r5 c5] & H5 & H).
  apply in_exec_lit in H5 as (Hr4 & ->).
  apply in_exec_seq in H as ([r5' c5'] & H5' & H).
  assert (Hs : exists sfx, (sfx = [] \/ sfx = `"s") /\ r5 = sfx ++ r5' /\
                           c5' = [] ++ [firstn (length inp - length r1) inp]).
  { apply in_exec_opt in H5' as [H5' | H5'].
    - apply in_exec_lit in H5' as (Hr5 & ->). exists `"s". auto.
    - injection H5' as -> ->. exists []. auto. }
  destruct Hs as (sfx & Hsfx & Hr5 & ->). clear H5'.
  apply in_exec_seq in H as ([r5'' c5''] & H5'' & H).
  apply in_exec_lit in H5'' as (Hr5' & ->).
  apply in_exec_seq in H as ([r6 c6] & H6 & H).
  apply in_exec_group in H6 as (c6' & H6 & ->).
  apply in_exec_seq in H6 as ([rc cc] & Hc & H6).
  apply in_exec_lit in Hc as (Hr5'' & ->).
  apply in_exec_plus in H6 as ((x & Hx & Hxd & Hrc) & ->).
  apply in_exec_seq in H as ([r7 c7] & H7 & H).
  apply in_exec_lit in H7 as (Hr6 & ->).
  apply in_exec_eol in H as (-> & -> & Hrest).
  exists ds, t, (pd ++ popt), sfx, x.
  repeat split; try assumption.
  - rewrite Hinp, Hra, Hr1, Hr2, Hr2', Hr2'', Hr3, Hr4, Hr5, Hr5', Hr5'', Hrc, Hr6.
    rewrite <- !app_assoc. reflexivity.
  - rewrite Hinp, Hra, Hr5'', Hrc. rewrite !firstn_consumed2. reflexivity.
Qed.

(** The parts of a well-formed name are one way to match the generic
    pattern. *)
Lemma generic_complete (ds pd popt sfx x : str) (t : ascii) :
  ds <> [] -> forallb is_digit ds = true ->
  is_f_or_d t = true ->
  pd <> [] -> forallb is_digit pd = true ->
  popt = [] \/
    (exists w, w <> [] /\ forallb is_word_or_dash w = true /\ popt = `"-" ++ w) ->
  sfx = [] \/ sfx = `"s" ->
  x <> [] -> forallb is_digit_or_dot x = true ->
  let inp := `"8000-" ++ ds ++ `"-" ++ [t] ++ `"-" ++ pd ++ popt ++ `"-image" ++
             sfx ++ `"-" ++ `"eft" ++ x ++ `".tar" in
  In ([], [`"8000-" ++ ds; `"eft" ++ x])
     (exec false inp generic_pattern (inp, [])).
Proof.
  intros Hds Hdd Ht Hpd Hpdd Hpopt Hsfx Hx Hxd inp.
  unfold generic_pattern. cbn [seqs].
  set (r6 := `"eft" ++ x ++ `".tar").
  set (r5' := `"-" ++ r6).
  set (r5 := sfx ++ r5').
  set (r4 := `"-image" ++ r5).
  set (r3 := popt ++ r4).
  set (r2 := pd ++ r3).
  set (r1b := `"-" ++ r2).
  set (r1a := [t] ++ r1b).
  set (r1 := `"-" ++ r1a).
  set (c1 := [`"8000-" ++ ds]).
  assert (Einp : inp = `"8000-" ++ ds ++ r1).
  { unfold inp, r1, r1a, r1b, r2, r3, r4, r5, r5', r6.
    rewrite <- ?app_assoc. reflexivity. }
  apply in_exec_seq. exists (inp, []). split.
  { apply in_exec_bol. auto. }
  apply in_exec_seq. exists (r1, c1). split.
  { apply in_exec_group. exists []. split.
    - apply in_exec_seq. exists (ds ++ r1, []). split.
      + apply in_exec_lit. auto.
      + apply in_exec_plus. split; [|reflexivity]. exists ds. auto.
    - unfold c1. rewrite Einp. rewrite firstn_consumed2. reflexivity. }
  apply in_exec_seq. exists (r1a, c1). split.
  { apply in_exec_lit. auto. }
  apply in_exec_seq. exists (r1b, c1). split.
  { apply in_exec_cls. split; [|reflexivity]. exists t. auto. }
  apply in_exec_seq. exists (r2, c1). split.
  { apply in_exec_lit. auto. }
  apply in_exec_seq. exists (r3, c1). split.
  { apply in_exec_plus. split; [|reflexivity]. exists pd. auto. }
  apply in_exec_seq. exists (r4, c1). split.
  { apply in_exec_opt. destruct Hpopt as [-> | (w & Hw & Hwd & ->)].
    - right. reflexivity.
    - left. apply in_exec_seq. exists (w ++ r4, c1). split.
      + apply in_exec_lit. unfold r3. rewrite <- app_assoc. auto.
      + apply in_exec_plus. split; [|reflexivity]. exists w. auto. }
  apply in_exec_seq. exists (r5, c1). split.
  { apply in_exec_lit. auto. }
  apply in_exec_seq. exists (r5', c1). split.
  { apply in_exec_opt. destruct Hsfx as [-> | ->].
    - right. reflexivity.
    - left. apply in_exec_lit. auto. }
  apply in_exec_seq. exists (r6, c1). split.
  { apply in_exec_lit. auto. }
  apply in_exec_seq. exists (`".tar", c1 ++ [`"eft" ++ x]). split.
  { apply in_exec_group. exists c1. split.
    - apply in_exec_seq. exists (x ++ `".tar", c1). split.
      + apply in_exec_lit. auto.
      + apply in_exec_plus. split; [|reflexivity]. exists x. auto.
    - unfold r6. rewrite firstn_consumed2. reflexivity. }
  apply in_exec_seq. exists ([], c1 ++ [`"eft" ++ x]). split.
  { apply in_exec_lit. split; [|reflexivity]. rewrite app_nil_r. reflexivity. }
  apply in_exec_eol. auto.
Qed.

(** Two readings of one name agree on the release and on the eft tag. *)
Lemma name_parts_unique (ds ds' m m' x x' rest : str) :
  forallb is_digit ds = true -> forallb is_digit ds' = true ->
  forallb is_digit_or_dot x = true -> forallb is_digit_or_dot x' = true ->
  rest = [] \/ rest = ["010"%char] ->
  `"8000-" ++ ds ++ `"-" ++ m ++ `"eft" ++ x ++ `".tar" =
  `"8000-" ++ ds' ++ `"-" ++ m' ++ `"eft" ++ x' ++ `".tar" ++ rest ->
  ds = ds' /\ x = x' /\ m = m' /\ rest = [].
Proof.
  intros Hd Hd' Hx Hx' Hrest E.
  assert (rest = []) as ->.
  { destruct Hrest as [-> | ->]; [reflexivity|]. exfalso.
    change (`".tar") with (`".ta" ++ ["r"%char]) in E at 1.
    rewrite !app_assoc in E. apply app_inj_tail in E as [_ Hc].
    discriminate Hc. }
  rewrite app_nil_r in E.
  apply app_inv_head in E.
  pose proof E as E1.
  apply (@class_run_unique is_digit) in E1; try assumption;
    [|reflexivity|reflexivity].
  destruct E1 as [<- E1]. apply app_inv_head in E1.
  change (`"eft") with (`"ef" ++ ["t"%char]) in E1.
  rewrite !app_assoc in E1. apply app_inv_tail in E1.
  rewrite <- !app_assoc in E1. cbn [app] in E1.
  rewrite !app_assoc in E1.
  change (?a ++ "t"%char :: ?b) with (a ++ "t"%char :: b) in E1.
  assert (E2 : (m ++ `"ef") ++ "t"%char :: x = (m' ++ `"ef") ++ "t"%char :: x').
  { rewrite <- !app_assoc. cbn [app]. rewrite <- !app_assoc in E1. cbn [app] in E1.
    exact E1. }
  apply (@class_run_unique_end is_digit_or_dot) in E2;
    [|assumption|assumption|reflexivity].
  destruct E2 as [<- E2]. apply app_inv_tail in E2. auto.
Qed.

Lemma is_release_id_intro (ds : str) :
  ds <> [] -> forallb is_digit ds = true -> is_release_id (`"8000-" ++ ds) = true.
Proof.
  intros Hne Hd. unfold is_release_id. rewrite strip_prefix_app.
  apply isdigit_spec. auto.
Qed.

Lemma is_eft_tag_intro (x : str) :
  x <> [] -> forallb is_digit_or_dot x = true -> is_eft_tag (`"eft" ++ x) = true.
Proof.
  intros Hne Hd. unfold is_eft_tag. rewrite strip_prefix_app.
  destruct x; [congruence | exact Hd].
Qed.

Lemma re_match_In (r : regex) (s : str) (groups : list str) :
  re_match false r s = Some groups ->
  exists rest, In (rest, groups) (exec false s r (s, [])).
Proof.
  unfold re_match, re_match_state.
  destruct (exec false s r (s, [])) as [|[rest caps] l]; [discriminate|].
  cbn. intros [= <-]. exists rest. left. reflexivity.
Qed.

(** What a name the resolver can parse looks like. *)
Lemma parse_sound (filename base eft : str) :
  parse_image_tar_name filename = Some (base, eft) ->
  is_release_id base = true /\ is_eft_tag eft = true /\
  exists mid rest,
    filename = base ++ `"-" ++ mid ++ `"-" ++ eft ++ `".tar" ++ rest /\
    (rest = [] \/ rest = ["010"%char]).
Proof.
  unfold parse_image_tar_name.
  assert (Hshape : forall groups,
            nth_error groups 0 = Some base -> nth_error groups 1 = Some eft ->
            (exists rest ds mid x,
               ds <> [] /\ forallb is_digit ds = true /\
               x <> [] /\ forallb is_digit_or_dot x = true /\
               filename = `"8000-" ++ ds ++ `"-" ++ mid ++ `"-" ++ `"eft" ++ x ++
                          `".tar" ++ rest /\
               (rest = [] \/ rest = ["010"%char]) /\
               groups = [`"8000-" ++ ds; `"eft" ++ x]) ->
            is_release_id base = true /\ is_eft_tag eft = true /\
            exists mid rest,
              filename = base ++ `"-" ++ mid ++ `"-" ++ eft ++ `".tar" ++ rest /\
              (rest = [] \/ rest = ["010"%char])).
  { intros groups H0 H1 (rest & ds & mid & x & Hds & Hdd & Hx & Hxd & E & Hr & ->).
    cbn in H0, H1. injection H0 as <-. injection H1 as <-.
    split; [apply is_release_id_intro; assumption|].
    split; [apply is_eft_tag_intro; assumption|].
    exists mid, rest. split; [|exact Hr]. rewrite E. reflexivity. }
  cbn [patterns match_patterns].
  destruct (re_match false fixed_pattern filename) as [groups|] eqn:E1.
  { destruct (nth_error groups 0) as [b|] eqn:H0; [|discriminate].
    destruct (nth_error groups 1) as [e|] eqn:H1; [|discriminate].
    destruct (truthy (Some b) && truthy (Some e)); [|discriminate].
    intros Heq; inversion Heq; subst b e. apply (Hshape groups H0 H1).
    apply re_match_In in E1 as [rest E1].
    change fixed_pattern with (archive_pattern `"-f-" `"-image-") in E1.
    apply archive_sound in E1
      as (ds & mid & x & Hds & Hdd & Hx & Hxd & E & Hr & Hc).
    exists rest, ds, (`"f-" ++ mid ++ `"-image"), x.
    repeat split; try assumption. rewrite E at 1. rewrite <- !app_assoc.
    reflexivity. }
  destruct (re_match false distributed_pattern filename) as [groups|] eqn:E2.
  { destruct (nth_error groups 0) as [b|] eqn:H0; [|discriminate].
    destruct (nth_error groups 1) as [e|] eqn:H1; [|discriminate].
    destruct (truthy (Some b) && truthy (Some e)); [|discriminate].
    intros Heq; inversion Heq; subst b e. apply (Hshape groups H0 H1).
    apply re_match_In in E2 as [rest E2].
    change distributed_pattern with (archive_pattern `"-d-" `"-images-") in E2.
    apply archive_sound in E2
      as (ds & mid & x & Hds & Hdd & Hx & Hxd & E & Hr & Hc).
    exists rest, ds, (`"d-" ++ mid ++ `"-images"), x.
    repeat split; try assumption. rewrite E at 1. rewrite <- !app_assoc.
    reflexivity. }
  destruct (re_match false generic_pattern filename) as [groups|] eqn:E3;
    [|discriminate].
  destruct (nth_error groups 0) as [b|] eqn:H0; [|discriminate].
  destruct (nth_error groups 1) as [e|] eqn:H1; [|discriminate].
  destruct (truthy (Some b) && truthy (Some e)); [|discriminate].
  intros Heq; inversion Heq; subst b e. apply (Hshape groups H0 H1).
  apply re_match_In in E3 as [rest E3].
  apply generic_sound in E3
    as (ds & t & mid & sfx & x & Hds & Hdd & Ht & Hsfx & Hx & Hxd & E & Hr & Hc).
  exists rest, ds, ([t] ++ `"-" ++ mid ++ `"-image" ++ sfx), x.
  repeat split; try assumption. rewrite E at 1. rewrite <- !app_assoc.
  reflexivity.
Qed.

(** A pattern for [-image-] rejects a name with [-images-], and the
    other way round. *)
Lemma archive_rejects_other_image (mark' image image' ds mid x : str) :
  forallb is_digit ds = true -> forallb is_digit_or_dot x = true ->
  (image = `"-image-" /\ image' = `"-images-") \/
  (image = `"-images-" /\ image' = `"-image-") ->
  re_match false (archive_pattern ("-"%char :: mark') image)
    (`"8000-" ++ ds ++ ("-"%char :: mark') ++ mid ++ image' ++ `"eft" ++ x ++ `".tar")
  = None.
Proof.
  intros Hdd Hxd Himg. unfold re_match, re_match_state.
  rewrite no_match_if_no_way; [reflexivity|].
  intros [rest' caps'] H0.
  apply archive_sound in H0
    as (ds' & mid' & x' & Hds' & Hdd' & Hx' & Hxd' & Hinp & Hrest & _).
  assert (E : `"8000-" ++ ds ++ `"-" ++ (mark' ++ mid ++ image') ++ `"eft" ++ x ++ `".tar"
              = `"8000-" ++ ds' ++ `"-" ++ (mark' ++ mid' ++ image) ++ `"eft" ++ x' ++
                `".tar" ++ rest').
  { rewrite <- ?app_assoc. rewrite <- ?app_assoc in Hinp. exact Hinp. }
  apply name_parts_unique in E as (_ & _ & E & _); try assumption.
  apply app_inv_head in E. apply (f_equal (@rev ascii)) in E.
  rewrite !rev_app_distr in E.
  destruct Himg as [[-> ->] | [-> ->]]; cbn in E; discriminate E.
Qed.

Lemma generic_match (ds pd popt sfx x : str) (t : ascii) :
  ds <> [] -> forallb is_digit ds = true ->
  is_f_or_d t = true ->
  pd <> [] -> forallb is_digit pd = true ->
  popt = [] \/
    (exists w, w <> [] /\ forallb is_word_or_dash w = true /\ popt = `"-" ++ w) ->
  sfx = [] \/ sfx = `"s" ->
  x <> [] -> forallb is_digit_or_dot x = true ->
  re_match false generic_pattern
    (`"8000-" ++ ds ++ `"-" ++ [t] ++ `"-" ++ pd ++ popt ++ `"-image" ++
     sfx ++ `"-" ++ `"eft" ++ x ++ `".tar")
  = Some [`"8000-" ++ ds; `"eft" ++ x].
Proof.
  intros Hds Hdd Ht Hpd Hpdd Hpopt Hsfx Hx Hxd.
  pose proof (@generic_complete ds pd popt sfx x t Hds Hdd Ht Hpd Hpdd Hpopt
                Hsfx Hx Hxd) as Hin.
  cbv zeta in Hin.
  unfold re_match, re_match_state.
  apply (@hd_error_same _ _ snd _ _ Hin).
  intros [rest' caps'] H0. cbn [snd].
  apply generic_sound in H0
    as (ds' & t' & mid' & sfx' & x' & Hds' & Hdd' & Ht' & Hsfx' & Hx' & Hxd' &
        Hinp & Hrest & ->).
  assert (E : `"8000-" ++ ds ++ `"-" ++
                ([t] ++ `"-" ++ pd ++ popt ++ `"-image" ++ sfx ++ `"-") ++
                `"eft" ++ x ++ `".tar"
              = `"8000-" ++ ds' ++ `"-" ++
                ([t'] ++ `"-" ++ mid' ++ `"-image" ++ sfx' ++ `"-") ++
                `"eft" ++ x' ++ `".tar" ++ rest').
  { rewrite <- ?app_assoc. rewrite <- ?app_assoc in Hinp. exact Hinp. }
  apply name_parts_unique in E as (<- & <- & _ & _); try assumption.
  reflexivity.
Qed.

(** A mixed name is parsed by the third pattern. *)
Lemma parse_mixed_name (ds pd popt x : str) (t : ascii) (image : str) :
  ds <> [] -> forallb is_digit ds = true ->
  pd <> [] -> forallb is_digit pd = true ->
  popt = [] \/
    (exists w, w <> [] /\ forallb is_word_or_dash w = true /\ popt = `"-" ++ w) ->
  x <> [] -> forallb is_digit_or_dot x = true ->
  (t = "f"%char /\ image = `"-images-") \/ (t = "d"%char /\ image = `"-image-") ->
  parse_image_tar_name
    (`"8000-" ++ ds ++ ("-"%char :: t :: `"-") ++ pd ++ popt ++ image ++
     `"eft" ++ x ++ `".tar")
  = Some (`"8000-" ++ ds, `"eft" ++ x).
Proof.
  intros Hds Hdd Hpd Hpdd Hpopt Hx Hxd Hshape.
  unfold parse_image_tar_name. cbn [patterns match_patterns].
  set (filename := `"8000-" ++ ds ++ _).
  assert (H1 : re_match false fixed_pattern filename = None).
  { change fixed_pattern
      with (archive_pattern ("-"%char :: "f"%char :: `"-") `"-image-").
    destruct Hshape as [[-> ->] | [-> ->]]; unfold filename.
    - rewrite (app_assoc pd popt).
      apply (@archive_rejects_other_image `"f-" `"-image-" `"-images-" ds
               (pd ++ popt) x Hdd Hxd).
      left. auto.
    - apply (@archive_no_match `"-" `"-image-" ds
               (`"-" ++ pd ++ popt ++ `"-image-" ++ `"eft" ++ x ++ `".tar")
               "f"%char "d"%char Hdd). discriminate. }
  assert (H2 : re_match false distributed_pattern filename = None).
  { change distributed_pattern
      with (archive_pattern ("-"%char :: "d"%char :: `"-") `"-images-").
    destruct Hshape as [[-> ->] | [-> ->]]; unfold filename.
    - apply (@archive_no_match `"-" `"-images-" ds
               (`"-" ++ pd ++ popt ++ `"-images-" ++ `"eft" ++ x ++ `".tar")
               "d"%char "f"%char Hdd). discriminate.
    - rewrite (app_assoc pd popt).
      apply (@archive_rejects_other_image `"d-" `"-images-" `"-image-" ds
               (pd ++ popt) x Hdd Hxd).
      right. auto. }
  rewrite H1, H2.
  assert (H3 : re_match false generic_pattern filename =
               Some [`"8000-" ++ ds; `"eft" ++ x]).
  { destruct Hshape as [[-> ->] | [-> ->]]; unfold filename.
    - apply (@generic_match ds pd popt `"s" x "f"%char); auto.
    - apply (@generic_match ds pd popt [] x "d"%char); auto. }
  rewrite H3. reflexivity.
Qed.

(** X13.  The third pattern makes the resolver accept the two mixed
    shapes as well: for [<rel>-f-<platform>-images-<eft>.tar] and
    [<rel>-d-<platform>-image-<eft>.tar] the installer archive name is
    [<rel>-iso-<eft>.tar], as for the two regular shapes. *)
Theorem mixed_shapes_are_accepted (rel plat eft : str) :
  is_release_id rel = true -> is_platform_segment plat = true ->
  is_eft_tag eft = true ->
  expected_iso_name (rel ++ `"-f-" ++ plat ++ `"-images-" ++ eft ++ `".tar")
    = Some (rel ++ `"-iso-" ++ eft ++ `".tar") /\
  expected_iso_name (rel ++ `"-d-" ++ plat ++ `"-image-" ++ eft ++ `".tar")
    = Some (rel ++ `"-iso-" ++ eft ++ `".tar").
Proof.
  intros Hr Hp He.
  apply is_release_id_spec in Hr as (ds & -> & Hds & Hdd).
  apply is_platform_segment_spec in Hp as (pd & popt & -> & Hpd & Hpdd & Hpopt).
  apply is_eft_tag_spec in He as (x & -> & Hx & Hxd).
  split; apply expected_iso_name_parse.
  - pose proof (@parse_mixed_name ds pd popt x "f"%char `"-images-"
                  Hds Hdd Hpd Hpdd Hpopt Hx Hxd
                  (or_introl (conj eq_refl eq_refl))) as Hm.
    etransitivity; [|exact Hm]. f_equal. rewrite <- !app_assoc. reflexivity.
  - pose proof (@parse_mixed_name ds pd popt x "d"%char `"-image-"
                  Hds Hdd Hpd Hpdd Hpopt Hx Hxd
                  (or_intror (conj eq_refl eq_refl))) as Hm.
    etransitivity; [|exact Hm]. f_equal. rewrite <- !app_assoc. reflexivity.
Qed.

Lemma X13_witness :
  expected_iso_name `"8000-2512-f-8101-32FH-images-eft15.1.tar"
    = Some `"8000-2512-iso-eft15.1.tar" /\
  expected_iso_name `"8000-2512-d-8808-image-eft15.1.tar"
    = Some `"8000-2512-iso-eft15.1.tar".
Proof.
  split.
  - exact (proj1 (@mixed_shapes_are_accepted `"8000-2512" `"8101-32FH" `"eft15.1"
                    eq_refl eq_refl eq_refl)).
  - exact (proj2 (@mixed_shapes_are_accepted `"8000-2512" `"8808" `"eft15.1"
                    eq_refl eq_refl eq_refl)).
Defined.

Lemma startswith_app (p r : str) : startswith p (p ++ r) = true.
Proof. apply startswith_spec. exists r. reflexivity. Qed.

(** X14.  Whatever the resolver returns belongs to an image archive
    whose name starts with a release identifier [8000-<digits>] and ends
    with an eft tag and [.tar]: it is the installer archive
    [<rel>-iso-<eft>.tar] beside the image archive when that exists, and
    otherwise a file the directory listing gave whose name starts with
    the release identifier.  For any other name the resolver returns
    nothing. *)
Theorem resolver_result {W} `{OS W} (w : W) (path iso : str) :
  find_iso_tar_from_image_tar w path = Some iso ->
  exists rel eft mid rest,
    is_release_id rel = true /\ is_eft_tag eft = true /\
    path_name (os_resolve w path) =
      rel ++ `"-" ++ mid ++ `"-" ++ eft ++ `".tar" ++ rest /\
    (rest = [] \/ rest = ["010"%char]) /\
    startswith `"8000-" (path_name (os_resolve w path)) = true /\
    let expected :=
      path_div (path_parent (os_resolve w path))
               (rel ++ `"-iso-" ++ eft ++ `".tar") in
    (os_exists w expected = Ok true /\ iso = expected) \/
    (os_exists w expected = Ok false /\
     exists files,
       os_glob w (path_parent (os_resolve w path)) `"*-iso-*.tar" = Ok files /\
       In iso files /\ startswith rel (path_name iso) = true).
Proof.
  unfold find_iso_tar_from_image_tar, find_iso_tar_body. cbv zeta.
  destruct (parse_image_tar_name (path_name (os_resolve w path)))
    as [[rel eft]|] eqn:Ep; [|discriminate].
  destruct (parse_sound _ Ep) as (Hr & He & mid & rest & En & Hrest).
  intros Hf. exists rel, eft, mid, rest.
  repeat (split; [assumption|]). split.
  { rewrite En. apply is_release_id_spec in Hr as (ds & -> & _).
    rewrite <- !app_assoc. apply startswith_app. }
  destruct (os_exists w _) as [[|]|e] eqn:Ex; [| |discriminate].
  - left. split; [reflexivity|]. congruence.
  - right. split; [reflexivity|].
    destruct (os_glob w _ _) as [files|e] eqn:Eg; [|discriminate].
    exists files. split; [reflexivity|].
    apply find_some in Hf. exact Hf.
Qed.

Lemma X14_witness :
  find_iso_tar_from_image_tar c7_world `"/rel/8000-2512-f-8101-image-eft15.1.tar"
    = Some `"/rel/8000-2512-iso-eft15.1.tar" /\
  startswith `"8000-"
    (path_name (os_resolve c7_world `"/rel/8000-2512-f-8101-image-eft15.1.tar"))
    = true.
Proof.
  assert (Hf : find_iso_tar_from_image_tar c7_world
                 `"/rel/8000-2512-f-8101-image-eft15.1.tar"
               = Some `"/rel/8000-2512-iso-eft15.1.tar")
    by (vm_compute; reflexivity).
  split; [exact Hf|].
  destruct (@resolver_result SimpleWorld SimpleOS c7_world _ _ Hf)
    as (rel & eft & mid & rest & _ & _ & _ & _ & Hs & _).
  exact Hs.
Defined.

(* ================================================================== *)
(** * The arguments, the inputs of a run and the build command *)
(* ================================================================== *)

(** X15.  A positional image archive decides the mode: [--iso-tar] and
    [--image-tar] are not consulted, so that a run whose installer
    archive cannot be found exits with 1 also when both were given. *)
Theorem positional_image_takes_precedence {W} `{OS W} (w : W) (args : Args)
    (iso_tar image_tar_flag : option str) :
  truthy args.(arg_image_tar) = true ->
  main w (with_flags iso_tar image_tar_flag args) = main w args /\
  (find_iso_tar_from_image_tar w (py_str args.(arg_image_tar)) = None ->
   main w (with_flags iso_tar image_tar_flag args) = (1%Z, None)).
Proof.
  intros Ht. unfold main, resolve_inputs, with_flags. cbn [arg_image_tar
    arg_iso_tar arg_image_tar_flag arg_platform arg_docker_name arg_target
    arg_no_cleanup arg_temp_dir]. rewrite Ht. split; [reflexivity|].
  intros ->. reflexivity.
Qed.

Lemma X15_witness :
  main c7_world (with_flags (Some `"/rel/other-iso.tar") (Some `"/rel/other.tar")
                   (easy_args None))
  = main c7_world (easy_args None).
Proof.
  exact (proj1 (@positional_image_takes_precedence SimpleWorld SimpleOS c7_world
                  (easy_args None) (Some `"/rel/other-iso.tar")
                  (Some `"/rel/other.tar") eq_refl)).
Defined.

Section Inputs.

Context {W : Type} `{OS W}.

Lemma inputs_ret {A} (a : A) : keeps_inputs (ret (W:=W) a).
Proof. intros s. reflexivity. Qed.

Lemma inputs_raise {A} (e : exn) : keeps_inputs (raise (W:=W) (A:=A) e).
Proof. intros s. reflexivity. Qed.

Lemma inputs_log (l : level) (m : message) : keeps_inputs (log (W:=W) l m).
Proof. intros s. reflexivity. Qed.

Lemma inputs_get_ctx : keeps_inputs (get_ctx (W:=W)).
Proof. intros s. reflexivity. Qed.

Lemma inputs_ask {A} (f : W -> outcome A) : keeps_inputs (ask f).
Proof. intros s. reflexivity. Qed.

Lemma inputs_ask_pure {A} (f : W -> A) : keeps_inputs (ask_pure f).
Proof. intros s. reflexivity. Qed.

Lemma inputs_act {A} (f : W -> outcome A * W) : keeps_inputs (act f).
Proof. intros s. unfold act. destruct (f (st_world s)). reflexivity. Qed.

Lemma inputs_modify_ctx (f : Ctx -> Ctx) :
  (forall c, inputs_of (f c) = inputs_of c) -> keeps_inputs (modify_ctx (W:=W) f).
Proof. intros Hf s. unfold modify_ctx. cbn [snd st_ctx]. apply Hf. Qed.

Lemma inputs_bind {A B} (m : M W A) (k : A -> M W B) :
  keeps_inputs m -> (forall a, keeps_inputs (k a)) -> keeps_inputs (bind m k).
Proof.
  intros Hm Hk s. unfold bind. specialize (Hm s).
  destruct (m s) as [[a|e] s']; cbn [snd] in *.
  - rewrite (Hk a s'). exact Hm.
  - exact Hm.
Qed.

Lemma inputs_try_except {A} (m : M W A) (h : exn -> M W A) :
  keeps_inputs m -> (forall e, keeps_inputs (h e)) -> keeps_inputs (try_except m h).
Proof.
  intros Hm Hh s. unfold try_except. specialize (Hm s).
  destruct (m s) as [[a|e] s']; cbn [snd] in *.
  - exact Hm.
  - rewrite (Hh e s'). exact Hm.
Qed.

Lemma inputs_try_finally {A} (m : M W A) (f : M W unit) :
  keeps_inputs m -> keeps_inputs f -> keeps_inputs (try_finally m f).
Proof.
  intros Hm Hf s. unfold try_finally. specialize (Hm s).
  destruct (m s) as [r s']. specialize (Hf s').
  destruct (f s') as [[u|e] s'']; cbn [snd] in *; congruence.
Qed.

Ltac inputs_with tac :=
  repeat first
    [ tac
    | match goal with |- forall _, _ => intro end
    | apply inputs_ret | apply inputs_raise | apply inputs_log
    | apply inputs_get_ctx | apply inputs_ask | apply inputs_ask_pure
    | apply inputs_act
    | apply inputs_modify_ctx; reflexivity
    | match goal with
      | |- keeps_inputs (bind _ _) => apply inputs_bind
      | |- keeps_inputs (try_except _ _) => apply inputs_try_except
      | |- keeps_inputs (try_finally _ _) => apply inputs_try_finally
      | |- keeps_inputs (if ?b then _ else _) => destruct b
      | |- keeps_inputs (match ?x with _ => _ end) => destruct x
      | |- keeps_inputs (raise_unless ?b _) => unfold raise_unless
      end ].

Lemma inputs_validate : keeps_inputs _validate_inputs.
Proof. unfold _validate_inputs. inputs_with fail. Qed.

Lemma inputs_missing_files (root : str) (files : list str) :
  keeps_inputs (missing_files root files).
Proof. induction files as [|f files IH]; cbn [missing_files]; inputs_with ltac:(exact IH). Qed.

Lemma inputs_cleanup_lines (m : marker) (lines : list str) :
  keeps_inputs (cleanup_lines m lines).
Proof.
  induction lines as [|l lines IH]; cbn [cleanup_lines];
    inputs_with ltac:(exact IH).
Qed.

Lemma inputs_docker_lines (lines : list str) :
  keeps_inputs (docker_image_path_lines lines).
Proof.
  induction lines as [|l lines IH]; cbn [docker_image_path_lines];
    inputs_with ltac:(exact IH).
Qed.

Lemma inputs_run : keeps_inputs run.
Proof.
  unfold run, extract_archives, configure, _initial_file_check,
    _create_temp_directory, _extract_tar_file,
    _refine_platform_from_extracted_files, _find_iso_file,
    _extract_sdk_version_from_iso, _setup_logging_directory,
    _run_bake_and_build, _cleanup_img_drop_folder, _cleanup_yaml_drop_folder,
    cleanup_drop_folder, report, _extract_docker_image_path,
    _cleanup_temp_directory.
  inputs_with ltac:(first [ apply inputs_missing_files
                           | apply inputs_cleanup_lines
                           | apply inputs_docker_lines ]).
Qed.

(** X17.  Neither [_validate_inputs] nor a run changes what the object
    was given: the two archive paths, the docker name, the target, the
    cleanup flag, the scratch directory asked for and the paths of the
    script, the build script and the manifest are the same afterwards,
    whether the step returns or raises. *)
Theorem run_keeps_inputs :
  keeps_inputs (W:=W) _validate_inputs /\ keeps_inputs (W:=W) run /\
  forall s, inputs_of (st_ctx (snd (run (snd (_validate_inputs s)))))
            = inputs_of (st_ctx s).
Proof.
  split; [exact inputs_validate|]. split; [exact inputs_run|].
  intros s. rewrite inputs_run. apply inputs_validate.
Qed.

Lemma inputs_workflow : keeps_inputs workflow.
Proof.
  unfold workflow, extract_archives, configure, _initial_file_check,
    _create_temp_directory, _extract_tar_file,
    _refine_platform_from_extracted_files, _find_iso_file,
    _extract_sdk_version_from_iso, _setup_logging_directory,
    _run_bake_and_build, _cleanup_img_drop_folder, _cleanup_yaml_drop_folder,
    cleanup_drop_folder, report, _extract_docker_image_path.
  inputs_with ltac:(first [ apply inputs_missing_files
                           | apply inputs_cleanup_lines
                           | apply inputs_docker_lines ]).
Qed.

(** X21.  With [--no-cleanup] the [finally] clause of [run] does
    nothing: the run is its [try] block, and the scratch directory with
    the extracted files is left as the workflow left it.  With cleanup
    on, what the [finally] clause removes is the directory the workflow
    recorded, when it is still there. *)
Theorem no_cleanup_leaves_scratch_directory (s : state W) :
  (cleanup (st_ctx s) = false -> run s = workflow s) /\
  (cleanup (st_ctx s) = true ->
   forall d, temp_dir (st_ctx (snd (workflow s))) = Some d ->
     os_exists (st_world (snd (workflow s))) d = Ok true ->
     st_world (snd (run s)) = snd (os_rmtree (st_world (snd (workflow s))) d)).
Proof.
  pose proof (inputs_workflow s) as Hi.
  assert (Hc : cleanup (st_ctx (snd (workflow s))) = cleanup (st_ctx s)).
  { unfold inputs_of in Hi. inversion Hi. reflexivity. }
  unfold run. fold workflow. unfold try_finally.
  destruct (workflow s) as [r s1]. cbn [snd] in *.
  unfold _cleanup_temp_directory, bind, get_ctx, ask, act, ret.
  cbn [st_ctx st_world]. split.
  - intros Hf. rewrite Hf in Hc. rewrite Hc.
    destruct (temp_dir (st_ctx s1)); reflexivity.
  - intros Ht d Hd Hx. rewrite Ht in Hc. rewrite Hc, Hd, Hx.
    destruct (os_rmtree (st_world s1) d) as [[u|e] w']; reflexivity.
Qed.

End Inputs.

Lemma X21_witness :
  cleanup (st_ctx no_cleanup_state) = false /\
  run no_cleanup_state = workflow no_cleanup_state /\
  os_exists (st_world (snd (run no_cleanup_state))) `"/tmp/create_single_docker_"
    = Ok true.
Proof.
  split; [reflexivity|]. split.
  - exact (proj1 (@no_cleanup_leaves_scratch_directory SimpleWorld SimpleOS
                    no_cleanup_state) eq_refl).
  - vm_compute. reflexivity.
Defined.

(** X16.  Without a positional image archive [main] needs both
    [--iso-tar] and [--image-tar]: with either missing or empty it exits
    with 1 before any object is made; with both it takes them as they
    are, without looking for an installer archive. *)
Theorem manual_mode_needs_both_flags {W} `{OS W} (w : W) (args : Args) :
  truthy args.(arg_image_tar) = false ->
  (truthy args.(arg_iso_tar) && truthy args.(arg_image_tar_flag) = false ->
   main w args = (1%Z, None)) /\
  (truthy args.(arg_iso_tar) && truthy args.(arg_image_tar_flag) = true ->
   resolve_inputs w args =
     Some (py_str args.(arg_iso_tar), py_str args.(arg_image_tar_flag)) /\
   exists s, snd (main w args) = Some s /\
     s.(st_ctx).(iso_tar_path) = os_resolve w (py_str args.(arg_iso_tar)) /\
     s.(st_ctx).(image_tar_path) = os_resolve w (py_str args.(arg_image_tar_flag))).
Proof.
  intros Ht. split; intros Hb.
  - unfold main, resolve_inputs. rewrite Ht, Hb. reflexivity.
  - assert (Hr : resolve_inputs w args =
                 Some (py_str args.(arg_iso_tar), py_str args.(arg_image_tar_flag))).
    { unfold resolve_inputs. rewrite Ht, Hb. reflexivity. }
    split; [exact Hr|]. unfold main. rewrite Hr.
    unfold new_CreateSingleDocker. cbv zeta.
    match goal with
    | |- context [_validate_inputs ?s0] =>
        pose proof (inputs_validate s0) as Hv;
        pose proof (inputs_run (snd (_validate_inputs s0))) as Hn;
        destruct (_validate_inputs s0) as [[u|e] s1]
    end; cbn [snd st_ctx] in Hv, Hn.
    + destruct (run s1) as [r s2]. cbn [snd] in *. exists s2.
      split; [reflexivity|]. rewrite Hv in Hn. unfold inputs_of in Hn.
      cbn [iso_tar_path image_tar_path] in Hn. inversion Hn. auto.
    + exists s1. split; [reflexivity|]. unfold inputs_of in Hv.
      cbn [iso_tar_path image_tar_path] in Hv. inversion Hv. auto.
Qed.

Lemma X16_witness :
  main c7_world (mkArgs None (Some `"/rel/8000-2512-iso-eft15.1.tar") None
                   None None `"all" false None) = (1%Z, None).
Proof.
  exact (proj1 (@manual_mode_needs_both_flags SimpleWorld SimpleOS c7_world
                  (mkArgs None (Some `"/rel/8000-2512-iso-eft15.1.tar") None
                     None None `"all" false None) eq_refl) eq_refl).
Defined.

Section BuildCommand.

Context {W : Type} `{OS W}.

Lemma refine_ctx (files : list str) (s : state W) :
  snd (_refine_platform_from_extracted_files files s) =
  mkState (set_platform (refine_platform files (platform_of s)) (st_ctx s))
          (st_world s)
          (st_log (snd (_refine_platform_from_extracted_files files s))).
Proof.
  unfold _refine_platform_from_extracted_files, refine_platform, platform_of,
    try_except.
  destruct s as [c w l]. cbn [st_ctx st_world st_log].
  destruct (qcow2_files files) as [|f rest].
  - cbn. destruct c; reflexivity.
  - destruct (_extract_platform_from_qcow2_filename (path_name f)) as [[|a q]|];
      cbn; destruct c; reflexivity.
Qed.

Lemma find_iso_file_spec (files : list str) (s s' : state W) (iso : str) :
  _find_iso_file files s = (Ok iso, s') ->
  s' = s /\
  find (fun f => str_eqb (lower (path_suffix f)) `".iso") files = Some iso.
Proof.
  unfold _find_iso_file.
  induction files as [|f files IH]; cbn [filter find].
  - discriminate.
  - destruct (str_eqb (lower (path_suffix f)) `".iso").
    + unfold ret. intros Heq; inversion Heq; subst. auto.
    + exact IH.
Qed.

Lemma setup_logging_ctx (s : state W) :
  exists d f b,
    st_ctx (snd (_setup_logging_directory s)) = set_log_paths d f b (st_ctx s).
Proof.
  unfold _setup_logging_directory, try_except, bind, get_ctx, ask_pure,
    ask, act, modify_ctx, ret, raise.
  cbn [st_ctx st_world st_log fst snd].
  destruct (os_getcwd (st_world s)) as [cwd|e0].
  2:{ cbn. eexists _, _, _. reflexivity. }
  cbn [st_ctx st_world st_log fst snd].
  match goal with
  | |- context [os_mkdir ?w ?d] => destruct (os_mkdir w d) as [[[]|e1] w1]
  end.
  2:{ cbn. eexists _, _, _. reflexivity. }
  cbn [st_ctx st_world st_log fst snd].
  match goal with
  | |- context [os_write_file ?w ?d] => destruct (os_write_file w d) as [[[]|e2] w2]
  end.
  2:{ cbn. eexists _, _, _. reflexivity. }
  cbn. eexists _, _, _. reflexivity.
Qed.

(** X18.  The build command [configure] returns is fixed by the state
    and the two lists of extracted files: the build script, [-i] with the
    first extracted file whose suffix is [.iso] in any letter case, [-p]
    with the platform after refinement by the image archive's files, [-t]
    with the target, [-d] with the docker name when one was given, and
    always [--forcesdk 24.10.2230.6.dc]. *)
Theorem build_command_shape (iso_files image_files : list str)
    (s s' : state W) (cmd : list (option str)) :
  configure iso_files image_files s = (Ok cmd, s') ->
  exists iso,
    find (fun f => str_eqb (lower (path_suffix f)) `".iso") iso_files = Some iso /\
    cmd =
      [Some `"bash"; Some s.(st_ctx).(bake_and_build_script);
       Some `"-i"; Some iso;
       Some `"-p"; refine_platform image_files (platform_of s);
       Some `"-t"; Some s.(st_ctx).(target)]
      ++ (if truthy s.(st_ctx).(docker_name)
          then [Some `"-d"; s.(st_ctx).(docker_name)] else [])
      ++ [Some `"--forcesdk"; Some `"24.10.2230.6.dc"].
Proof.
  intros Hc. pose proof (@configure_command _ _ iso_files image_files s s' cmd Hc) as Hcmd.
  unfold configure in Hc.
  apply bind_ok in Hc as (u & s1 & H1 & Hc).
  apply bind_ok in Hc as (iso & s2 & H2 & Hc).
  apply bind_ok in Hc as (u3 & s3 & H3 & Hc).
  apply bind_ok in Hc as (sdk & s4 & H4 & Hc).
  apply bind_ok in Hc as (u5 & s5 & H5 & Hc).
  apply bind_ok in Hc as (u6 & s6 & H6 & Hc).
  apply bind_ok in Hc as (c & s7 & H7 & Hc).
  apply find_iso_file_spec in H2 as [-> Hiso].
  exists iso. split; [exact Hiso|].
  pose proof (refine_ctx image_files s) as Hr. rewrite H1 in Hr. cbn [snd] in Hr.
  unfold modify_ctx in H3. inversion H3; subst s3. clear H3.
  unfold _extract_sdk_version_from_iso, ret in H4. inversion H4; subst sdk s4.
  clear H4.
  unfold modify_ctx in H5. inversion H5; subst s5. clear H5.
  match type of H6 with
  | _setup_logging_directory ?S = _ =>
      destruct (setup_logging_ctx S) as (d & f & b & Hl)
  end.
  rewrite H6 in Hl. cbn [snd st_ctx] in Hl.
  unfold get_ctx in H7. inversion H7; subst c s7. clear H7.
  unfold ret in Hc. inversion Hc; subst cmd s'. clear Hc.
  rewrite Hl, Hr. unfold _build_bake_and_build_command. reflexivity.
Qed.

End BuildCommand.

Lemma X18_witness :
  let s1 := snd (_validate_inputs c6_state0) in
  let extracted := extract_archives s1 in
  let files := match fst extracted with Ok x => x | Raise _ => ([], []) end in
  let configured := configure (fst files) (snd files) (snd extracted) in
  let cmd := match fst configured with Ok c => c | Raise _ => [] end in
  exists iso,
    find (fun f => str_eqb (lower (path_suffix f)) `".iso") (fst files) = Some iso /\
    cmd =
      [Some `"bash"; Some (snd extracted).(st_ctx).(bake_and_build_script);
       Some `"-i"; Some iso;
       Some `"-p"; refine_platform (snd files) (platform_of (snd extracted));
       Some `"-t"; Some (snd extracted).(st_ctx).(target)]
      ++ (if truthy (snd extracted).(st_ctx).(docker_name)
          then [Some `"-d"; (snd extracted).(st_ctx).(docker_name)] else [])
      ++ [Some `"--forcesdk"; Some `"24.10.2230.6.dc"].
Proof.
  intros s1 extracted files configured cmd.
  apply (@build_command_shape SimpleWorld SimpleOS (fst files) (snd files)
           (snd extracted) (snd configured) cmd).
  vm_compute. reflexivity.
Defined.

Example build_command_of_a_refined_run :
  fst (configure [`"/tmp/x/8000-x64.ISO"] [`"/tmp/x/8101-32FH-x64-25.1.2.qcow2"]
         (example_state (Some `"8202") (release_world [] [] 0 [] []))) =
  Ok [Some `"bash"; Some `"/opt/ovxr/bake-and-build/bake-and-build.sh";
      Some `"-i"; Some `"/tmp/x/8000-x64.ISO"; Some `"-p"; Some `"8101-32FH";
      Some `"-t"; Some `"all"; Some `"--forcesdk"; Some `"24.10.2230.6.dc"].
Proof. vm_compute. reflexivity. Qed.

Section ReportSuccess.

Context {W : Type} `{OS W}.

Lemma report_existing_artifact (output p : str) (s : state W) :
  fst (_extract_docker_image_path output s) = Ok (Some p) ->
  os_exists s.(st_world) p = Ok true ->
  report 0 output s =
    (Ok 0%Z,
     logged (snd (_extract_docker_image_path output s))
       [(INFO, DockerImageSavedTo p);
        (INFO, WorkflowCompletedSuccessfully (Some p))]).
Proof.
  intros He Hx.
  destruct (extract_docker_only_logs output s) as (Hw & Hc & Hne).
  specialize (Hne p He).
  unfold report. cbn [Z.eqb]. unfold bind at 1. unfold bind at 1.
  destruct (_extract_docker_image_path output s) as [r s'].
  cbn [fst snd] in *. subst r.
  destruct p as [|a p]; [congruence|].
  unfold bind, ret, log, ask, logged. cbn [st_world st_ctx st_log fst snd].
  rewrite Hw, Hx. cbn. rewrite <- app_assoc. reflexivity.
Qed.

(** X19.  When the build script exited with 0, the reporter finds an
    artifact path in its output and that path exists, the report logs
    where the image was saved and that the workflow succeeded with that
    image, and returns 0; the run returns 0 once its two guaranteed steps
    go through. *)
Theorem existing_artifact_is_success (s0 s1 : state W) (output cwd p : str) :
  run_until_report s0 = (Ok (0%Z, output, cwd), s1) ->
  fst (_extract_docker_image_path output s1) = Ok (Some p) ->
  os_exists s1.(st_world) p = Ok true ->
  report 0 output s1 =
    (Ok 0%Z,
     logged (snd (_extract_docker_image_path output s1))
       [(INFO, DockerImageSavedTo p);
        (INFO, WorkflowCompletedSuccessfully (Some p))]) /\
  (forall s3 s4,
     act (fun w => os_chdir w cwd)
       (logged (snd (_extract_docker_image_path output s1))
          [(INFO, DockerImageSavedTo p);
           (INFO, WorkflowCompletedSuccessfully (Some p))]) = (Ok tt, s3) ->
     _cleanup_temp_directory s3 = (Ok tt, s4) ->
     run s0 = (Ok 0%Z, s4)).
Proof.
  intros Hr He Hx.
  pose proof (@report_existing_artifact output p s1 He Hx) as Hp.
  split; [exact Hp|]. intros s3 s4 Hb Hc.
  destruct (@run_after_report _ _ s0 s1 _ 0%Z 0%Z output cwd Hr Hp) as [_ H2].
  exact (H2 s3 s4 Hb Hc).
Qed.

End ReportSuccess.

Lemma X19_witness :
  run_until_report (example_state (Some `"8101-32H") artifact_world) =
    (Ok (0%Z, c7_output, `"/work"),
     snd (run_until_report (example_state (Some `"8101-32H") artifact_world))) /\
  fst (report 0 c7_output
         (snd (run_until_report (example_state (Some `"8101-32H") artifact_world))))
    = Ok 0%Z.
Proof.
  assert (Hr : run_until_report (example_state (Some `"8101-32H") artifact_world) =
    (Ok (0%Z, c7_output, `"/work"),
     snd (run_until_report (example_state (Some `"8101-32H") artifact_world))))
    by (vm_compute; reflexivity).
  assert (He : fst (_extract_docker_image_path c7_output
                      (snd (run_until_report
                              (example_state (Some `"8101-32H") artifact_world))))
               = Ok (Some `"/out/img.tar")) by (vm_compute; reflexivity).
  assert (Hx : os_exists
                 (snd (run_until_report
                         (example_state (Some `"8101-32H") artifact_world))).(st_world)
                 `"/out/img.tar" = Ok true) by (vm_compute; reflexivity).
  split; [exact Hr|].
  rewrite (proj1 (@existing_artifact_is_success SimpleWorld SimpleOS _ _ _ _ _
                    Hr He Hx)).
  reflexivity.
Defined.

Example run_with_an_existing_artifact :
  fst (main artifact_world (easy_args None)) = 0%Z.
Proof. vm_compute. reflexivity. Qed.

Lemma split_app_sep (sep : ascii) (a r : str) :
  ~ In sep a -> split sep (a ++ sep :: r) = a :: split sep r.
Proof.
  induction a as [|c a IH]; intros Hn; cbn [app split].
  - rewrite Ascii.eqb_refl. reflexivity.
  - destruct (Ascii.eqb_spec c sep) as [->|N]; [cbn in Hn; tauto|].
    rewrite IH by (cbn in Hn; tauto). reflexivity.
Qed.

Lemma split_join (sep : ascii) (ls : list str) :
  ls <> [] -> (forall l, In l ls -> ~ In sep l) ->
  split sep (join sep ls) = ls.
Proof.
  induction ls as [|l ls IH]; [congruence|]. intros _ Hn.
  destruct ls as [|l2 ls].
  - cbn [join]. apply split_free. apply Hn. left. reflexivity.
  - change (join sep (l :: l2 :: ls)) with (l ++ sep :: join sep (l2 :: ls)).
    rewrite split_app_sep by (apply Hn; left; reflexivity).
    rewrite IH; [reflexivity | discriminate |].
    intros x Hx. apply Hn. right. exact Hx.
Qed.

Section BuildOutput.

Context {W : Type} `{OS W}.

Lemma build_returns_collected_lines (cmd : list (option str)) (s : state W)
    (lines : list str) (code : Z) (w' : W) :
  os_run_child s.(st_world) cmd = (Ok (lines, code), w') ->
  exists s',
    _run_bake_and_build cmd s = (Ok (code, join "010" (collected_lines lines)), s').
Proof.
  intros Hc. unfold _run_bake_and_build, try_except, bind at 1, act.
  rewrite Hc. cbn [fst snd].
  change (map rstrip (filter _ lines)) with (collected_lines lines).
  set (full_output := join "010" _).
  match goal with
  | |- exists s', match ?m ?s0 with _ => _ end = _ =>
      assert (Hr : returns (code, full_output) m)
  end.
  { apply returns_bind.
    - destruct (code =? 0)%Z; [apply succeeds_ret | apply succeeds_log].
    - intros _. apply returns_bind; [apply succeeds_cleanup|].
      intros b1. apply returns_bind; [apply succeeds_log|].
      intros _. apply returns_bind; [apply succeeds_cleanup|].
      intros b2. apply returns_bind; [apply succeeds_log|].
      intros _. apply returns_ret. }
  match goal with
  | |- exists s', match ?m ?s0 with _ => _ end = _ =>
      destruct (Hr s0) as (s' & ->)
  end.
  exists s'. reflexivity.
Qed.

(** X20.  The output the build step returns is the child's non-empty
    lines, right-trimmed and joined by line feeds, so that the cleanups
    and the artifact search, which split it at line feeds again, go
    through exactly those lines, in order (one empty line when the child
    printed nothing). *)
Theorem build_output_is_the_collected_lines (cmd : list (option str))
    (s : state W) (lines : list str) (code : Z) (w' : W) :
  os_run_child s.(st_world) cmd = (Ok (lines, code), w') ->
  (forall l, In l (collected_lines lines) -> ~ In "010"%char l) ->
  exists output s',
    _run_bake_and_build cmd s = (Ok (code, output), s') /\
    split "010" output =
      match collected_lines lines with
      | [] => [[]]
      | ls => ls
      end.
Proof.
  intros Hc Hn.
  destruct (@build_returns_collected_lines cmd s lines code w' Hc) as [s' Hb].
  exists (join "010" (collected_lines lines)), s'. split; [exact Hb|].
  destruct (collected_lines lines) as [|l ls] eqn:E; [reflexivity|].
  apply split_join; [discriminate | exact Hn].
Qed.

End BuildOutput.

Lemma X20_witness :
  exists output s',
    _run_bake_and_build [] c8_state0 = (Ok (0%Z, output), s') /\
    split "010" output = [`"building"; `"IMG_DROP_FOLDER: /tmp/drop1"; `"done"].
Proof.
  apply (@build_output_is_the_collected_lines SimpleWorld SimpleOS []
           c8_state0 c8_lines 0%Z c8_world).
  - reflexivity.
  - intros l Hl. vm_compute in Hl.
    destruct Hl as [<-|[<-|[<-|[]]]]; vm_compute; intuition discriminate.
Defined.

(* ================================================================== *)
(** * Drop-folder cleanup that succeeds *)
(* ================================================================== *)

Section CleanupSuccess.

Context {W : Type} `{OS W}.

Lemma cleanup_lines_no_marker (m : marker) (lines : list str) (s : state W) :
  (forall x, In x lines -> startswith (marker_prefix m) (strip x) = false) ->
  cleanup_lines m lines s = (Ok false, logged s [(INFO, NoDropFolderInOutput m)]).
Proof.
  intros Hno. induction lines as [|l lines IH].
  - reflexivity.
  - cbn [cleanup_lines]. rewrite (Hno l) by (left; reflexivity).
    apply IH. intros x Hx. apply Hno. right. exact Hx.
Qed.

Lemma cleanup_line_removed (m : marker) (l tail : str) (s : state W) (w' : W) :
  strip l = marker_prefix m ++ tail ->
  os_exists s.(st_world) (strip tail) = Ok true ->
  os_is_dir s.(st_world) (strip tail) = Ok true ->
  os_rmtree s.(st_world) (strip tail) = (Ok tt, w') ->
  cleanup_lines m [l] s =
  (Ok true,
   mkState s.(st_ctx) w'
           (s.(st_log) ++ [(DEBUG, CleaningUpDropFolder m (strip tail));
                           (INFO, RemovedDropFolder m (strip tail))])).
Proof.
  intros Hl He Hd Hr. cbn [cleanup_lines]. rewrite Hl.
  destruct (marker_line_folder m tail) as [-> ->].
  unfold bind, ask, ret, log, try_except, act. cbn [st_world st_ctx st_log].
  rewrite He, Hd. cbn [st_world st_ctx st_log]. rewrite Hr.
  cbn [st_world st_ctx st_log]. rewrite <- app_assoc. reflexivity.
Qed.

(** X22.  Where no line of the output, trimmed, starts with the marker's
    prefix, cleanup only logs that and returns [False].  Where the first
    such line names, after the prefix and trimmed, a directory that
    exists and [rmtree] succeeds on it, cleanup returns [True], the world
    is the one [rmtree] left and the removal is logged; the folder is the
    whole text after the first colon, further colons included. *)
Theorem cleanup_removes_the_named_folder (m : marker) (output : str)
    (s : state W) :
  ((forall x, In x (split "010" output) ->
      startswith (marker_prefix m) (strip x) = false) ->
   cleanup_drop_folder m output s =
     (Ok false, logged s [(INFO, NoDropFolderInOutput m)])) /\
  (forall (pre post : list str) (l tail : str) (w' : W),
     split "010" output = pre ++ l :: post ->
     (forall x, In x pre -> startswith (marker_prefix m) (strip x) = false) ->
     strip l = marker_prefix m ++ tail ->
     os_exists s.(st_world) (strip tail) = Ok true ->
     os_is_dir s.(st_world) (strip tail) = Ok true ->
     os_rmtree s.(st_world) (strip tail) = (Ok tt, w') ->
     cleanup_drop_folder m output s =
       (Ok true,
        mkState s.(st_ctx) w'
          (s.(st_log) ++ [(DEBUG, CleaningUpDropFolder m (strip tail));
                          (INFO, RemovedDropFolder m (strip tail))]))).
Proof.
  split.
  - intros Hno. unfold cleanup_drop_folder, try_except.
    rewrite (@cleanup_lines_no_marker m _ s Hno). reflexivity.
  - intros pre post l tail w' Hs Hpre Hl He Hd Hr.
    assert (Hm : startswith (marker_prefix m) (strip l) = true)
      by (rewrite Hl; apply marker_line_folder).
    rewrite (@cleanup_first_marker _ _ m output pre post l s Hs Hpre Hm).
    unfold cleanup_drop_folder, try_except.
    rewrite (@split_line_alone output l)
      by (rewrite Hs; apply in_or_app; right; left; reflexivity).
    rewrite (@cleanup_line_removed m l tail s w' Hl He Hd Hr). reflexivity.
Qed.

End CleanupSuccess.

Lemma X22_witness :
  fst (_cleanup_img_drop_folder c9_output c9_state0) = Ok true /\
  os_exists (st_world (snd (_cleanup_img_drop_folder c9_output c9_state0)))
    `"/tmp/drop1" = Ok false /\
  os_exists (st_world (snd (_cleanup_img_drop_folder c9_output c9_state0)))
    `"/tmp/drop2" = Ok true.
Proof.
  assert (Hs : split "010" c9_output =
               [`"building"] ++ `"IMG_DROP_FOLDER: /tmp/drop1" ::
               [`"YAML_DROP_FOLDER: /tmp/yaml1"; `"IMG_DROP_FOLDER: /tmp/drop2"])
    by (vm_compute; reflexivity).
  assert (Hpre : forall x, In x [`"building"] ->
                   startswith (marker_prefix IMG_DROP_FOLDER) (strip x) = false).
  { intros x [<-|[]]. vm_compute. reflexivity. }
  assert (Hl : strip `"IMG_DROP_FOLDER: /tmp/drop1" =
               marker_prefix IMG_DROP_FOLDER ++ `" /tmp/drop1")
    by (vm_compute; reflexivity).
  unfold _cleanup_img_drop_folder.
  rewrite (proj2 (@cleanup_removes_the_named_folder SimpleWorld SimpleOS
                    IMG_DROP_FOLDER c9_output c9_state0)
             [`"building"]
             [`"YAML_DROP_FOLDER: /tmp/yaml1"; `"IMG_DROP_FOLDER: /tmp/drop2"]
             `"IMG_DROP_FOLDER: /tmp/drop1" `" /tmp/drop1"
             (sw_remove `"/tmp/drop1" (st_world c9_state0))
             Hs Hpre Hl eq_refl eq_refl eq_refl).
  split; [reflexivity|]. split; vm_compute; reflexivity.
Defined.
